(** * repo_to_pdf.py: selection, reading, escaping and document assembly

    A shallow embedding of [repo_to_pdf.py], the script that walks the
    repository directory, picks the source files, reads them and lays them
    out as one document (title page, table of contents, one section per
    file).

    Python values are modelled as follows.
    - [str]: a list of Unicode code points ([N]); comparison is Python's,
      lexicographic on code points.
    - [bytes]: [list byte].
    - [pathlib.Path]: whether the path is absolute, and its segments;
      [Path.parts] of an absolute POSIX path begins with the anchor "/".
    - exceptions: the [result] type; [print], [open] and [doc.build] leave
      events in a trace (monad [M]).
    - the directory below the root: a finite tree ([node]) whose directories
      list their entries in the order the operating system reports them.
    - [str.lower()]: the algorithm of CPython 3.11 over the case tables of
      Unicode 14.0.0 (full lowercase mapping, final sigma).
    - [Path.rglob]: the walk of pathlib in CPython 3.11, which catches the
      [PermissionError] of a scan and lets any other [OSError] through.

    What the model leaves out: symbolic links; an error of [stat] on an
    entry that a scan has listed; a standard output that refuses a line;
    a read that fails after [open] has succeeded.  A statement below speaks
    of runs in which none of these occurs. *)

From Stdlib Require Import List String Ascii Strings.Byte NArith Arith Bool Lia.
From Stdlib Require Import Permutation Sorted QArith.
From Stdlib Require DecimalString DecimalNat DecimalFacts.
Import ListNotations.
Local Close Scope Q_scope.
Local Open Scope list_scope.

(** ** Strings *)

Definition codepoint := N.
Definition str := list codepoint.

(** A Python string literal (ASCII). *)
Definition lit (s : string) : str :=
  map N_of_ascii (list_ascii_of_string s).

Fixpoint str_eqb (a b : str) : bool :=
  match a, b with
  | [], [] => true
  | x :: a', y :: b' => N.eqb x y && str_eqb a' b'
  | _, _ => false
  end.

(** [a < b] on Python strings. *)
Fixpoint str_ltb (a b : str) : bool :=
  match a, b with
  | _, [] => false
  | [], _ :: _ => true
  | x :: a', y :: b' =>
      if N.ltb x y then true
      else if N.eqb x y then str_ltb a' b' else false
  end.

(** [a <= b] on Python strings. *)
Definition str_leb (a b : str) : bool := negb (str_ltb b a).

(** [s in SET] for a set of strings. *)
Definition mem (s : str) (set : list str) : bool := existsb (str_eqb s) set.

(** ** The case tables of CPython 3.11 (Unicode 14.0.0)

    Read off [str.lower()] itself, code point by code point. *)

(** The characters with a lowercase form of their own, each with that form,
    in ascending order; U+0130 and U+03A3 are treated apart. *)
Definition lower_pairs : list (N * N) :=
  [ (65, 97); (66, 98); (67, 99); (68, 100); (69, 101); (70, 102); (71, 103);
    (72, 104); (73, 105); (74, 106); (75, 107); (76, 108); (77, 109);
    (78, 110); (79, 111); (80, 112); (81, 113); (82, 114); (83, 115);
    (84, 116); (85, 117); (86, 118); (87, 119); (88, 120); (89, 121);
    (90, 122); (192, 224); (193, 225); (194, 226); (195, 227); (196, 228);
    (197, 229); (198, 230); (199, 231); (200, 232); (201, 233); (202, 234);
    (203, 235); (204, 236); (205, 237); (206, 238); (207, 239); (208, 240);
    (209, 241); (210, 242); (211, 243); (212, 244); (213, 245); (214, 246);
    (216, 248); (217, 249); (218, 250); (219, 251); (220, 252); (221, 253);
    (222, 254); (256, 257); (258, 259); (260, 261); (262, 263); (264, 265);
    (266, 267); (268, 269); (270, 271); (272, 273); (274, 275); (276, 277);
    (278, 279); (280, 281); (282, 283); (284, 285); (286, 287); (288, 289);
    (290, 291); (292, 293); (294, 295); (296, 297); (298, 299); (300, 301);
    (302, 303); (306, 307); (308, 309); (310, 311); (313, 314); (315, 316);
    (317, 318); (319, 320); (321, 322); (323, 324); (325, 326); (327, 328);
    (330, 331); (332, 333); (334, 335); (336, 337); (338, 339); (340, 341);
    (342, 343); (344, 345); (346, 347); (348, 349); (350, 351); (352, 353);
    (354, 355); (356, 357); (358, 359); (360, 361); (362, 363); (364, 365);
    (366, 367); (368, 369); (370, 371); (372, 373); (374, 375); (376, 255);
    (377, 378); (379, 380); (381, 382); (385, 595); (386, 387); (388, 389);
    (390, 596); (391, 392); (393, 598); (394, 599); (395, 396); (398, 477);
    (399, 601); (400, 603); (401, 402); (403, 608); (404, 611); (406, 617);
    (407, 616); (408, 409); (412, 623); (413, 626); (415, 629); (416, 417);
    (418, 419); (420, 421); (422, 640); (423, 424); (425, 643); (428, 429);
    (430, 648); (431, 432); (433, 650); (434, 651); (435, 436); (437, 438);
    (439, 658); (440, 441); (444, 445); (452, 454); (453, 454); (455, 457);
    (456, 457); (458, 460); (459, 460); (461, 462); (463, 464); (465, 466);
    (467, 468); (469, 470); (471, 472); (473, 474); (475, 476); (478, 479);
    (480, 481); (482, 483); (484, 485); (486, 487); (488, 489); (490, 491);
    (492, 493); (494, 495); (497, 499); (498, 499); (500, 501); (502, 405);
    (503, 447); (504, 505); (506, 507); (508, 509); (510, 511); (512, 513);
    (514, 515); (516, 517); (518, 519); (520, 521); (522, 523); (524, 525);
    (526, 527); (528, 529); (530, 531); (532, 533); (534, 535); (536, 537);
    (538, 539); (540, 541); (542, 543); (544, 414); (546, 547); (548, 549);
    (550, 551); (552, 553); (554, 555); (556, 557); (558, 559); (560, 561);
    (562, 563); (570, 11365); (571, 572); (573, 410); (574, 11366);
    (577, 578); (579, 384); (580, 649); (581, 652); (582, 583); (584, 585);
    (586, 587); (588, 589); (590, 591); (880, 881); (882, 883); (886, 887);
    (895, 1011); (902, 940); (904, 941); (905, 942); (906, 943); (908, 972);
    (910, 973); (911, 974); (913, 945); (914, 946); (915, 947); (916, 948);
    (917, 949); (918, 950); (919, 951); (920, 952); (921, 953); (922, 954);
    (923, 955); (924, 956); (925, 957); (926, 958); (927, 959); (928, 960);
    (929, 961); (932, 964); (933, 965); (934, 966); (935, 967); (936, 968);
    (937, 969); (938, 970); (939, 971); (975, 983); (984, 985); (986, 987);
    (988, 989); (990, 991); (992, 993); (994, 995); (996, 997); (998, 999);
    (1000, 1001); (1002, 1003); (1004, 1005); (1006, 1007); (1012, 952);
    (1015, 1016); (1017, 1010); (1018, 1019); (1021, 891); (1022, 892);
    (1023, 893); (1024, 1104); (1025, 1105); (1026, 1106); (1027, 1107);
    (1028, 1108); (1029, 1109); (1030, 1110); (1031, 1111); (1032, 1112);
    (1033, 1113); (1034, 1114); (1035, 1115); (1036, 1116); (1037, 1117);
    (1038, 1118); (1039, 1119); (1040, 1072); (1041, 1073); (1042, 1074);
    (1043, 1075); (1044, 1076); (1045, 1077); (1046, 1078); (1047, 1079);
    (1048, 1080); (1049, 1081); (1050, 1082); (1051, 1083); (1052, 1084);
    (1053, 1085); (1054, 1086); (1055, 1087); (1056, 1088); (1057, 1089);
    (1058, 1090); (1059, 1091); (1060, 1092); (1061, 1093); (1062, 1094);
    (1063, 1095); (1064, 1096); (1065, 1097); (1066, 1098); (1067, 1099);
    (1068, 1100); (1069, 1101); (1070, 1102); (1071, 1103); (1120, 1121);
    (1122, 1123); (1124, 1125); (1126, 1127); (1128, 1129); (1130, 1131);
    (1132, 1133); (1134, 1135); (1136, 1137); (1138, 1139); (1140, 1141);
    (1142, 1143); (1144, 1145); (1146, 1147); (1148, 1149); (1150, 1151);
    (1152, 1153); (1162, 1163); (1164, 1165); (1166, 1167); (1168, 1169);
    (1170, 1171); (1172, 1173); (1174, 1175); (1176, 1177); (1178, 1179);
    (1180, 1181); (1182, 1183); (1184, 1185); (1186, 1187); (1188, 1189);
    (1190, 1191); (1192, 1193); (1194, 1195); (1196, 1197); (1198, 1199);
    (1200, 1201); (1202, 1203); (1204, 1205); (1206, 1207); (1208, 1209);
    (1210, 1211); (1212, 1213); (1214, 1215); (1216, 1231); (1217, 1218);
    (1219, 1220); (1221, 1222); (1223, 1224); (1225, 1226); (1227, 1228);
    (1229, 1230); (1232, 1233); (1234, 1235); (1236, 1237); (1238, 1239);
    (1240, 1241); (1242, 1243); (1244, 1245); (1246, 1247); (1248, 1249);
    (1250, 1251); (1252, 1253); (1254, 1255); (1256, 1257); (1258, 1259);
    (1260, 1261); (1262, 1263); (1264, 1265); (1266, 1267); (1268, 1269);
    (1270, 1271); (1272, 1273); (1274, 1275); (1276, 1277); (1278, 1279);
    (1280, 1281); (1282, 1283); (1284, 1285); (1286, 1287); (1288, 1289);
    (1290, 1291); (1292, 1293); (1294, 1295); (1296, 1297); (1298, 1299);
    (1300, 1301); (1302, 1303); (1304, 1305); (1306, 1307); (1308, 1309);
    (1310, 1311); (1312, 1313); (1314, 1315); (1316, 1317); (1318, 1319);
    (1320, 1321); (1322, 1323); (1324, 1325); (1326, 1327); (1329, 1377);
    (1330, 1378); (1331, 1379); (1332, 1380); (1333, 1381); (1334, 1382);
    (1335, 1383); (1336, 1384); (1337, 1385); (1338, 1386); (1339, 1387);
    (1340, 1388); (1341, 1389); (1342, 1390); (1343, 1391); (1344, 1392);
    (1345, 1393); (1346, 1394); (1347, 1395); (1348, 1396); (1349, 1397);
    (1350, 1398); (1351, 1399); (1352, 1400); (1353, 1401); (1354, 1402);
    (1355, 1403); (1356, 1404); (1357, 1405); (1358, 1406); (1359, 1407);
    (1360, 1408); (1361, 1409); (1362, 1410); (1363, 1411); (1364, 1412);
    (1365, 1413); (1366, 1414); (4256, 11520); (4257, 11521); (4258, 11522);
    (4259, 11523); (4260, 11524); (4261, 11525); (4262, 11526); (4263, 11527);
    (4264, 11528); (4265, 11529); (4266, 11530); (4267, 11531); (4268, 11532);
    (4269, 11533); (4270, 11534); (4271, 11535); (4272, 11536); (4273, 11537);
    (4274, 11538); (4275, 11539); (4276, 11540); (4277, 11541); (4278, 11542);
    (4279, 11543); (4280, 11544); (4281, 11545); (4282, 11546); (4283, 11547);
    (4284, 11548); (4285, 11549); (4286, 11550); (4287, 11551); (4288, 11552);
    (4289, 11553); (4290, 11554); (4291, 11555); (4292, 11556); (4293, 11557);
    (4295, 11559); (4301, 11565); (5024, 43888); (5025, 43889); (5026, 43890);
    (5027, 43891); (5028, 43892); (5029, 43893); (5030, 43894); (5031, 43895);
    (5032, 43896); (5033, 43897); (5034, 43898); (5035, 43899); (5036, 43900);
    (5037, 43901); (5038, 43902); (5039, 43903); (5040, 43904); (5041, 43905);
    (5042, 43906); (5043, 43907); (5044, 43908); (5045, 43909); (5046, 43910);
    (5047, 43911); (5048, 43912); (5049, 43913); (5050, 43914); (5051, 43915);
    (5052, 43916); (5053, 43917); (5054, 43918); (5055, 43919); (5056, 43920);
    (5057, 43921); (5058, 43922); (5059, 43923); (5060, 43924); (5061, 43925);
    (5062, 43926); (5063, 43927); (5064, 43928); (5065, 43929); (5066, 43930);
    (5067, 43931); (5068, 43932); (5069, 43933); (5070, 43934); (5071, 43935);
    (5072, 43936); (5073, 43937); (5074, 43938); (5075, 43939); (5076, 43940);
    (5077, 43941); (5078, 43942); (5079, 43943); (5080, 43944); (5081, 43945);
    (5082, 43946); (5083, 43947); (5084, 43948); (5085, 43949); (5086, 43950);
    (5087, 43951); (5088, 43952); (5089, 43953); (5090, 43954); (5091, 43955);
    (5092, 43956); (5093, 43957); (5094, 43958); (5095, 43959); (5096, 43960);
    (5097, 43961); (5098, 43962); (5099, 43963); (5100, 43964); (5101, 43965);
    (5102, 43966); (5103, 43967); (5104, 5112); (5105, 5113); (5106, 5114);
    (5107, 5115); (5108, 5116); (5109, 5117); (7312, 4304); (7313, 4305);
    (7314, 4306); (7315, 4307); (7316, 4308); (7317, 4309); (7318, 4310);
    (7319, 4311); (7320, 4312); (7321, 4313); (7322, 4314); (7323, 4315);
    (7324, 4316); (7325, 4317); (7326, 4318); (7327, 4319); (7328, 4320);
    (7329, 4321); (7330, 4322); (7331, 4323); (7332, 4324); (7333, 4325);
    (7334, 4326); (7335, 4327); (7336, 4328); (7337, 4329); (7338, 4330);
    (7339, 4331); (7340, 4332); (7341, 4333); (7342, 4334); (7343, 4335);
    (7344, 4336); (7345, 4337); (7346, 4338); (7347, 4339); (7348, 4340);
    (7349, 4341); (7350, 4342); (7351, 4343); (7352, 4344); (7353, 4345);
    (7354, 4346); (7357, 4349); (7358, 4350); (7359, 4351); (7680, 7681);
    (7682, 7683); (7684, 7685); (7686, 7687); (7688, 7689); (7690, 7691);
    (7692, 7693); (7694, 7695); (7696, 7697); (7698, 7699); (7700, 7701);
    (7702, 7703); (7704, 7705); (7706, 7707); (7708, 7709); (7710, 7711);
    (7712, 7713); (7714, 7715); (7716, 7717); (7718, 7719); (7720, 7721);
    (7722, 7723); (7724, 7725); (7726, 7727); (7728, 7729); (7730, 7731);
    (7732, 7733); (7734, 7735); (7736, 7737); (7738, 7739); (7740, 7741);
    (7742, 7743); (7744, 7745); (7746, 7747); (7748, 7749); (7750, 7751);
    (7752, 7753); (7754, 7755); (7756, 7757); (7758, 7759); (7760, 7761);
    (7762, 7763); (7764, 7765); (7766, 7767); (7768, 7769); (7770, 7771);
    (7772, 7773); (7774, 7775); (7776, 7777); (7778, 7779); (7780, 7781);
    (7782, 7783); (7784, 7785); (7786, 7787); (7788, 7789); (7790, 7791);
    (7792, 7793); (7794, 7795); (7796, 7797); (7798, 7799); (7800, 7801);
    (7802, 7803); (7804, 7805); (7806, 7807); (7808, 7809); (7810, 7811);
    (7812, 7813); (7814, 7815); (7816, 7817); (7818, 7819); (7820, 7821);
    (7822, 7823); (7824, 7825); (7826, 7827); (7828, 7829); (7838, 223);
    (7840, 7841); (7842, 7843); (7844, 7845); (7846, 7847); (7848, 7849);
    (7850, 7851); (7852, 7853); (7854, 7855); (7856, 7857); (7858, 7859);
    (7860, 7861); (7862, 7863); (7864, 7865); (7866, 7867); (7868, 7869);
    (7870, 7871); (7872, 7873); (7874, 7875); (7876, 7877); (7878, 7879);
    (7880, 7881); (7882, 7883); (7884, 7885); (7886, 7887); (7888, 7889);
    (7890, 7891); (7892, 7893); (7894, 7895); (7896, 7897); (7898, 7899);
    (7900, 7901); (7902, 7903); (7904, 7905); (7906, 7907); (7908, 7909);
    (7910, 7911); (7912, 7913); (7914, 7915); (7916, 7917); (7918, 7919);
    (7920, 7921); (7922, 7923); (7924, 7925); (7926, 7927); (7928, 7929);
    (7930, 7931); (7932, 7933); (7934, 7935); (7944, 7936); (7945, 7937);
    (7946, 7938); (7947, 7939); (7948, 7940); (7949, 7941); (7950, 7942);
    (7951, 7943); (7960, 7952); (7961, 7953); (7962, 7954); (7963, 7955);
    (7964, 7956); (7965, 7957); (7976, 7968); (7977, 7969); (7978, 7970);
    (7979, 7971); (7980, 7972); (7981, 7973); (7982, 7974); (7983, 7975);
    (7992, 7984); (7993, 7985); (7994, 7986); (7995, 7987); (7996, 7988);
    (7997, 7989); (7998, 7990); (7999, 7991); (8008, 8000); (8009, 8001);
    (8010, 8002); (8011, 8003); (8012, 8004); (8013, 8005); (8025, 8017);
    (8027, 8019); (8029, 8021); (8031, 8023); (8040, 8032); (8041, 8033);
    (8042, 8034); (8043, 8035); (8044, 8036); (8045, 8037); (8046, 8038);
    (8047, 8039); (8072, 8064); (8073, 8065); (8074, 8066); (8075, 8067);
    (8076, 8068); (8077, 8069); (8078, 8070); (8079, 8071); (8088, 8080);
    (8089, 8081); (8090, 8082); (8091, 8083); (8092, 8084); (8093, 8085);
    (8094, 8086); (8095, 8087); (8104, 8096); (8105, 8097); (8106, 8098);
    (8107, 8099); (8108, 8100); (8109, 8101); (8110, 8102); (8111, 8103);
    (8120, 8112); (8121, 8113); (8122, 8048); (8123, 8049); (8124, 8115);
    (8136, 8050); (8137, 8051); (8138, 8052); (8139, 8053); (8140, 8131);
    (8152, 8144); (8153, 8145); (8154, 8054); (8155, 8055); (8168, 8160);
    (8169, 8161); (8170, 8058); (8171, 8059); (8172, 8165); (8184, 8056);
    (8185, 8057); (8186, 8060); (8187, 8061); (8188, 8179); (8486, 969);
    (8490, 107); (8491, 229); (8498, 8526); (8544, 8560); (8545, 8561);
    (8546, 8562); (8547, 8563); (8548, 8564); (8549, 8565); (8550, 8566);
    (8551, 8567); (8552, 8568); (8553, 8569); (8554, 8570); (8555, 8571);
    (8556, 8572); (8557, 8573); (8558, 8574); (8559, 8575); (8579, 8580);
    (9398, 9424); (9399, 9425); (9400, 9426); (9401, 9427); (9402, 9428);
    (9403, 9429); (9404, 9430); (9405, 9431); (9406, 9432); (9407, 9433);
    (9408, 9434); (9409, 9435); (9410, 9436); (9411, 9437); (9412, 9438);
    (9413, 9439); (9414, 9440); (9415, 9441); (9416, 9442); (9417, 9443);
    (9418, 9444); (9419, 9445); (9420, 9446); (9421, 9447); (9422, 9448);
    (9423, 9449); (11264, 11312); (11265, 11313); (11266, 11314);
    (11267, 11315); (11268, 11316); (11269, 11317); (11270, 11318);
    (11271, 11319); (11272, 11320); (11273, 11321); (11274, 11322);
    (11275, 11323); (11276, 11324); (11277, 11325); (11278, 11326);
    (11279, 11327); (11280, 11328); (11281, 11329); (11282, 11330);
    (11283, 11331); (11284, 11332); (11285, 11333); (11286, 11334);
    (11287, 11335); (11288, 11336); (11289, 11337); (11290, 11338);
    (11291, 11339); (11292, 11340); (11293, 11341); (11294, 11342);
    (11295, 11343); (11296, 11344); (11297, 11345); (11298, 11346);
    (11299, 11347); (11300, 11348); (11301, 11349); (11302, 11350);
    (11303, 11351); (11304, 11352); (11305, 11353); (11306, 11354);
    (11307, 11355); (11308, 11356); (11309, 11357); (11310, 11358);
    (11311, 11359); (11360, 11361); (11362, 619); (11363, 7549); (11364, 637);
    (11367, 11368); (11369, 11370); (11371, 11372); (11373, 593);
    (11374, 625); (11375, 592); (11376, 594); (11378, 11379); (11381, 11382);
    (11390, 575); (11391, 576); (11392, 11393); (11394, 11395);
    (11396, 11397); (11398, 11399); (11400, 11401); (11402, 11403);
    (11404, 11405); (11406, 11407); (11408, 11409); (11410, 11411);
    (11412, 11413); (11414, 11415); (11416, 11417); (11418, 11419);
    (11420, 11421); (11422, 11423); (11424, 11425); (11426, 11427);
    (11428, 11429); (11430, 11431); (11432, 11433); (11434, 11435);
    (11436, 11437); (11438, 11439); (11440, 11441); (11442, 11443);
    (11444, 11445); (11446, 11447); (11448, 11449); (11450, 11451);
    (11452, 11453); (11454, 11455); (11456, 11457); (11458, 11459);
    (11460, 11461); (11462, 11463); (11464, 11465); (11466, 11467);
    (11468, 11469); (11470, 11471); (11472, 11473); (11474, 11475);
    (11476, 11477); (11478, 11479); (11480, 11481); (11482, 11483);
    (11484, 11485); (11486, 11487); (11488, 11489); (11490, 11491);
    (11499, 11500); (11501, 11502); (11506, 11507); (42560, 42561);
    (42562, 42563); (42564, 42565); (42566, 42567); (42568, 42569);
    (42570, 42571); (42572, 42573); (42574, 42575); (42576, 42577);
    (42578, 42579); (42580, 42581); (42582, 42583); (42584, 42585);
    (42586, 42587); (42588, 42589); (42590, 42591); (42592, 42593);
    (42594, 42595); (42596, 42597); (42598, 42599); (42600, 42601);
    (42602, 42603); (42604, 42605); (42624, 42625); (42626, 42627);
    (42628, 42629); (42630, 42631); (42632, 42633); (42634, 42635);
    (42636, 42637); (42638, 42639); (42640, 42641); (42642, 42643);
    (42644, 42645); (42646, 42647); (42648, 42649); (42650, 42651);
    (42786, 42787); (42788, 42789); (42790, 42791); (42792, 42793);
    (42794, 42795); (42796, 42797); (42798, 42799); (42802, 42803);
    (42804, 42805); (42806, 42807); (42808, 42809); (42810, 42811);
    (42812, 42813); (42814, 42815); (42816, 42817); (42818, 42819);
    (42820, 42821); (42822, 42823); (42824, 42825); (42826, 42827);
    (42828, 42829); (42830, 42831); (42832, 42833); (42834, 42835);
    (42836, 42837); (42838, 42839); (42840, 42841); (42842, 42843);
    (42844, 42845); (42846, 42847); (42848, 42849); (42850, 42851);
    (42852, 42853); (42854, 42855); (42856, 42857); (42858, 42859);
    (42860, 42861); (42862, 42863); (42873, 42874); (42875, 42876);
    (42877, 7545); (42878, 42879); (42880, 42881); (42882, 42883);
    (42884, 42885); (42886, 42887); (42891, 42892); (42893, 613);
    (42896, 42897); (42898, 42899); (42902, 42903); (42904, 42905);
    (42906, 42907); (42908, 42909); (42910, 42911); (42912, 42913);
    (42914, 42915); (42916, 42917); (42918, 42919); (42920, 42921);
    (42922, 614); (42923, 604); (42924, 609); (42925, 620); (42926, 618);
    (42928, 670); (42929, 647); (42930, 669); (42931, 43859); (42932, 42933);
    (42934, 42935); (42936, 42937); (42938, 42939); (42940, 42941);
    (42942, 42943); (42944, 42945); (42946, 42947); (42948, 42900);
    (42949, 642); (42950, 7566); (42951, 42952); (42953, 42954);
    (42960, 42961); (42966, 42967); (42968, 42969); (42997, 42998);
    (65313, 65345); (65314, 65346); (65315, 65347); (65316, 65348);
    (65317, 65349); (65318, 65350); (65319, 65351); (65320, 65352);
    (65321, 65353); (65322, 65354); (65323, 65355); (65324, 65356);
    (65325, 65357); (65326, 65358); (65327, 65359); (65328, 65360);
    (65329, 65361); (65330, 65362); (65331, 65363); (65332, 65364);
    (65333, 65365); (65334, 65366); (65335, 65367); (65336, 65368);
    (65337, 65369); (65338, 65370); (66560, 66600); (66561, 66601);
    (66562, 66602); (66563, 66603); (66564, 66604); (66565, 66605);
    (66566, 66606); (66567, 66607); (66568, 66608); (66569, 66609);
    (66570, 66610); (66571, 66611); (66572, 66612); (66573, 66613);
    (66574, 66614); (66575, 66615); (66576, 66616); (66577, 66617);
    (66578, 66618); (66579, 66619); (66580, 66620); (66581, 66621);
    (66582, 66622); (66583, 66623); (66584, 66624); (66585, 66625);
    (66586, 66626); (66587, 66627); (66588, 66628); (66589, 66629);
    (66590, 66630); (66591, 66631); (66592, 66632); (66593, 66633);
    (66594, 66634); (66595, 66635); (66596, 66636); (66597, 66637);
    (66598, 66638); (66599, 66639); (66736, 66776); (66737, 66777);
    (66738, 66778); (66739, 66779); (66740, 66780); (66741, 66781);
    (66742, 66782); (66743, 66783); (66744, 66784); (66745, 66785);
    (66746, 66786); (66747, 66787); (66748, 66788); (66749, 66789);
    (66750, 66790); (66751, 66791); (66752, 66792); (66753, 66793);
    (66754, 66794); (66755, 66795); (66756, 66796); (66757, 66797);
    (66758, 66798); (66759, 66799); (66760, 66800); (66761, 66801);
    (66762, 66802); (66763, 66803); (66764, 66804); (66765, 66805);
    (66766, 66806); (66767, 66807); (66768, 66808); (66769, 66809);
    (66770, 66810); (66771, 66811); (66928, 66967); (66929, 66968);
    (66930, 66969); (66931, 66970); (66932, 66971); (66933, 66972);
    (66934, 66973); (66935, 66974); (66936, 66975); (66937, 66976);
    (66938, 66977); (66940, 66979); (66941, 66980); (66942, 66981);
    (66943, 66982); (66944, 66983); (66945, 66984); (66946, 66985);
    (66947, 66986); (66948, 66987); (66949, 66988); (66950, 66989);
    (66951, 66990); (66952, 66991); (66953, 66992); (66954, 66993);
    (66956, 66995); (66957, 66996); (66958, 66997); (66959, 66998);
    (66960, 66999); (66961, 67000); (66962, 67001); (66964, 67003);
    (66965, 67004); (68736, 68800); (68737, 68801); (68738, 68802);
    (68739, 68803); (68740, 68804); (68741, 68805); (68742, 68806);
    (68743, 68807); (68744, 68808); (68745, 68809); (68746, 68810);
    (68747, 68811); (68748, 68812); (68749, 68813); (68750, 68814);
    (68751, 68815); (68752, 68816); (68753, 68817); (68754, 68818);
    (68755, 68819); (68756, 68820); (68757, 68821); (68758, 68822);
    (68759, 68823); (68760, 68824); (68761, 68825); (68762, 68826);
    (68763, 68827); (68764, 68828); (68765, 68829); (68766, 68830);
    (68767, 68831); (68768, 68832); (68769, 68833); (68770, 68834);
    (68771, 68835); (68772, 68836); (68773, 68837); (68774, 68838);
    (68775, 68839); (68776, 68840); (68777, 68841); (68778, 68842);
    (68779, 68843); (68780, 68844); (68781, 68845); (68782, 68846);
    (68783, 68847); (68784, 68848); (68785, 68849); (68786, 68850);
    (71840, 71872); (71841, 71873); (71842, 71874); (71843, 71875);
    (71844, 71876); (71845, 71877); (71846, 71878); (71847, 71879);
    (71848, 71880); (71849, 71881); (71850, 71882); (71851, 71883);
    (71852, 71884); (71853, 71885); (71854, 71886); (71855, 71887);
    (71856, 71888); (71857, 71889); (71858, 71890); (71859, 71891);
    (71860, 71892); (71861, 71893); (71862, 71894); (71863, 71895);
    (71864, 71896); (71865, 71897); (71866, 71898); (71867, 71899);
    (71868, 71900); (71869, 71901); (71870, 71902); (71871, 71903);
    (93760, 93792); (93761, 93793); (93762, 93794); (93763, 93795);
    (93764, 93796); (93765, 93797); (93766, 93798); (93767, 93799);
    (93768, 93800); (93769, 93801); (93770, 93802); (93771, 93803);
    (93772, 93804); (93773, 93805); (93774, 93806); (93775, 93807);
    (93776, 93808); (93777, 93809); (93778, 93810); (93779, 93811);
    (93780, 93812); (93781, 93813); (93782, 93814); (93783, 93815);
    (93784, 93816); (93785, 93817); (93786, 93818); (93787, 93819);
    (93788, 93820); (93789, 93821); (93790, 93822); (93791, 93823);
    (125184, 125218); (125185, 125219); (125186, 125220); (125187, 125221);
    (125188, 125222); (125189, 125223); (125190, 125224); (125191, 125225);
    (125192, 125226); (125193, 125227); (125194, 125228); (125195, 125229);
    (125196, 125230); (125197, 125231); (125198, 125232); (125199, 125233);
    (125200, 125234); (125201, 125235); (125202, 125236); (125203, 125237);
    (125204, 125238); (125205, 125239); (125206, 125240); (125207, 125241);
    (125208, 125242); (125209, 125243); (125210, 125244); (125211, 125245);
    (125212, 125246); (125213, 125247); (125214, 125248); (125215, 125249);
    (125216, 125250); (125217, 125251) ]%N.

(** The ranges of the case-ignorable characters, in ascending order. *)
Definition case_ignorable_ranges : list (N * N) :=
  [ (39, 39); (46, 46); (58, 58); (94, 94); (96, 96); (168, 168); (173, 173);
    (175, 175); (180, 180); (183, 184); (688, 879); (884, 885); (890, 890);
    (900, 901); (903, 903); (1155, 1161); (1369, 1369); (1375, 1375);
    (1425, 1469); (1471, 1471); (1473, 1474); (1476, 1477); (1479, 1479);
    (1524, 1524); (1536, 1541); (1552, 1562); (1564, 1564); (1600, 1600);
    (1611, 1631); (1648, 1648); (1750, 1757); (1759, 1768); (1770, 1773);
    (1807, 1807); (1809, 1809); (1840, 1866); (1958, 1968); (2027, 2037);
    (2042, 2042); (2045, 2045); (2070, 2093); (2137, 2139); (2184, 2184);
    (2192, 2193); (2200, 2207); (2249, 2306); (2362, 2362); (2364, 2364);
    (2369, 2376); (2381, 2381); (2385, 2391); (2402, 2403); (2417, 2417);
    (2433, 2433); (2492, 2492); (2497, 2500); (2509, 2509); (2530, 2531);
    (2558, 2558); (2561, 2562); (2620, 2620); (2625, 2626); (2631, 2632);
    (2635, 2637); (2641, 2641); (2672, 2673); (2677, 2677); (2689, 2690);
    (2748, 2748); (2753, 2757); (2759, 2760); (2765, 2765); (2786, 2787);
    (2810, 2815); (2817, 2817); (2876, 2876); (2879, 2879); (2881, 2884);
    (2893, 2893); (2901, 2902); (2914, 2915); (2946, 2946); (3008, 3008);
    (3021, 3021); (3072, 3072); (3076, 3076); (3132, 3132); (3134, 3136);
    (3142, 3144); (3146, 3149); (3157, 3158); (3170, 3171); (3201, 3201);
    (3260, 3260); (3263, 3263); (3270, 3270); (3276, 3277); (3298, 3299);
    (3328, 3329); (3387, 3388); (3393, 3396); (3405, 3405); (3426, 3427);
    (3457, 3457); (3530, 3530); (3538, 3540); (3542, 3542); (3633, 3633);
    (3636, 3642); (3654, 3662); (3761, 3761); (3764, 3772); (3782, 3782);
    (3784, 3789); (3864, 3865); (3893, 3893); (3895, 3895); (3897, 3897);
    (3953, 3966); (3968, 3972); (3974, 3975); (3981, 3991); (3993, 4028);
    (4038, 4038); (4141, 4144); (4146, 4151); (4153, 4154); (4157, 4158);
    (4184, 4185); (4190, 4192); (4209, 4212); (4226, 4226); (4229, 4230);
    (4237, 4237); (4253, 4253); (4348, 4348); (4957, 4959); (5906, 5908);
    (5938, 5939); (5970, 5971); (6002, 6003); (6068, 6069); (6071, 6077);
    (6086, 6086); (6089, 6099); (6103, 6103); (6109, 6109); (6155, 6159);
    (6211, 6211); (6277, 6278); (6313, 6313); (6432, 6434); (6439, 6440);
    (6450, 6450); (6457, 6459); (6679, 6680); (6683, 6683); (6742, 6742);
    (6744, 6750); (6752, 6752); (6754, 6754); (6757, 6764); (6771, 6780);
    (6783, 6783); (6823, 6823); (6832, 6862); (6912, 6915); (6964, 6964);
    (6966, 6970); (6972, 6972); (6978, 6978); (7019, 7027); (7040, 7041);
    (7074, 7077); (7080, 7081); (7083, 7085); (7142, 7142); (7144, 7145);
    (7149, 7149); (7151, 7153); (7212, 7219); (7222, 7223); (7288, 7293);
    (7376, 7378); (7380, 7392); (7394, 7400); (7405, 7405); (7412, 7412);
    (7416, 7417); (7468, 7530); (7544, 7544); (7579, 7679); (8125, 8125);
    (8127, 8129); (8141, 8143); (8157, 8159); (8173, 8175); (8189, 8190);
    (8203, 8207); (8216, 8217); (8228, 8228); (8231, 8231); (8234, 8238);
    (8288, 8292); (8294, 8303); (8305, 8305); (8319, 8319); (8336, 8348);
    (8400, 8432); (11388, 11389); (11503, 11505); (11631, 11631);
    (11647, 11647); (11744, 11775); (11823, 11823); (12293, 12293);
    (12330, 12333); (12337, 12341); (12347, 12347); (12441, 12446);
    (12540, 12542); (40981, 40981); (42232, 42237); (42508, 42508);
    (42607, 42610); (42612, 42621); (42623, 42623); (42652, 42655);
    (42736, 42737); (42752, 42785); (42864, 42864); (42888, 42890);
    (42994, 42996); (43000, 43001); (43010, 43010); (43014, 43014);
    (43019, 43019); (43045, 43046); (43052, 43052); (43204, 43205);
    (43232, 43249); (43263, 43263); (43302, 43309); (43335, 43345);
    (43392, 43394); (43443, 43443); (43446, 43449); (43452, 43453);
    (43471, 43471); (43493, 43494); (43561, 43566); (43569, 43570);
    (43573, 43574); (43587, 43587); (43596, 43596); (43632, 43632);
    (43644, 43644); (43696, 43696); (43698, 43700); (43703, 43704);
    (43710, 43711); (43713, 43713); (43741, 43741); (43756, 43757);
    (43763, 43764); (43766, 43766); (43867, 43871); (43881, 43883);
    (44005, 44005); (44008, 44008); (44013, 44013); (64286, 64286);
    (64434, 64450); (65024, 65039); (65043, 65043); (65056, 65071);
    (65106, 65106); (65109, 65109); (65279, 65279); (65287, 65287);
    (65294, 65294); (65306, 65306); (65342, 65342); (65344, 65344);
    (65392, 65392); (65438, 65439); (65507, 65507); (65529, 65531);
    (66045, 66045); (66272, 66272); (66422, 66426); (67456, 67461);
    (67463, 67504); (67506, 67514); (68097, 68099); (68101, 68102);
    (68108, 68111); (68152, 68154); (68159, 68159); (68325, 68326);
    (68900, 68903); (69291, 69292); (69446, 69456); (69506, 69509);
    (69633, 69633); (69688, 69702); (69744, 69744); (69747, 69748);
    (69759, 69761); (69811, 69814); (69817, 69818); (69821, 69821);
    (69826, 69826); (69837, 69837); (69888, 69890); (69927, 69931);
    (69933, 69940); (70003, 70003); (70016, 70017); (70070, 70078);
    (70089, 70092); (70095, 70095); (70191, 70193); (70196, 70196);
    (70198, 70199); (70206, 70206); (70367, 70367); (70371, 70378);
    (70400, 70401); (70459, 70460); (70464, 70464); (70502, 70508);
    (70512, 70516); (70712, 70719); (70722, 70724); (70726, 70726);
    (70750, 70750); (70835, 70840); (70842, 70842); (70847, 70848);
    (70850, 70851); (71090, 71093); (71100, 71101); (71103, 71104);
    (71132, 71133); (71219, 71226); (71229, 71229); (71231, 71232);
    (71339, 71339); (71341, 71341); (71344, 71349); (71351, 71351);
    (71453, 71455); (71458, 71461); (71463, 71467); (71727, 71735);
    (71737, 71738); (71995, 71996); (71998, 71998); (72003, 72003);
    (72148, 72151); (72154, 72155); (72160, 72160); (72193, 72202);
    (72243, 72248); (72251, 72254); (72263, 72263); (72273, 72278);
    (72281, 72283); (72330, 72342); (72344, 72345); (72752, 72758);
    (72760, 72765); (72767, 72767); (72850, 72871); (72874, 72880);
    (72882, 72883); (72885, 72886); (73009, 73014); (73018, 73018);
    (73020, 73021); (73023, 73029); (73031, 73031); (73104, 73105);
    (73109, 73109); (73111, 73111); (73459, 73460); (78896, 78904);
    (92912, 92916); (92976, 92982); (92992, 92995); (94031, 94031);
    (94095, 94111); (94176, 94177); (94179, 94180); (110576, 110579);
    (110581, 110587); (110589, 110590); (113821, 113822); (113824, 113827);
    (118528, 118573); (118576, 118598); (119143, 119145); (119155, 119170);
    (119173, 119179); (119210, 119213); (119362, 119364); (121344, 121398);
    (121403, 121452); (121461, 121461); (121476, 121476); (121499, 121503);
    (121505, 121519); (122880, 122886); (122888, 122904); (122907, 122913);
    (122915, 122916); (122918, 122922); (123184, 123197); (123566, 123566);
    (123628, 123631); (125136, 125142); (125252, 125259); (127995, 127999);
    (917505, 917505); (917536, 917631); (917760, 917999) ]%N.

(** The ranges of the cased characters that are not case-ignorable, in
    ascending order. *)
Definition cased_ranges : list (N * N) :=
  [ (65, 90); (97, 122); (170, 170); (181, 181); (186, 186); (192, 214);
    (216, 246); (248, 442); (444, 447); (452, 659); (661, 687); (880, 883);
    (886, 887); (891, 893); (895, 895); (902, 902); (904, 906); (908, 908);
    (910, 929); (931, 1013); (1015, 1153); (1162, 1327); (1329, 1366);
    (1376, 1416); (4256, 4293); (4295, 4295); (4301, 4301); (4304, 4346);
    (4349, 4351); (5024, 5109); (5112, 5117); (7296, 7304); (7312, 7354);
    (7357, 7359); (7424, 7467); (7531, 7543); (7545, 7578); (7680, 7957);
    (7960, 7965); (7968, 8005); (8008, 8013); (8016, 8023); (8025, 8025);
    (8027, 8027); (8029, 8029); (8031, 8061); (8064, 8116); (8118, 8124);
    (8126, 8126); (8130, 8132); (8134, 8140); (8144, 8147); (8150, 8155);
    (8160, 8172); (8178, 8180); (8182, 8188); (8450, 8450); (8455, 8455);
    (8458, 8467); (8469, 8469); (8473, 8477); (8484, 8484); (8486, 8486);
    (8488, 8488); (8490, 8493); (8495, 8500); (8505, 8505); (8508, 8511);
    (8517, 8521); (8526, 8526); (8544, 8575); (8579, 8580); (9398, 9449);
    (11264, 11387); (11390, 11492); (11499, 11502); (11506, 11507);
    (11520, 11557); (11559, 11559); (11565, 11565); (42560, 42605);
    (42624, 42651); (42786, 42863); (42865, 42887); (42891, 42894);
    (42896, 42954); (42960, 42961); (42963, 42963); (42965, 42969);
    (42997, 42998); (43002, 43002); (43824, 43866); (43872, 43880);
    (43888, 43967); (64256, 64262); (64275, 64279); (65313, 65338);
    (65345, 65370); (66560, 66639); (66736, 66771); (66776, 66811);
    (66928, 66938); (66940, 66954); (66956, 66962); (66964, 66965);
    (66967, 66977); (66979, 66993); (66995, 67001); (67003, 67004);
    (68736, 68786); (68800, 68850); (71840, 71903); (93760, 93823);
    (119808, 119892); (119894, 119964); (119966, 119967); (119970, 119970);
    (119973, 119974); (119977, 119980); (119982, 119993); (119995, 119995);
    (119997, 120003); (120005, 120069); (120071, 120074); (120077, 120084);
    (120086, 120092); (120094, 120121); (120123, 120126); (120128, 120132);
    (120134, 120134); (120138, 120144); (120146, 120485); (120488, 120512);
    (120514, 120538); (120540, 120570); (120572, 120596); (120598, 120628);
    (120630, 120654); (120656, 120686); (120688, 120712); (120714, 120744);
    (120746, 120770); (120772, 120779); (122624, 122633); (122635, 122654);
    (125184, 125251); (127280, 127305); (127312, 127337); (127344, 127369) ]%N.

(** ** [str.lower()]

    [str.lower()] as CPython computes it: every character is replaced by its
    full lowercase form from the tables of the Unicode database, and the
    capital sigma by the final or the medial small sigma according to its
    neighbours. *)

(** Membership in a table of ranges listed in ascending order. *)
Fixpoint in_ranges (c : codepoint) (ranges : list (N * N)) : bool :=
  match ranges with
  | [] => false
  | (lo, hi) :: rest =>
      if N.ltb c lo then false
      else if N.leb c hi then true
      else in_ranges c rest
  end.

(** The entry of [c] in a table of pairs listed in ascending order. *)
Fixpoint lookup (c : codepoint) (table : list (N * N)) : option N :=
  match table with
  | [] => None
  | (k, t) :: rest =>
      if N.eqb k c then Some t
      else if N.ltb c k then None
      else lookup c rest
  end.

Definition case_ignorable (c : codepoint) : bool :=
  in_ranges c case_ignorable_ranges.

(** Asked only of characters that are not case-ignorable. *)
Definition cased (c : codepoint) : bool := in_ranges c cased_ranges.

(** The full lowercase form of one character; the capital sigma, whose form
    depends on its place, is left to [lower_from]. *)
Definition lower_char (c : codepoint) : str :=
  if N.eqb c 304 then [105%N; 775%N]
  else match lookup c lower_pairs with
       | Some t => [t]
       | None => [c]
       end.

(** Is the next character that is not case-ignorable a cased one? *)
Fixpoint followed_by_cased (s : str) : bool :=
  match s with
  | [] => false
  | c :: r => if case_ignorable c then followed_by_cased r else cased c
  end.

(** [str.lower()] on the rest [s] of a string; [after_cased] tells whether
    the last character before [s] that is not case-ignorable is a cased
    one.  A capital sigma becomes the final sigma when it follows a cased
    character and none follows it. *)
Fixpoint lower_from (after_cased : bool) (s : str) : str :=
  match s with
  | [] => []
  | c :: r =>
      (if N.eqb c 931 then
         [if (after_cased && negb (followed_by_cased r))%bool
          then 962%N else 963%N]
       else lower_char c)
      ++ lower_from (if case_ignorable c then after_cased else cased c) r
  end.

Definition lower (s : str) : str := lower_from false s.

(** [sep.join(parts)]. *)
Fixpoint join (sep : str) (parts : list str) : str :=
  match parts with
  | [] => []
  | [p] => p
  | p :: rest => p ++ sep ++ join sep rest
  end.

(** [old] is one character: [text.replace(old, new)]. *)
Definition replace_char (old : codepoint) (new : str) (text : str) : str :=
  flat_map (fun c => if N.eqb c old then new else [c]) text.

(** [str(n)] for a non-negative integer. *)
Definition str_of_nat (n : nat) : str :=
  lit (DecimalString.NilZero.string_of_uint (Nat.to_uint n)).

(** ** Paths *)

Record Path : Type := {
  absolute : bool;     (* does the path begin with the anchor "/"? *)
  segs : list str      (* the components after the anchor *)
}.

(** [Path.parts]. *)
Definition parts (p : Path) : list str :=
  if absolute p then lit "/" :: segs p else segs p.

(** [Path.name]: the final component. *)
Definition name (p : Path) : str := last (segs p) [].

(** Splits at the last dot: the text before it, and the text from it on. *)
Fixpoint rsplit_dot (s : str) : option (str * str) :=
  match s with
  | [] => None
  | c :: r =>
      match rsplit_dot r with
      | Some (b, a) => Some (c :: b, a)
      | None => if N.eqb c 46 then Some ([], c :: r) else None
      end
  end.

(** [Path.suffix] of pathlib: with [i = name.rfind('.')], the suffix is
    [name[i:]] when [0 < i < len(name) - 1] and the empty string otherwise. *)
Definition suffix (p : Path) : str :=
  match rsplit_dot (name p) with
  | Some (b, a) =>
      if (Nat.ltb 0 (List.length b) && Nat.ltb 1 (List.length a))%bool then a
      else []
  | None => []
  end.

(** [str(path)] for a POSIX path. *)
Definition path_str (p : Path) : str :=
  if absolute p then lit "/" ++ join (lit "/") (segs p)
  else match segs p with
       | [] => lit "."
       | _ => join (lit "/") (segs p)
       end.

(** [path / rel] for relative segments [rel]. *)
Definition descend (p : Path) (rel : list str) : Path :=
  {| absolute := absolute p; segs := segs p ++ rel |}.

(** [path / child]. *)
Definition child (p : Path) (nm : str) : Path := descend p [nm].

(** ** Exceptions *)

Inductive exn : Type :=
| OSError (errno : N)
| UnicodeDecodeError
| ValueError.

Inductive result (A : Type) : Type :=
| Ok (a : A)
| Err (e : exn).
Arguments Ok {A} a.
Arguments Err {A} e.

(** ** Configuration *)

Definition REPO_ROOT : Path :=
  {| absolute := true;
     segs := [lit "home"; lit "user"; lit "CodeUpgradeEngine"] |}.

Definition EXCLUDE_DIRS : list str := map lit
  [ "node_modules"; ".git"; "dist"; "build"; "__pycache__";
    ".next"; ".cache"; "coverage"; ".nyc_output"; "venv"; ".venv" ]%string.

Definition INCLUDE_EXTENSIONS : list str := map lit
  [ ".py"; ".js"; ".ts"; ".tsx"; ".jsx"; ".json"; ".md"; ".txt";
    ".html"; ".css"; ".scss"; ".yaml"; ".yml"; ".sh"; ".sql";
    ".xml"; ".toml"; ".cfg"; ".ini"; ".go"; ".rs"; ".java";
    ".c"; ".cpp"; ".h"; ".hpp"; ".env"; ".gitignore"; ".lock";
    ".cs"; ".xaml"; ".csproj"; ".addin"; ".sln"; ".resx" ]%string.

Definition INCLUDE_FILES : list str := map lit
  [ "Dockerfile"; "Makefile"; "Procfile"; ".env"; ".env.example";
    ".gitignore"; ".dockerignore"; ".prettierrc"; ".eslintrc";
    ".replit" ]%string.

(** ** The directory tree *)

Local Set Warnings "-register-all".

(** What lies below the root.  [Unreadable errno] is a regular file that
    [open] refuses with [OSError errno].  [Unlistable errno hidden] is a
    directory on which [os.scandir] fails with [OSError errno]; it holds the
    entries [hidden], which no scan shows.  Every entry that a scan shows is
    taken to answer [stat], so that [is_file()] itself does not raise. *)
Inductive node : Type :=
| File (data : list byte)
| Unreadable (errno : N)
| Dir (entries : list (str * node))
| Unlistable (errno : N) (hidden : list (str * node)).

(** [PermissionError] is the [OSError] of [EPERM] and [EACCES]. *)
Definition is_permission_error (errno : N) : bool :=
  (N.eqb errno 1 || N.eqb errno 13)%bool.

(** [Path.is_file()]. *)
Definition is_file (n : node) : bool :=
  match n with
  | File _ | Unreadable _ => true
  | Dir _ | Unlistable _ _ => false
  end.

Definition is_dir (n : node) : bool := negb (is_file n).

(** [root.rglob('*')], as pathlib of CPython 3.11 walks: the entries of the
    directory itself, then, for each sub-directory in turn, what [rglob]
    yields below it.  pathlib catches the [PermissionError] of a scan and
    goes on as if the directory were empty; any other [OSError] of a scan
    ends the iteration with that exception. *)
Fixpoint rglob (p : Path) (n : node) : result (list (Path * node)) :=
  match n with
  | File _ | Unreadable _ => Ok []
  | Unlistable errno _ =>
      if is_permission_error errno then Ok [] else Err (OSError errno)
  | Dir entries =>
      let here := map (fun e => (child p (fst e), snd e)) entries in
      let below :=
        (fix subdirs (l : list (str * node)) : result (list (Path * node)) :=
           match l with
           | [] => Ok []
           | (nm, c) :: r =>
               if is_dir c then
                 match rglob (child p nm) c with
                 | Err e => Err e
                 | Ok a =>
                     match subdirs r with
                     | Err e => Err e
                     | Ok b => Ok (a ++ b)
                     end
                 end
               else subdirs r
           end) entries in
      match below with
      | Err e => Err e
      | Ok b => Ok (here ++ b)
      end
  end.

(** ** Selector *)

Definition should_include_file (filepath : Path) : bool :=
  if existsb (fun part => mem part EXCLUDE_DIRS) (parts filepath) then false
  else if mem (name filepath) INCLUDE_FILES then true
  else mem (lower (suffix filepath)) INCLUDE_EXTENSIONS.

(** The body of the loop of [get_all_files]: is [filepath] appended? *)
Definition appended (filepath : Path) (n : node) : bool :=
  if (is_file n && should_include_file filepath)%bool then
    if (str_eqb (name filepath) (lit "repo_to_pdf.py")
        || str_eqb (suffix filepath) (lit ".pdf"))%bool then false
    else if str_eqb (name filepath) (lit "package-lock.json") then false
    else true
  else false.

(** [list.sort(key=...)]: Python's sort is stable, and a stable sort has one
    possible outcome; it is written here as a stable insertion sort. *)
Section Sort.
Context {A : Type} (key : A -> str).

Fixpoint insert_by_key (x : A) (l : list A) : list A :=
  match l with
  | [] => [x]
  | y :: r =>
      if str_ltb (key y) (key x) then y :: insert_by_key x r
      else x :: l
  end.

Fixpoint sort_by_key (l : list A) : list A :=
  match l with
  | [] => []
  | x :: r => insert_by_key x (sort_by_key r)
  end.

(** [a] is not after [b] in the order of the keys. *)
Definition key_le (a b : A) : Prop := str_leb (key a) (key b) = true.

(** The entries of [l] whose key is [k]. *)
Definition with_key (k : str) (l : list A) : list A :=
  filter (fun y => str_eqb (key y) k) l.
End Sort.

Definition sort_key (x : Path) : str := lower (path_str x).

Definition get_all_files (root : Path) (t : node) : result (list Path) :=
  match rglob root t with
  | Err e => Err e
  | Ok found =>
      let files :=
        map fst (filter (fun e => appended (fst e) (snd e)) found) in
      Ok (sort_by_key sort_key files)
  end.

(** ** Events and the monad of the script *)

Inductive encoding : Type := UTF8 | Latin1 | CP1252.

Inductive mode : Type :=
| Text (enc : encoding)   (* open(filepath, 'r', encoding=enc) *)
| Binary.                 (* open(filepath, 'rb') *)

Inductive style : Type :=
| Heading1 | CustomTitle | CustomSubtitle | FileHeader | Code | TOC.

(** The flowables of reportlab that the script puts into its story. *)
Inductive flowable : Type :=
| Spacer (width height : Q)
| Paragraph (text : str) (st : style)
| PageBreak
| Preformatted (text : str) (st : style).

Inductive event : Type :=
| EvPrint (line : str)
| EvOpen (filepath : Path) (m : mode)
| EvBuild (output : Path) (story : list flowable).

(** A computation leaves a trace of events and ends with a value or with an
    exception; an exception ends everything that would have followed. *)
Definition M (A : Type) : Type := (list event * result A)%type.

Definition ret {A} (a : A) : M A := ([], Ok a).

Definition bind {A B} (m : M A) (f : A -> M B) : M B :=
  match m with
  | (t, Err e) => (t, Err e)
  | (t, Ok a) => (t ++ fst (f a), snd (f a))
  end.

Definition raise {A} (e : exn) : M A := ([], Err e).

Definition emit (ev : event) : M unit := ([ev], Ok tt).

Definition lift {A} (r : result A) : M A := ([], r).

Definition trace {A} (m : M A) : list event := fst m.
Definition outcome {A} (m : M A) : result A := snd m.

Notation "x <- m ;; k" := (bind m (fun x => k))
  (at level 61, m at next level, right associativity).
Notation "m ;;; k" := (bind m (fun _ => k))
  (at level 61, right associativity).

(** [print(line)]; standard output is taken to accept every line. *)
Definition print (line : str) : M unit := emit (EvPrint line).

(** ** The world the script runs in *)

Record World : Type := {
  tree : node;                 (* the directory at REPO_ROOT *)
  build_error : option exn     (* what doc.build raises, if anything *)
}.

(** The entry called [nm] of a directory. *)
Fixpoint entry (nm : str) (entries : list (str * node)) : option node :=
  match entries with
  | [] => None
  | (n, c) :: r => if str_eqb n nm then Some c else entry nm r
  end.

(** The node at the relative path [rel] below [t]. *)
Fixpoint node_at (t : node) (rel : list str) : option node :=
  match rel with
  | [] => Some t
  | nm :: rest =>
      match t with
      | Dir entries =>
          match entry nm entries with
          | Some c => node_at c rest
          | None => None
          end
      | _ => None
      end
  end.

(** [p] without the leading segments [root], when it has them. *)
Fixpoint strip_prefix (root p : list str) : option (list str) :=
  match root, p with
  | [], _ => Some p
  | r :: root', x :: p' => if str_eqb r x then strip_prefix root' p' else None
  | _ :: _, [] => None
  end.

(** [filepath.relative_to(root)]: a relative path, or [ValueError] when
    [filepath] does not lie below [root]. *)
Definition relative_to (filepath root : Path) : result Path :=
  if Bool.eqb (absolute filepath) (absolute root) then
    match strip_prefix (segs root) (segs filepath) with
    | Some rel => Ok {| absolute := false; segs := rel |}
    | None => Err ValueError
    end
  else Err ValueError.

(** The bytes of the file at [filepath], or the [OSError] of [open]; the
    world holds nothing outside the root, and [open] finds nothing below a
    directory that no scan can list. *)
Definition read_bytes (w : World) (filepath : Path) : result (list byte) :=
  match relative_to filepath REPO_ROOT with
  | Err _ => Err (OSError 2)
  | Ok rel =>
      match node_at (tree w) (segs rel) with
      | Some (File data) => Ok data
      | Some (Unreadable errno) => Err (OSError errno)
      | Some (Dir _) | Some (Unlistable _ _) => Err (OSError 21)
      | None => Err (OSError 2)
      end
  end.

(** ** Codecs *)

Definition byte_val (b : byte) : N := Byte.to_N b.

Definition in_range (lo hi x : N) : bool := (N.leb lo x && N.leb x hi)%bool.

(** An undecodable sequence: fatal under [errors='strict'], replaced by
    U+FFFD under [errors='replace'], where decoding goes on with [rest]. *)
Definition undecodable (replace : bool) (rest : option str) : option str :=
  if replace then option_map (cons 65533%N) rest else None.

Definition decoded (c : codepoint) (rest : option str) : option str :=
  option_map (cons c) rest.

(** The range allowed for the second byte after the lead byte [b0] of a
    three-byte or four-byte sequence (no overlong form, no surrogate, nothing
    above U+10FFFF). *)
Definition second_ok (b0 b1 : N) : bool :=
  if N.eqb b0 224 then in_range 160 191 b1
  else if N.eqb b0 237 then in_range 128 159 b1
  else if N.eqb b0 240 then in_range 144 191 b1
  else if N.eqb b0 244 then in_range 128 143 b1
  else in_range 128 191 b1.

Definition cont (b : N) : bool := in_range 128 191 b.

Definition low6 (b : N) : N := N.land b 63.

(** The UTF-8 codec.  A malformed sequence ends at the first byte that cannot
    continue it (or at the end of the data). *)
Fixpoint utf8_decode (replace : bool) (data : list byte) : option str :=
  match data with
  | [] => Some []
  | x0 :: r0 =>
      let b0 := byte_val x0 in
      if N.ltb b0 128 then decoded b0 (utf8_decode replace r0)
      else if in_range 194 223 b0 then
        match r0 with
        | [] => undecodable replace (Some [])
        | x1 :: r1 =>
            let b1 := byte_val x1 in
            if cont b1 then
              decoded (N.lor (N.shiftl (N.land b0 31) 6) (low6 b1))
                      (utf8_decode replace r1)
            else undecodable replace (utf8_decode replace r0)
        end
      else if in_range 224 239 b0 then
        match r0 with
        | [] => undecodable replace (Some [])
        | x1 :: r1 =>
            let b1 := byte_val x1 in
            if second_ok b0 b1 then
              match r1 with
              | [] => undecodable replace (Some [])
              | x2 :: r2 =>
                  let b2 := byte_val x2 in
                  if cont b2 then
                    decoded (N.lor (N.shiftl (N.land b0 15) 12)
                               (N.lor (N.shiftl (low6 b1) 6) (low6 b2)))
                            (utf8_decode replace r2)
                  else undecodable replace (utf8_decode replace r1)
              end
            else undecodable replace (utf8_decode replace r0)
        end
      else if in_range 240 244 b0 then
        match r0 with
        | [] => undecodable replace (Some [])
        | x1 :: r1 =>
            let b1 := byte_val x1 in
            if second_ok b0 b1 then
              match r1 with
              | [] => undecodable replace (Some [])
              | x2 :: r2 =>
                  let b2 := byte_val x2 in
                  if cont b2 then
                    match r2 with
                    | [] => undecodable replace (Some [])
                    | x3 :: r3 =>
                        let b3 := byte_val x3 in
                        if cont b3 then
                          decoded
                            (N.lor (N.shiftl (N.land b0 7) 18)
                               (N.lor (N.shiftl (low6 b1) 12)
                                  (N.lor (N.shiftl (low6 b2) 6) (low6 b3))))
                            (utf8_decode replace r3)
                        else undecodable replace (utf8_decode replace r2)
                    end
                  else undecodable replace (utf8_decode replace r1)
              end
            else undecodable replace (utf8_decode replace r0)
        end
      else undecodable replace (utf8_decode replace r0)
  end.

(** The Latin-1 codec: byte [b] is code point [b]. *)
Definition latin1_decode (data : list byte) : option str :=
  Some (map byte_val data).

(** Windows-1252: the code points of 0x80..0x9F, five of which are not
    assigned. *)
Definition cp1252_high : list (N * option codepoint) :=
  [ (128, Some 8364); (129, None);      (130, Some 8218); (131, Some 402);
    (132, Some 8222); (133, Some 8230); (134, Some 8224); (135, Some 8225);
    (136, Some 710);  (137, Some 8240); (138, Some 352);  (139, Some 8249);
    (140, Some 338);  (141, None);      (142, Some 381);  (143, None);
    (144, None);      (145, Some 8216); (146, Some 8217); (147, Some 8220);
    (148, Some 8221); (149, Some 8226); (150, Some 8211); (151, Some 8212);
    (152, Some 732);  (153, Some 8482); (154, Some 353);  (155, Some 8250);
    (156, Some 339);  (157, None);      (158, Some 382);  (159, Some 376) ]%N.

Definition cp1252_char (b : N) : option codepoint :=
  match find (fun e => N.eqb (fst e) b) cp1252_high with
  | Some (_, c) => c
  | None => Some b
  end.

Fixpoint cp1252_decode (data : list byte) : option str :=
  match data with
  | [] => Some []
  | x :: r =>
      match cp1252_char (byte_val x) with
      | Some c => decoded c (cp1252_decode r)
      | None => None
      end
  end.

(** [bytes.decode(enc)] with [errors='strict']; [None] is a
    [UnicodeDecodeError]. *)
Definition decode (enc : encoding) (data : list byte) : option str :=
  match enc with
  | UTF8 => utf8_decode false data
  | Latin1 => latin1_decode data
  | CP1252 => cp1252_decode data
  end.

(** [data.decode('utf-8', errors='replace')], which cannot fail. *)
Definition decode_replace (data : list byte) : str :=
  match utf8_decode true data with
  | Some s => s
  | None => []
  end.

(** Text mode reads with universal newlines: "\r\n" and "\r" become "\n". *)
Fixpoint translate_newlines (s : str) : str :=
  match s with
  | [] => []
  | c :: r =>
      if N.eqb c 13 then
        10%N :: match r with
                | [] => []
                | d :: r' =>
                    if N.eqb d 10 then translate_newlines r'
                    else translate_newlines r
                end
      else c :: translate_newlines r
  end.

(** ** Reader *)

(** [with open(filepath, 'r', encoding=enc) as f: f.read()]. *)
Definition read_text (w : World) (filepath : Path) (enc : encoding) : M str :=
  emit (EvOpen filepath (Text enc)) ;;;
  data <- lift (read_bytes w filepath) ;;
  match decode enc data with
  | Some s => ret (translate_newlines s)
  | None => raise UnicodeDecodeError
  end.

(** [with open(filepath, 'rb') as f: f.read()]. *)
Definition read_binary (w : World) (filepath : Path) : M (list byte) :=
  emit (EvOpen filepath Binary) ;;;
  lift (read_bytes w filepath).

(** [try: ... except (UnicodeDecodeError, UnicodeError): continue]. *)
Definition is_unicode_error (e : exn) : bool :=
  match e with
  | UnicodeDecodeError => true
  | _ => false
  end.

(** The [for encoding in encodings] loop: [Some s] when an iteration
    returned [s], [None] when the loop ran to its end. *)
Fixpoint try_encodings (w : World) (filepath : Path)
    (encodings : list encoding) : M (option str) :=
  match encodings with
  | [] => ret None
  | enc :: rest =>
      match read_text w filepath enc with
      | (t, Ok s) => (t, Ok (Some s))
      | (t, Err e) =>
          if is_unicode_error e then
            (t ++ fst (try_encodings w filepath rest),
             snd (try_encodings w filepath rest))
          else (t, Err e)
      end
  end.

Definition read_file_safely (w : World) (filepath : Path) : M str :=
  let encodings := [UTF8; Latin1; CP1252] in
  r <- try_encodings w filepath encodings ;;
  match r with
  | Some s => ret s
  | None =>
      data <- read_binary w filepath ;;
      ret (decode_replace data)
  end.

(** ** Escaping *)

Definition escape_xml (text : str) : str :=
  let text := replace_char 38%N (lit "&amp;") text in
  let text := replace_char 60%N (lit "&lt;") text in
  let text := replace_char 62%N (lit "&gt;") text in
  text.

(** ** Renderer *)

Definition inch : Q := 72.

Definition output_path : Path :=
  child REPO_ROOT (lit "CodeUpgradeEngine_Repository.pdf").

(** The title page and the heading of the table of contents. *)
Definition front_matter (files : list Path) : list flowable :=
  [ Spacer 1 (2 * inch);
    Paragraph (lit "CodeUpgradeEngine") CustomTitle;
    Paragraph (lit "Complete Repository Source Code") CustomSubtitle;
    Paragraph (lit "Total Files: " ++ str_of_nat (List.length files))
              CustomSubtitle;
    PageBreak;
    Paragraph (lit "Table of Contents") Heading1;
    Spacer 1 ((2 # 10) * inch) ].

(** [for i, filepath in enumerate(files, 1)]: the table of contents. *)
Fixpoint toc_loop (i : nat) (files : list Path) (story : list flowable)
    : M (list flowable) :=
  match files with
  | [] => ret story
  | filepath :: rest =>
      relative_path <- lift (relative_to filepath REPO_ROOT) ;;
      let toc_entry := str_of_nat i ++ lit ". " ++ path_str relative_path in
      toc_loop (S i) rest (story ++ [Paragraph (escape_xml toc_entry) TOC])
  end.

(** [for i, filepath in enumerate(files, 1)]: the file contents; [total] is
    [len(files)]. *)
Fixpoint content_loop (w : World) (total i : nat) (files : list Path)
    (story : list flowable) : M (list flowable) :=
  match files with
  | [] => ret story
  | filepath :: rest =>
      shown <- lift (relative_to filepath REPO_ROOT) ;;
      print (lit "Processing (" ++ str_of_nat i ++ lit "/"
             ++ str_of_nat total ++ lit "): " ++ path_str shown) ;;;
      relative_path <- lift (relative_to filepath REPO_ROOT) ;;
      let header_text := lit "File: " ++ path_str relative_path in
      let story := story ++ [Paragraph (escape_xml header_text) FileHeader] in
      content <- read_file_safely w filepath ;;
      let content := escape_xml content in
      let content := replace_char 9%N (lit "    ") content in
      let story := story ++ [Preformatted content Code] in
      let story := story ++ [PageBreak] in
      content_loop w total (S i) rest story
  end.

(** [doc.build(story)]. *)
Definition build (w : World) (story : list flowable) : M unit :=
  emit (EvBuild output_path story) ;;;
  match build_error w with
  | Some e => raise e
  | None => ret tt
  end.

Definition main (w : World) : M unit :=
  print (lit "Collecting files from repository...") ;;;
  files <- lift (get_all_files REPO_ROOT (tree w)) ;;
  print (lit "Found " ++ str_of_nat (List.length files)
         ++ lit " files to include") ;;;
  let story := front_matter files in
  story <- toc_loop 1 files story ;;
  let story := story ++ [PageBreak] in
  story <- content_loop w (List.length files) 1 files story ;;
  print (lit "Building PDF...") ;;;
  build w story ;;;
  print (10%N :: lit "PDF created successfully: " ++ path_str output_path).

(** ** A small repository, for examples *)

Definition bytes_of (s : string) : list byte := list_byte_of_string s.

Definition sample_tree : node :=
  Dir [ (lit "b.md", File (bytes_of "hello"));
        (lit "node_modules", Dir [ (lit "ignored.js", File (bytes_of "x")) ]);
        (lit "a.py", File (bytes_of "x<y")) ].

Definition sample_world : World :=
  {| tree := sample_tree; build_error := None |}.

(** * Notions used in the statements *)

(** ** The directory tree *)

(** [occurs root t p n]: the node [n] lies at path [p], below the directory
    [t] whose own path is [root]. *)
Inductive occurs : Path -> node -> Path -> node -> Prop :=
| occurs_entry root entries nm c :
    In (nm, c) entries -> occurs root (Dir entries) (child root nm) c
| occurs_deeper root entries nm c p n :
    In (nm, c) entries -> occurs (child root nm) c p n ->
    occurs root (Dir entries) p n.

(** The sub-directory part of [rglob]. *)
Fixpoint rglob_below (p : Path) (l : list (str * node))
    : result (list (Path * node)) :=
  match l with
  | [] => Ok []
  | (nm, c) :: r =>
      if is_dir c then
        match rglob (child p nm) c with
        | Err e => Err e
        | Ok a =>
            match rglob_below p r with
            | Err e => Err e
            | Ok b => Ok (a ++ b)
            end
        end
      else rglob_below p r
  end.

(** ** Selector *)

(** [x] is the character [e] or a capital of it: for a letter from a to z
    its ASCII capital, and for k also the Kelvin sign U+212A. *)
Definition ci_char (x e : codepoint) : bool :=
  (N.eqb x e
   || (in_range 97 122 e && N.eqb x (e - 32))
   || (N.eqb e 107 && N.eqb x 8490))%bool.

(** [s] is [e] up to the case of its letters. *)
Fixpoint ci_eqb (s e : str) : bool :=
  match s, e with
  | [], [] => true
  | x :: s', y :: e' => ci_char x y && ci_eqb s' e'
  | _, _ => false
  end.

(** [s] is, up to the case of its letters, one of the strings of [set]. *)
Definition ci_mem (s : str) (set : list str) : bool := existsb (ci_eqb s) set.

(** An ASCII character that is no capital letter. *)
Definition lowercase_ascii (y : codepoint) : bool :=
  (N.ltb y 128 && negb (in_range 65 90 y))%bool.

(** The ASCII characters. *)
Definition ascii_codes : list N := map N.of_nat (seq 0 128).

(** The contract of the Selector, as the specification words it: no segment
    is an excluded directory name; the file name is on the list of names or
    the extension is, up to the case of its letters, on the list of
    extensions; and the file is none of the three hard-coded exclusions. *)
Definition selector_spec (filepath : Path) : bool :=
  forallb (fun segment => negb (mem segment EXCLUDE_DIRS)) (parts filepath)
  && (mem (name filepath) INCLUDE_FILES
      || ci_mem (suffix filepath) INCLUDE_EXTENSIONS)
  && negb (str_eqb (name filepath) (lit "repo_to_pdf.py"))
  && negb (str_eqb (suffix filepath) (lit ".pdf"))
  && negb (str_eqb (name filepath) (lit "package-lock.json")).

(** A repository whose names mix the cases; the last letter of the third
    name is the Kelvin sign. *)
Definition mixed_case_tree : node :=
  Dir [ (lit "README.MD", File (bytes_of "hello"));
        (lit "Main.PY", File (bytes_of "x"));
        (lit "yarn.loc" ++ [8490%N], File []);
        (lit "photo.PNG", File []);
        (lit "node_modules", Dir [ (lit "Index.JS", File []) ]) ].

(** The tree without the contents of its files and without what no scan
    shows. *)
Fixpoint shape (n : node) : node :=
  match n with
  | File _ => File []
  | Unreadable e => Unreadable e
  | Unlistable e _ => Unlistable e []
  | Dir entries =>
      Dir ((fix each (l : list (str * node)) : list (str * node) :=
              match l with
              | [] => []
              | (nm, c) :: r => (nm, shape c) :: each r
              end) entries)
  end.

Definition shape_entries (l : list (str * node)) : list (str * node) :=
  map (fun e => (fst e, shape (snd e))) l.

Definition shape_found (found : list (Path * node)) : list (Path * node) :=
  map (fun e => (fst e, shape (snd e))) found.

Definition map_result {A B} (f : A -> B) (r : result A) : result B :=
  match r with
  | Ok a => Ok (f a)
  | Err e => Err e
  end.

Definition under_root (p : Path) : Prop :=
  exists rel, rel <> [] /\ p = descend REPO_ROOT rel.

(** ** Views of the document *)

(** The relative path of a file, as the document shows it. *)
Definition relative_str (filepath : Path) : str :=
  match relative_to filepath REPO_ROOT with
  | Ok rel => path_str rel
  | Err _ => []
  end.

Definition toc_entry (i : nat) (filepath : Path) : str :=
  str_of_nat i ++ lit ". " ++ relative_str filepath.

(** Reading a decimal numeral, most significant digit first. *)
Fixpoint nat_of_digits_from (acc : nat) (s : str) : option nat :=
  match s with
  | [] => Some acc
  | c :: r =>
      if in_range 48 57 c
      then nat_of_digits_from (10 * acc + N.to_nat (c - 48)) r
      else None
  end.

Definition nat_of_digits (s : str) : option nat :=
  match s with
  | [] => None
  | _ => nat_of_digits_from 0 s
  end.

(** The segments of a relative path, written with a slash between them. *)
Fixpoint slash_separated (rel : list str) : str :=
  match rel with
  | [] => []
  | [segment] => segment
  | segment :: rest => segment ++ 47%N :: slash_separated rest
  end.

(** The lines of the table of contents, numbered from [i]. *)
Fixpoint toc_lines (i : nat) (files : list Path) : list flowable :=
  match files with
  | [] => []
  | f :: rest => Paragraph (escape_xml (toc_entry i f)) TOC
                 :: toc_lines (S i) rest
  end.

Definition header_text (filepath : Path) : str :=
  lit "File: " ++ relative_str filepath.

Definition expand_tabs (content : str) : str :=
  replace_char 9%N (lit "    ") content.

(** The section of one file whose text is [content]. *)
Definition section (filepath : Path) (content : str) : list flowable :=
  [ Paragraph (escape_xml (header_text filepath)) FileHeader;
    Preformatted (expand_tabs (escape_xml content)) Code;
    PageBreak ].

Fixpoint sections (files : list Path) (contents : list str)
    : list flowable :=
  match files, contents with
  | f :: rest, c :: cs => section f c ++ sections rest cs
  | _, _ => []
  end.

(** The whole story for the files [files] with the texts [contents]. *)
Definition document (files : list Path) (contents : list str)
    : list flowable :=
  front_matter files ++ toc_lines 1 files ++ [PageBreak]
  ++ sections files contents.

(** The progress line of the content loop. *)
Definition processing (total i : nat) (filepath : Path) : event :=
  EvPrint (lit "Processing (" ++ str_of_nat i ++ lit "/"
           ++ str_of_nat total ++ lit "): " ++ relative_str filepath).

(** The texts of the files, in order, up to the first read that raises. *)
Fixpoint read_all (w : World) (files : list Path) : result (list str) :=
  match files with
  | [] => Ok []
  | f :: rest =>
      match outcome (read_file_safely w f) with
      | Err e => Err e
      | Ok c =>
          match read_all w rest with
          | Err e => Err e
          | Ok cs => Ok (c :: cs)
          end
      end
  end.

(** The events of the content loop over files that are all read. *)
Fixpoint content_events (w : World) (total i : nat) (files : list Path)
    : list event :=
  match files with
  | [] => []
  | f :: rest =>
      processing total i f :: trace (read_file_safely w f)
      ++ content_events w total (S i) rest
  end.

(** ** Reader *)

Definition open_text (filepath : Path) (enc : encoding) : event :=
  EvOpen filepath (Text enc).

(** What a text-mode read under [enc] gives for the bytes [data]. *)
Definition text_under (enc : encoding) (data : list byte) : option str :=
  option_map translate_newlines (decode enc data).

(** The encodings tried on [data], in order, and the text of the first that
    decodes. *)
Fixpoint attempts (encodings : list encoding) (data : list byte)
    : list encoding * option str :=
  match encodings with
  | [] => ([], None)
  | enc :: rest =>
      match text_under enc data with
      | Some s => ([enc], Some s)
      | None => (enc :: fst (attempts rest data), snd (attempts rest data))
      end
  end.

(** The content of a file as text: its bytes decoded under utf-8 when they
    are valid utf-8, and under latin-1 otherwise. *)
Definition file_text (data : list byte) : str :=
  match decode UTF8 data with
  | Some s => s
  | None => map byte_val data
  end.

Definition latin1_sample : list byte := [x63; x61; x66; xe9; x0d; x0a].

Definition latin1_world : World :=
  {| tree := Dir [ (lit "menu.txt", File latin1_sample) ];
     build_error := None |}.

Definition menu_txt : Path := child REPO_ROOT (lit "menu.txt").

(** ** Escaping *)

(** What [escape_xml] makes of one character. *)
Definition escape_char (c : codepoint) : str :=
  if N.eqb c 38 then lit "&amp;"
  else if N.eqb c 60 then lit "&lt;"
  else if N.eqb c 62 then lit "&gt;"
  else [c].

(** No [&], [<] or [>] in the text. *)
Definition plain (s : str) : bool :=
  forallb (fun c => negb (N.eqb c 38 || N.eqb c 60 || N.eqb c 62)) s.

(** Reading the entities back. *)
Fixpoint unescape_xml (s : str) : str :=
  match s with
  | [] => []
  | c :: r =>
      if N.eqb c 38 then
        match r with
        | 97%N :: 109%N :: 112%N :: 59%N :: r' => 38%N :: unescape_xml r'
        | 108%N :: 116%N :: 59%N :: r' => 60%N :: unescape_xml r'
        | 103%N :: 116%N :: 59%N :: r' => 62%N :: unescape_xml r'
        | _ => c :: unescape_xml r
        end
      else c :: unescape_xml r
  end.

(** [p] is a prefix of [s]. *)
Fixpoint starts_with (p s : str) : bool :=
  match p, s with
  | [], _ => true
  | x :: p', y :: s' => N.eqb x y && starts_with p' s'
  | _ :: _, [] => false
  end.

(** Text that is safe as markup: no [<], no [>], and every [&] opens one of
    the three entities. *)
Fixpoint markup_safe (s : str) : bool :=
  match s with
  | [] => true
  | c :: r =>
      if (N.eqb c 60 || N.eqb c 62)%bool then false
      else if N.eqb c 38 then
        (starts_with (lit "amp;") r || starts_with (lit "lt;") r
         || starts_with (lit "gt;") r) && markup_safe r
      else markup_safe r
  end.

(** What one character of a file becomes in the body of its section. *)
Definition body_char (c : codepoint) : str :=
  if N.eqb c 9 then lit "    " else escape_char c.

(** A text with each tab replaced by four spaces. *)
Definition spaces_for_tabs (text : str) : str :=
  flat_map (fun c => if N.eqb c 9 then [32%N; 32%N; 32%N; 32%N] else [c])
           text.

(** ** Runs of [main] *)

Definition collecting : event :=
  EvPrint (lit "Collecting files from repository...").

Definition found_line (files : list Path) : event :=
  EvPrint (lit "Found " ++ str_of_nat (List.length files)
           ++ lit " files to include").

Definition building : event := EvPrint (lit "Building PDF...").

Definition created : event :=
  EvPrint (10%N :: lit "PDF created successfully: " ++ path_str output_path).

Definition is_build (ev : event) : bool :=
  match ev with
  | EvBuild _ _ => true
  | _ => false
  end.

(** The story that a run hands to [doc.build], if it gets that far. *)
Definition built_story (m : M unit) : option (list flowable) :=
  match find is_build (trace m) with
  | Some (EvBuild _ story) => Some story
  | _ => None
  end.

(** ** Parts of a story *)

Definition is_toc_line (fl : flowable) : bool :=
  match fl with
  | Paragraph _ TOC => true
  | _ => false
  end.

Definition is_header (fl : flowable) : bool :=
  match fl with
  | Paragraph _ FileHeader => true
  | _ => false
  end.

Definition is_body (fl : flowable) : bool :=
  match fl with
  | Preformatted _ _ => true
  | _ => false
  end.

Definition toc_of (story : list flowable) : list flowable :=
  filter is_toc_line story.
Definition headers_of (story : list flowable) : list flowable :=
  filter is_header story.
Definition bodies_of (story : list flowable) : list flowable :=
  filter is_body story.

Definition header_line (filepath : Path) : flowable :=
  Paragraph (escape_xml (header_text filepath)) FileHeader.

Definition body_block (content : str) : flowable :=
  Preformatted (expand_tabs (escape_xml content)) Code.

(** ** Canonical order *)

(** [a] comes before [b] in [l]. *)
Definition precedes {A} (a b : A) (l : list A) : Prop :=
  exists l1 l2 l3, l = l1 ++ a :: l2 ++ b :: l3.

(** The lowercase form of the relative path. *)
Definition rel_key (p : Path) : str := lower (relative_str p).

(** An ASCII character with the capitals from A to Z turned into small
    letters. *)
Definition ascii_lowercase (c : codepoint) : codepoint :=
  if in_range 65 90 c then (c + 32)%N else c.

Definition root_prefix : str := lower (path_str REPO_ROOT ++ lit "/").

Definition case_tree : node :=
  Dir [ (lit "A.py", File []); (lit "a.py", File []) ].

Definition case_world : World := {| tree := case_tree; build_error := None |}.

Definition upper_path : Path := child REPO_ROOT (lit "A.py").
Definition lower_path : Path := child REPO_ROOT (lit "a.py").

(** Two names that begin with accented letters: E with acute, a capital,
    and a with grave. *)
Definition e_acute_name : str := 201%N :: lit "a.md".
Definition a_grave_name : str := 224%N :: lit "b.md".

Definition accented_tree : node :=
  Dir [ (e_acute_name, File []); (a_grave_name, File []) ].

Definition accented_world : World :=
  {| tree := accented_tree; build_error := None |}.

(** A directory whose name ends in a capital sigma. *)
Definition sigma_name : str := [927%N; 916%N; 927%N; 931%N].

Definition sigma_tree : node :=
  Dir [ (sigma_name, Dir [ (lit "a.py", File []) ]);
        (lit "b.md", File []) ].

Definition sigma_path : Path := descend REPO_ROOT [sigma_name; lit "a.py"].

Definition e_acute_path : Path := child REPO_ROOT e_acute_name.
Definition a_grave_path : Path := child REPO_ROOT a_grave_name.

(** ** Two runs *)

(** What kind of thing a node is: a file with its content, or a directory,
    whatever it holds and in whatever order it lists it. *)
Definition kind (n : node) : node :=
  match n with
  | File data => File data
  | Unreadable errno => Unreadable errno
  | Dir _ => Dir []
  | Unlistable errno _ => Unlistable errno []
  end.

(** At every path below the root the two trees hold the same kind of
    thing. *)
Definition same_below (root : Path) (t1 t2 : node) : Prop :=
  forall p k,
    (exists n, occurs root t1 p n /\ kind n = k)
    <-> (exists n, occurs root t2 p n /\ kind n = k).

(** The same tree, listed in another order. *)
Definition relisted (root : Path) (t1 t2 : node) : Prop :=
  kind t1 = kind t2 /\ same_below root t1 t2.

(** The file name of the document that [main] writes. *)
Definition output_name : str := lit "CodeUpgradeEngine_Repository.pdf".






(** A repository with a sub-directory, and the same repository listed in
    another order, at the root and in the sub-directory. *)
Definition project_tree : node :=
  Dir [ (lit "b.md", File (bytes_of "hello"));
        (lit "src", Dir [ (lit "z.py", File (bytes_of "z"));
                          (lit "y.py", File (bytes_of "y")) ]);
        (lit "a.py", File (bytes_of "x<y")) ].

Definition relisted_project_tree : node :=
  Dir [ (lit "a.py", File (bytes_of "x<y"));
        (lit "src", Dir [ (lit "y.py", File (bytes_of "y"));
                          (lit "z.py", File (bytes_of "z")) ]);
        (lit "b.md", File (bytes_of "hello")) ].




Definition project_files : list Path :=
  [ child REPO_ROOT (lit "a.py");
    child REPO_ROOT (lit "b.md");
    descend REPO_ROOT [lit "src"; lit "y.py"];
    descend REPO_ROOT [lit "src"; lit "z.py"] ].

(** ** What a built document holds *)

(** The text of a flowable that shows text. *)
Definition text_of (fl : flowable) : option str :=
  match fl with
  | Paragraph text _ | Preformatted text _ => Some text
  | _ => None
  end.

Definition safe (fl : flowable) : Prop :=
  forall text, text_of fl = Some text -> markup_safe text = true.

(** The story of a run that selects no file. *)
Definition empty_story : list flowable :=
  [ Spacer 1 (2 * inch);
    Paragraph (lit "CodeUpgradeEngine") CustomTitle;
    Paragraph (lit "Complete Repository Source Code") CustomSubtitle;
    Paragraph (lit "Total Files: 0") CustomSubtitle;
    PageBreak;
    Paragraph (lit "Table of Contents") Heading1;
    Spacer 1 ((2 # 10) * inch);
    PageBreak ].

Definition empty_world : World := {| tree := Dir []; build_error := None |}.

(** ** Errors *)

(** [open] succeeds on the file. *)
Definition readable (w : World) (f : Path) : Prop :=
  exists data, read_bytes w f = Ok data.

Definition locked_world : World :=
  {| tree := Dir [ (lit "a.py", File (bytes_of "x<y"));
                   (lit "b.md", Unreadable 13) ];
     build_error := None |}.






(** What a directory holds, whether or not a scan shows it. *)
Definition content (n : node) : list (str * node) :=
  match n with
  | Dir entries => entries
  | Unlistable _ hidden => hidden
  | _ => []
  end.






Definition a_py : Path := child REPO_ROOT (lit "a.py").
Definition b_md : Path := child REPO_ROOT (lit "b.md").

(** ** Further notions *)

(** How often the character [c] occurs in [s]. *)
Definition count_char (c : codepoint) (s : str) : nat :=
  List.length (filter (N.eqb c) s).

(** The paths that a trace opens in text mode under utf-8, in order. *)
Definition utf8_opens (t : list event) : list Path :=
  flat_map (fun ev => match ev with
                      | EvOpen p (Text UTF8) => [p]
                      | _ => []
                      end) t.

(** The entries that the loop of [get_all_files] appends, before the sort. *)
Definition selected (found : list (Path * node)) : list Path :=
  map fst (filter (fun e => appended (fst e) (snd e)) found).

(** A tree as a file system has it: no directory holds two entries of the
    same name. *)
Inductive distinct_names : node -> Prop :=
| distinct_File data : distinct_names (File data)
| distinct_Unreadable errno : distinct_names (Unreadable errno)
| distinct_Unlistable errno hidden : distinct_names (Unlistable errno hidden)
| distinct_Dir entries :
    NoDup (map fst entries) ->
    Forall (fun e => distinct_names (snd e)) entries ->
    distinct_names (Dir entries).

Definition build_root : Path :=
  {| absolute := true; segs := [lit "home"; lit "user"; lit "build"] |}.

Definition crlf_world : World :=
  {| tree := Dir [ (lit "dos.txt", File [x61; x0d; x0a; x62; x0d]) ];
     build_error := None |}.

Definition dos_txt : Path := child REPO_ROOT (lit "dos.txt").

(** A file whose name and content hold markup characters and a tab. *)
Definition markup_world : World :=
  {| tree := Dir [ (lit "R&D <x>.md", File (bytes_of "a<b>&c" ++ [x09; x64]))
                 ];
     build_error := None |}.

(** The document over that file. *)
Definition markup_story : list flowable :=
  [ Spacer 1 (2 * inch);
    Paragraph (lit "CodeUpgradeEngine") CustomTitle;
    Paragraph (lit "Complete Repository Source Code") CustomSubtitle;
    Paragraph (lit "Total Files: 1") CustomSubtitle;
    PageBreak;
    Paragraph (lit "Table of Contents") Heading1;
    Spacer 1 ((2 # 10) * inch);
    Paragraph (lit "1. R&amp;D &lt;x&gt;.md") TOC;
    PageBreak;
    Paragraph (lit "File: R&amp;D &lt;x&gt;.md") FileHeader;
    Preformatted (lit "a&lt;b&gt;&amp;c    d") Code;
    PageBreak ].

(** * Properties *)

Ltac no_dup :=
  repeat (constructor;
          [cbn; intros H; repeat (destruct H as [H|H]; [discriminate|]);
           exact H|]);
  constructor.

(** ** The model at work *)

Example suffix_examples :
  map (fun s => suffix (child REPO_ROOT (lit s)))
      [ "a.py"; ".env"; ".env.example"; "archive.tar.GZ"; "notes.";
        "Dockerfile" ]%string
  = map lit [ ".py"; ""; ".example"; ".GZ"; ""; "" ]%string.
Proof. reflexivity. Qed.

Example should_include_examples :
  map (fun rel => should_include_file (descend REPO_ROOT (map lit rel)))
      [ ["src"; "Main.PY"]; ["Dockerfile"]; ["build"; "out.js"];
        ["docs"; "logo.png"]; ["package-lock.json"] ]%string
  = [ true; true; false; false; true ].
Proof. reflexivity. Qed.

Example selected_sample : get_all_files REPO_ROOT sample_tree = Ok [a_py; b_md].
Proof. reflexivity. Qed.

Example selected_lock_file :
  get_all_files REPO_ROOT
    (Dir [ (lit "package-lock.json", File []); (lit "repo_to_pdf.py", File []);
           (lit "yarn.lock", File []) ])
  = Ok [child REPO_ROOT (lit "yarn.lock")].
Proof. reflexivity. Qed.

Example utf8_strict :
  decode UTF8 [xe2; x82; xac] = Some [8364%N]
  /\ decode UTF8 [xc0; x80] = None
  /\ decode UTF8 [xed; xa0; x80] = None
  /\ decode UTF8 [xf4; x90; x80; x80] = None.
Proof. repeat split. Qed.

Example utf8_replace :
  decode_replace [x41; xff; xe2; x82] = [65%N; 65533%N; 65533%N].
Proof. reflexivity. Qed.

Example cp1252_unassigned :
  decode CP1252 [x80] = Some [8364%N] /\ decode CP1252 [x81] = None.
Proof. split; reflexivity. Qed.

Example locked_run :
  main locked_world
  = ([ collecting; found_line [a_py; b_md];
       processing 2 1 a_py; open_text a_py UTF8;
       processing 2 2 b_md; open_text b_md UTF8 ],
     Err (OSError 13)).
Proof. reflexivity. Qed.

(** [str.lower()] folds the accented capitals and the Kelvin sign, writes
    the capital I with dot as two characters, and writes a capital sigma at
    the end of a word as the final sigma. *)
Example lower_examples :
  lower [201%N; 65%N] = [233%N; 97%N]
  /\ lower [8490%N] = [107%N]
  /\ lower [304%N] = [105%N; 775%N]
  /\ lower [65%N; 931%N] = [97%N; 962%N]
  /\ lower [65%N; 931%N; 66%N] = [97%N; 963%N; 98%N]
  /\ lower [931%N] = [963%N].
Proof. vm_compute. repeat split; reflexivity. Qed.

Example selected_mixed_case :
  get_all_files REPO_ROOT mixed_case_tree
  = Ok [ child REPO_ROOT (lit "Main.PY");
         child REPO_ROOT (lit "README.MD");
         child REPO_ROOT (lit "yarn.loc" ++ [8490%N]) ].
Proof. vm_compute. reflexivity. Qed.

(** The accented capital sorts by its lowercase form, after the a with
    grave. *)
Example selected_accented :
  get_all_files REPO_ROOT accented_tree = Ok [a_grave_path; e_acute_path].
Proof. vm_compute. reflexivity. Qed.

(** ** Strings and their order *)

Lemma str_eqb_eq (a b : str) : str_eqb a b = true <-> a = b.
Proof.
  revert b; induction a as [|x a IH]; intros [|y b]; simpl;
    try (split; [discriminate | discriminate]); try tauto.
  rewrite andb_true_iff, N.eqb_eq, IH.
  split; [intros [-> ->]; reflexivity | intros H; inversion H; auto].
Qed.

Lemma str_eqb_refl (a : str) : str_eqb a a = true.
Proof. apply str_eqb_eq; reflexivity. Qed.

Lemma str_eqb_neq (a b : str) : str_eqb a b = false <-> a <> b.
Proof.
  rewrite <- str_eqb_eq. destruct (str_eqb a b); split; congruence.
Qed.

Lemma str_ltb_irrefl (a : str) : str_ltb a a = false.
Proof.
  induction a as [|x a IH]; simpl; [reflexivity|].
  rewrite N.ltb_irrefl, N.eqb_refl. exact IH.
Qed.

Lemma str_ltb_trans (a b c : str) :
  str_ltb a b = true -> str_ltb b c = true -> str_ltb a c = true.
Proof.
  revert b c; induction a as [|x a IH]; intros [|y b] [|z c]; simpl;
    try discriminate; try reflexivity.
  destruct (N.ltb_spec x y) as [Hxy|Hxy].
  - intros _. destruct (N.ltb_spec y z) as [Hyz|Hyz].
    + intros _. destruct (N.ltb_spec x z); [reflexivity | lia].
    + destruct (N.eqb_spec y z) as [->|]; [|discriminate].
      intros _. destruct (N.ltb_spec x z); [reflexivity | lia].
  - destruct (N.eqb_spec x y) as [->|]; [|discriminate].
    intros Hab. destruct (N.ltb_spec y z) as [Hyz|Hyz]; [reflexivity|].
    destruct (N.eqb_spec y z) as [->|]; [|discriminate].
    apply IH; assumption.
Qed.

Lemma str_ltb_total (a b : str) :
  str_ltb a b = false -> str_ltb b a = false -> a = b.
Proof.
  revert b; induction a as [|x a IH]; intros [|y b]; simpl;
    try discriminate; try reflexivity.
  destruct (N.ltb_spec x y) as [Hxy|Hxy]; [discriminate|].
  destruct (N.ltb_spec y x) as [Hyx|Hyx]; [discriminate|].
  assert (x = y) by lia; subst y. rewrite N.eqb_refl.
  intros H1 H2. f_equal. apply IH; assumption.
Qed.

Lemma str_ltb_asym (a b : str) : str_ltb a b = true -> str_ltb b a = false.
Proof.
  intros H. destruct (str_ltb b a) eqn:E; [|reflexivity].
  pose proof (str_ltb_trans _ _ _ H E) as C.
  rewrite str_ltb_irrefl in C. discriminate.
Qed.

Lemma str_leb_trans (a b c : str) :
  str_leb a b = true -> str_leb b c = true -> str_leb a c = true.
Proof.
  unfold str_leb. rewrite !negb_true_iff. intros Hba Hcb.
  destruct (str_ltb c a) eqn:Hca; [|reflexivity].
  destruct (str_ltb a b) eqn:Hab.
  - rewrite (str_ltb_trans _ _ _ Hca Hab) in Hcb. discriminate.
  - rewrite (str_ltb_total _ _ Hab Hba) in Hca. congruence.
Qed.

(** A common prefix does not take part in a comparison. *)
Lemma str_ltb_app (p a b : str) : str_ltb (p ++ a) (p ++ b) = str_ltb a b.
Proof.
  induction p as [|x p IH]; simpl; [reflexivity|].
  rewrite N.ltb_irrefl, N.eqb_refl. exact IH.
Qed.

(** ** [str.lower()] *)

Lemma lower_from_cons (after_cased : bool) (c : codepoint) (r : str) :
  lower_from after_cased (c :: r)
  = (if N.eqb c 931 then
       [if (after_cased && negb (followed_by_cased r))%bool
        then 962%N else 963%N]
     else lower_char c)
    ++ lower_from (if case_ignorable c then after_cased else cased c) r.
Proof. reflexivity. Qed.

Lemma followed_by_cased_cons (c : codepoint) (r : str) :
  followed_by_cased (c :: r)
  = if case_ignorable c then followed_by_cased r else cased c.
Proof. reflexivity. Qed.

(** The slash is neither cased nor case-ignorable, and is its own lowercase
    form. *)
Lemma slash_facts :
  case_ignorable 47%N = false /\ cased 47%N = false
  /\ lower_char 47%N = [47%N].
Proof. vm_compute. repeat split. Qed.

Lemma followed_by_cased_slash (r b : str) :
  followed_by_cased (r ++ 47%N :: b) = followed_by_cased r.
Proof.
  destruct slash_facts as (Hi & Hc & _).
  induction r as [|c r IH]; cbn [app].
  - rewrite followed_by_cased_cons, Hi, Hc. reflexivity.
  - rewrite !followed_by_cased_cons, IH. reflexivity.
Qed.

(** No character looks across a slash: the text on either side of it is
    lowered by itself. *)
Lemma lower_from_slash (a b : str) :
  forall after_cased,
    lower_from after_cased (a ++ 47%N :: b)
    = lower_from after_cased a ++ 47%N :: lower_from false b.
Proof.
  destruct slash_facts as (Hi & Hc & Hl).
  induction a as [|c a IH]; intros st; cbn [app].
  - rewrite lower_from_cons, Hi, Hc, Hl.
    change (N.eqb 47 931) with false. reflexivity.
  - rewrite !lower_from_cons, followed_by_cased_slash, IH, <- app_assoc.
    reflexivity.
Qed.

Lemma lower_slash (a b : str) :
  lower (a ++ lit "/" ++ b) = lower a ++ lit "/" ++ lower b.
Proof. apply lower_from_slash. Qed.

Lemma ascii_codes_In (c : N) : (c < 128)%N -> In c ascii_codes.
Proof.
  intros H. unfold ascii_codes. apply in_map_iff. exists (N.to_nat c).
  split; [apply N2Nat.id|]. apply in_seq. lia.
Qed.

(** On ASCII [lower_char] turns the capitals from A to Z into small letters
    and leaves every other character. *)
Lemma lower_char_ascii_table :
  forallb (fun c => str_eqb (lower_char c) [ascii_lowercase c]) ascii_codes
  = true.
Proof. vm_compute. reflexivity. Qed.

Lemma lower_from_ascii (s : str) :
  forallb (fun c => N.ltb c 128) s = true ->
  forall after_cased, lower_from after_cased s = map ascii_lowercase s.
Proof.
  induction s as [|c r IH]; intros H st; [reflexivity|].
  cbn [forallb] in H. apply andb_true_iff in H. destruct H as [Hc Hr].
  apply N.ltb_lt in Hc. rewrite lower_from_cons.
  replace (N.eqb c 931) with false by (symmetry; apply N.eqb_neq; lia).
  pose proof lower_char_ascii_table as Ht. rewrite forallb_forall in Ht.
  specialize (Ht c (ascii_codes_In c Hc)). apply str_eqb_eq in Ht.
  rewrite Ht, (IH Hr). reflexivity.
Qed.

(** ** The stable sort *)

Section SortFacts.
Context {A : Type} (key : A -> str).

Lemma insert_by_key_perm (x : A) (l : list A) :
  Permutation (x :: l) (insert_by_key key x l).
Proof.
  induction l as [|y l IH]; simpl; [apply Permutation_refl|].
  destruct (str_ltb (key y) (key x)); [|apply Permutation_refl].
  eapply perm_trans; [apply perm_swap|]. apply perm_skip, IH.
Qed.

Lemma sort_by_key_perm (l : list A) : Permutation l (sort_by_key key l).
Proof.
  induction l as [|x l IH]; simpl; [constructor|].
  eapply perm_trans; [apply perm_skip, IH | apply insert_by_key_perm].
Qed.

Lemma insert_by_key_sorted (x : A) (l : list A) :
  StronglySorted (key_le key) l ->
  StronglySorted (key_le key) (insert_by_key key x l).
Proof.
  induction 1 as [|y l Hs IH Hall]; simpl.
  - repeat constructor.
  - destruct (str_ltb (key y) (key x)) eqn:E.
    + constructor; [exact IH|].
      apply Forall_forall. intros z Hz.
      apply (Permutation_in _ (Permutation_sym (insert_by_key_perm x l)))
        in Hz.
      destruct Hz as [<-|Hz].
      * unfold key_le, str_leb. rewrite (str_ltb_asym _ _ E). reflexivity.
      * rewrite Forall_forall in Hall. auto.
    + assert (Hxy : key_le key x y)
        by (unfold key_le, str_leb; rewrite E; auto).
      constructor; [constructor; assumption|].
      constructor; [exact Hxy|].
      apply Forall_forall. intros z Hz. rewrite Forall_forall in Hall.
      unfold key_le in *. eapply str_leb_trans; eauto.
Qed.

Lemma sort_by_key_sorted (l : list A) :
  StronglySorted (key_le key) (sort_by_key key l).
Proof.
  induction l as [|x l IH]; simpl; [constructor|].
  apply insert_by_key_sorted, IH.
Qed.

Lemma sort_by_key_in (l : list A) (x : A) :
  In x (sort_by_key key l) <-> In x l.
Proof.
  split; apply Permutation_in;
    [apply Permutation_sym|]; apply sort_by_key_perm.
Qed.

Lemma sort_by_key_length (l : list A) :
  List.length (sort_by_key key l) = List.length l.
Proof. symmetry. apply Permutation_length, sort_by_key_perm. Qed.

(** Stability: entries with the same key keep their order. *)
Lemma insert_by_key_stable (k : str) (x : A) (l : list A) :
  with_key key k (insert_by_key key x l) = with_key key k (x :: l).
Proof.
  induction l as [|y l IH]; [reflexivity|].
  cbn [insert_by_key]. destruct (str_ltb (key y) (key x)) eqn:E;
    [|reflexivity].
  unfold with_key in *. cbn [filter] in *. rewrite IH.
  destruct (str_eqb (key y) k) eqn:Ey; [|reflexivity].
  destruct (str_eqb (key x) k) eqn:Ex; [|reflexivity].
  apply str_eqb_eq in Ey, Ex. rewrite Ey, Ex, str_ltb_irrefl in E.
  discriminate.
Qed.

Lemma sort_by_key_stable (k : str) (l : list A) :
  with_key key k (sort_by_key key l) = with_key key k l.
Proof.
  induction l as [|x l IH]; [reflexivity|].
  cbn [sort_by_key]. rewrite insert_by_key_stable.
  unfold with_key in *. cbn [filter]. rewrite IH. reflexivity.
Qed.

(** When no two entries share a key, the sorted list does not depend on the
    order in which the entries arrive. *)
Lemma sorted_distinct_unique (l1 : list A) :
  NoDup (map key l1) ->
  StronglySorted (key_le key) l1 ->
  forall l2, StronglySorted (key_le key) l2 -> Permutation l1 l2 -> l1 = l2.
Proof.
  induction l1 as [|x l1 IH]; intros Hnd Hs1 l2 Hs2 Hp.
  - apply Permutation_nil in Hp. congruence.
  - destruct l2 as [|y l2].
    { apply Permutation_sym, Permutation_nil in Hp. discriminate. }
    inversion Hnd as [|? ? Hx Hnd']; subst.
    inversion Hs1 as [|? ? Hs1' Hall1]; subst.
    inversion Hs2 as [|? ? Hs2' Hall2]; subst.
    rewrite Forall_forall in Hall1, Hall2.
    assert (Hxy : x = y).
    { assert (Hy : In y (x :: l1))
        by (apply (Permutation_in _ (Permutation_sym Hp)); left; reflexivity).
      destruct Hy as [Hy|Hy]; [exact Hy|].
      assert (Hx' : In x (y :: l2))
        by (apply (Permutation_in _ Hp); left; reflexivity).
      destruct Hx' as [Hx'|Hx']; [congruence|].
      exfalso. apply Hx.
      pose proof (Hall1 y Hy) as L1. pose proof (Hall2 x Hx') as L2.
      unfold key_le, str_leb in L1, L2. rewrite negb_true_iff in L1, L2.
      rewrite (str_ltb_total _ _ L2 L1). apply in_map, Hy. }
    subst y. f_equal.
    apply IH; try assumption. apply (Permutation_cons_inv Hp).
Qed.

Lemma sort_by_key_order_independent (l1 l2 : list A) :
  Permutation l1 l2 -> NoDup (map key l1) ->
  sort_by_key key l1 = sort_by_key key l2.
Proof.
  intros Hp Hnd. apply sorted_distinct_unique.
  - apply (Permutation_NoDup (l := map key l1)); [|exact Hnd].
    apply Permutation_map, sort_by_key_perm.
  - apply sort_by_key_sorted.
  - apply sort_by_key_sorted.
  - eapply perm_trans; [apply Permutation_sym, sort_by_key_perm|].
    eapply perm_trans; [exact Hp | apply sort_by_key_perm].
Qed.
End SortFacts.

(** ** The directory tree *)

Section NodeInduction.
Variable P : node -> Prop.
Hypothesis HFile : forall data, P (File data).
Hypothesis HUnreadable : forall e, P (Unreadable e).
Hypothesis HDir :
  forall entries, Forall (fun e => P (snd e)) entries -> P (Dir entries).
Hypothesis HUnlistable : forall e hidden, P (Unlistable e hidden).

Fixpoint node_induction (n : node) : P n :=
  match n with
  | File data => HFile data
  | Unreadable e => HUnreadable e
  | Unlistable e hidden => HUnlistable e hidden
  | Dir entries =>
      HDir entries
        ((fix all (l : list (str * node)) : Forall (fun e => P (snd e)) l :=
            match l with
            | [] => Forall_nil _
            | (nm, c) :: r =>
                Forall_cons (nm, c) (node_induction c) (all r)
            end) entries)
  end.
End NodeInduction.

Lemma rglob_Dir (p : Path) (entries : list (str * node)) :
  rglob p (Dir entries) =
  match rglob_below p entries with
  | Err e => Err e
  | Ok b => Ok (map (fun e => (child p (fst e), snd e)) entries ++ b)
  end.
Proof.
  cbn [rglob].
  assert (E : forall l,
    (fix subdirs (l : list (str * node)) : result (list (Path * node)) :=
       match l with
       | [] => Ok []
       | (nm, c) :: r =>
           if is_dir c then
             match rglob (child p nm) c with
             | Err e => Err e
             | Ok a => match subdirs r with
                       | Err e => Err e
                       | Ok b => Ok (a ++ b)
                       end
             end
           else subdirs r
       end) l = rglob_below p l).
  { induction l as [|[nm c] r IH]; [reflexivity|].
    cbn [rglob_below]. rewrite <- IH. reflexivity. }
  rewrite E. reflexivity.
Qed.

Lemma occurs_not_dir root t p n : is_dir t = false -> ~ occurs root t p n.
Proof. intros H O. destruct O; discriminate. Qed.

(** [rglob] yields exactly the nodes that occur below the root. *)
Lemma rglob_occurs (t : node) :
  forall root found, rglob root t = Ok found ->
  forall p n, In (p, n) found <-> occurs root t p n.
Proof.
  induction t as [data|e|entries IH|e hidden] using node_induction;
    intros root found Hr p n.
  - inversion Hr; subst. split; [intros [] | intros O; inversion O].
  - inversion Hr; subst. split; [intros [] | intros O; inversion O].
  - rewrite rglob_Dir in Hr.
    destruct (rglob_below root entries) as [b|e] eqn:Hb; [|discriminate].
    inversion Hr; subst found; clear Hr.
    assert (Hbelow : In (p, n) b <->
              exists nm c, In (nm, c) entries /\ occurs (child root nm) c p n).
    { clear -IH Hb. revert b Hb.
      induction entries as [|[nm c] r IHr]; intros b Hb.
      - inversion Hb; subst. split; [intros [] | intros (? & ? & [] & _)].
      - inversion IH as [|? ? Hc Hrest]; subst. cbn [snd] in Hc.
        cbn [rglob_below] in Hb.
        destruct (is_dir c) eqn:Hd.
        + destruct (rglob (child root nm) c) as [a|] eqn:Ha; [|discriminate].
          destruct (rglob_below root r) as [b'|] eqn:Hb'; [|discriminate].
          inversion Hb; subst b; clear Hb.
          rewrite in_app_iff, (Hc _ _ Ha), (IHr Hrest _ eq_refl).
          split.
          * intros [O | (nm' & c' & Hin & O)].
            -- exists nm, c. split; [left; reflexivity | exact O].
            -- exists nm', c'. split; [right; exact Hin | exact O].
          * intros (nm' & c' & [Heq | Hin] & O).
            -- inversion Heq; subst. left; exact O.
            -- right. exists nm', c'. split; assumption.
        + rewrite (IHr Hrest _ Hb). split.
          * intros (nm' & c' & Hin & O). exists nm', c'.
            split; [right; exact Hin | exact O].
          * intros (nm' & c' & [Heq | Hin] & O).
            -- inversion Heq; subst. exfalso.
               apply (occurs_not_dir (child root nm') c' p n); [|exact O].
               exact Hd.
            -- exists nm', c'. split; assumption. }
    rewrite in_app_iff, Hbelow, in_map_iff. split.
    + intros [((nm & c) & Heq & Hin) | (nm & c & Hin & O)].
      * cbn [fst snd] in Heq. inversion Heq; subst.
        apply occurs_entry; exact Hin.
      * eapply occurs_deeper; eassumption.
    + intros O. inversion O; subst.
      * left. exists (nm, n). split; [reflexivity | assumption].
      * right. exists nm, c. split; assumption.
  - cbn [rglob] in Hr. destruct (is_permission_error e); [|discriminate].
    inversion Hr; subst. split; [intros [] | intros O; inversion O].
Qed.

(** Every path that [rglob] yields is the root followed by at least one more
    part. *)
Lemma occurs_under root t p n :
  occurs root t p n -> exists rel, rel <> [] /\ p = descend root rel.
Proof.
  induction 1 as [root entries nm c _ | root entries nm c p n _ _ IH].
  - exists [nm]. split; [discriminate | reflexivity].
  - destruct IH as (rel & _ & ->). exists (nm :: rel).
    split; [discriminate|]. unfold child, descend. cbn [absolute segs].
    rewrite <- app_assoc. reflexivity.
Qed.

Lemma strip_prefix_app (root rel : list str) :
  strip_prefix root (root ++ rel) = Some rel.
Proof.
  induction root as [|r root IH]; simpl; [reflexivity|].
  rewrite str_eqb_refl. exact IH.
Qed.

Lemma strip_prefix_Some (root p rel : list str) :
  strip_prefix root p = Some rel -> p = root ++ rel.
Proof.
  revert p; induction root as [|r root IH]; intros [|x p]; simpl;
    try discriminate; try (intros H; inversion H; reflexivity).
  destruct (str_eqb r x) eqn:E; [|discriminate].
  apply str_eqb_eq in E; subst x. intros H. f_equal. apply IH, H.
Qed.

(** ** No path twice *)

Lemma child_injective (root : Path) (a b : str) :
  child root a = child root b -> a = b.
Proof.
  unfold child, descend. intros H. injection H as H.
  apply app_inv_head in H. congruence.
Qed.

Lemma NoDup_map_injective {A B} (f : A -> B) (l : list A) :
  (forall x y, f x = f y -> x = y) -> NoDup l -> NoDup (map f l).
Proof.
  intros Hf. induction 1 as [|x l Hx _ IH]; cbn; constructor; [|exact IH].
  rewrite in_map_iff. intros (y & Hy & Hin). apply Hf in Hy. congruence.
Qed.

Lemma NoDup_map_filter {A B} (f : A -> B) (g : A -> bool) (l : list A) :
  NoDup (map f l) -> NoDup (map f (filter g l)).
Proof.
  induction l as [|x l IH]; cbn [map filter]; [auto|].
  intros H. inversion H as [|? ? Hx Hl]; subst.
  destruct (g x); [|apply IH, Hl]. cbn [map]. constructor; [|apply IH, Hl].
  rewrite in_map_iff in *. intros (y & Hy & Hin). apply Hx.
  exists y. split; [exact Hy|]. apply filter_In in Hin. tauto.
Qed.

Lemma rglob_below_occurs (root : Path) (l : list (str * node)) :
  forall b, rglob_below root l = Ok b ->
  forall p n, In (p, n) b ->
    exists nm c, In (nm, c) l /\ occurs (child root nm) c p n.
Proof.
  induction l as [|[nm c] r IH]; intros b Hb p n Hin; cbn [rglob_below] in Hb.
  - inversion Hb; subst. destruct Hin.
  - destruct (is_dir c).
    + destruct (rglob (child root nm) c) as [a|] eqn:Ha; [|discriminate].
      destruct (rglob_below root r) as [b'|] eqn:Hb'; [|discriminate].
      inversion Hb; subst. apply in_app_or in Hin. destruct Hin as [Hin|Hin].
      * exists nm, c. split; [left; reflexivity|].
        apply (rglob_occurs c _ _ Ha). exact Hin.
      * destruct (IH b' eq_refl p n Hin) as (nm' & c' & Hr & O).
        exists nm', c'. split; [right; exact Hr | exact O].
    + destruct (IH b Hb p n Hin) as (nm' & c' & Hr & O).
      exists nm', c'. split; [right; exact Hr | exact O].
Qed.

(** A path below the entry [nm] of [root] has [nm] as its first segment
    after those of [root]. *)
Lemma occurs_first_segment (root : Path) (nm : str) (c : node) (p : Path)
    (n : node) :
  occurs (child root nm) c p n ->
  exists rel, rel <> [] /\ segs p = segs root ++ nm :: rel.
Proof.
  intros O. destruct (occurs_under _ _ _ _ O) as (rel & Hne & ->).
  exists rel. split; [exact Hne|]. cbn. rewrite <- app_assoc. reflexivity.
Qed.

Lemma rglob_below_NoDup (root : Path) (l : list (str * node)) :
  NoDup (map fst l) ->
  Forall (fun e => forall root found, rglob root (snd e) = Ok found ->
                                      NoDup (map fst found)) l ->
  forall b, rglob_below root l = Ok b -> NoDup (map fst b).
Proof.
  induction l as [|[nm c] r IH]; intros Hnames Hall b Hb;
    cbn [rglob_below] in Hb.
  - inversion Hb; subst. constructor.
  - inversion Hnames as [|? ? Hnm Hr]; subst.
    inversion Hall as [|? ? Hc Hrest]; subst. cbn [snd] in Hc.
    destruct (is_dir c); [|apply (IH Hr Hrest b Hb)].
    destruct (rglob (child root nm) c) as [a|] eqn:Ha; [|discriminate].
    destruct (rglob_below root r) as [b'|] eqn:Hb'; [|discriminate].
    inversion Hb; subst. rewrite map_app. apply NoDup_app.
    + apply (Hc _ _ Ha).
    + apply (IH Hr Hrest b' eq_refl).
    + intros p Hp Hp'. apply in_map_iff in Hp, Hp'.
      destruct Hp as ((p1 & n1) & <- & Hin1).
      destruct Hp' as ((p2 & n2) & Heq & Hin2). cbn [fst] in *. subst p2.
      apply (rglob_occurs c _ _ Ha) in Hin1.
      destruct (occurs_first_segment _ _ _ _ _ Hin1) as (rel1 & _ & H1).
      destruct (rglob_below_occurs root r b' Hb' _ _ Hin2)
        as (nm' & c' & Hr' & O).
      destruct (occurs_first_segment _ _ _ _ _ O) as (rel2 & _ & H2).
      rewrite H1 in H2. apply app_inv_head in H2. inversion H2; subst nm'.
      apply Hnm. apply in_map_iff. exists (nm, c'). auto.
Qed.

(** In a tree whose directories hold no name twice the traversal meets no
    path twice. *)
Lemma rglob_NoDup (t : node) :
  distinct_names t ->
  forall root found, rglob root t = Ok found -> NoDup (map fst found).
Proof.
  induction t as [data|errno|entries IH|errno hidden] using node_induction;
    intros Hd root found H; try (inversion H; subst; constructor);
    [|cbn [rglob] in H; destruct (is_permission_error errno);
      inversion H; constructor].
  inversion Hd as [| | |? Hnames Hchildren]; subst.
  rewrite rglob_Dir in H.
  destruct (rglob_below root entries) as [b|] eqn:Hb; [|discriminate].
  inversion H; subst. rewrite map_app, map_map. cbn [fst].
  apply NoDup_app.
  - rewrite <- (map_map fst (child root)).
    apply NoDup_map_injective; [apply child_injective | exact Hnames].
  - apply (rglob_below_NoDup root entries Hnames); [|exact Hb].
    rewrite Forall_forall in *. intros e He root' found'.
    apply (IH e He), (Hchildren e He).
  - intros p Hp Hp'. apply in_map_iff in Hp, Hp'.
    destruct Hp as ((nm & c) & <- & _).
    destruct Hp' as ((p2 & n2) & Heq & Hin2). cbn [fst] in *. subst p2.
    destruct (rglob_below_occurs root entries b Hb _ _ Hin2)
      as (nm' & c' & _ & O).
    destruct (occurs_first_segment _ _ _ _ _ O) as (rel & Hne & H2).
    cbn in H2. apply app_inv_head in H2. inversion H2; subst. congruence.
Qed.

(** ** Selector *)

Lemma shape_Dir entries : shape (Dir entries) = Dir (shape_entries entries).
Proof.
  cbn [shape]. f_equal.
  induction entries as [|[nm c] r IH]; [reflexivity|].
  rewrite IH. reflexivity.
Qed.

Lemma is_file_shape n : is_file (shape n) = is_file n.
Proof. destruct n; reflexivity. Qed.

Lemma is_dir_shape n : is_dir (shape n) = is_dir n.
Proof. unfold is_dir. rewrite is_file_shape. reflexivity. Qed.

Lemma rglob_shape (t : node) :
  forall root, rglob root (shape t) = map_result shape_found (rglob root t).
Proof.
  induction t as [data|e|entries IH|e hidden] using node_induction;
    intros root; try reflexivity;
    try (cbn [shape rglob]; destruct (is_permission_error e); reflexivity).
  rewrite shape_Dir, !rglob_Dir.
  assert (Hb : rglob_below root (shape_entries entries)
               = map_result shape_found (rglob_below root entries)).
  { induction entries as [|[nm c] r IHr]; [reflexivity|].
    inversion IH as [|? ? Hc Hrest]; subst. cbn [snd] in Hc.
    cbn [shape_entries map fst snd rglob_below].
    fold (shape_entries r). rewrite is_dir_shape, Hc, (IHr Hrest).
    destruct (is_dir c); [|reflexivity].
    destruct (rglob (child root nm) c) as [a|]; [|reflexivity].
    destruct (rglob_below root r) as [b|]; [|reflexivity].
    cbn [map_result]. unfold shape_found. rewrite map_app. reflexivity. }
  rewrite Hb. destruct (rglob_below root entries) as [b|]; [|reflexivity].
  cbn [map_result]. f_equal. unfold shape_found, shape_entries.
  rewrite map_app, !map_map. reflexivity.
Qed.

Lemma appended_shape p n : appended p (shape n) = appended p n.
Proof. unfold appended. rewrite is_file_shape. reflexivity. Qed.

Lemma get_all_files_shape root t :
  get_all_files root (shape t) = get_all_files root t.
Proof.
  unfold get_all_files. rewrite rglob_shape.
  destruct (rglob root t) as [found|]; [|reflexivity].
  cbn [map_result]. do 2 f_equal.
  induction found as [|[p n] r IH]; [reflexivity|].
  cbn [shape_found map filter fst snd]. rewrite appended_shape.
  fold (shape_found r). destruct (appended p n); cbn [map fst]; rewrite IH;
    reflexivity.
Qed.

(** The lowercase form of a character other than the capital sigma and the
    capital I with dot. *)
Lemma lower_char_single (c : codepoint) :
  N.eqb c 304 = false ->
  lower_char c = [match lookup c lower_pairs with Some t => t | None => c end].
Proof.
  intros H. unfold lower_char. rewrite H.
  destruct (lookup c lower_pairs); reflexivity.
Qed.

Lemma lookup_In (c t : N) (table : list (N * N)) :
  lookup c table = Some t -> In (c, t) table.
Proof.
  induction table as [|[k u] rest IH]; cbn [lookup]; [discriminate|].
  destruct (N.eqb_spec k c) as [->|].
  - intros H; inversion H; subst. left; reflexivity.
  - destruct (N.ltb c k); [discriminate|]. intros H. right. apply IH, H.
Qed.

(** On ASCII the tables fold the capitals from A to Z and nothing else. *)
Lemma lower_pairs_ascii :
  forallb (fun c =>
    forallb (fun y =>
      implb (lowercase_ascii y)
        (Bool.eqb
           (N.eqb (match lookup c lower_pairs with Some t => t | None => c end)
                  y)
           (ci_char c y)))
      ascii_codes) ascii_codes = true.
Proof. vm_compute. reflexivity. Qed.

(** Outside ASCII only the Kelvin sign has an ASCII lowercase form. *)
Lemma lower_pairs_beyond_ascii :
  forallb (fun e =>
    implb (N.leb 128 (fst e) && N.ltb (snd e) 128)
          (N.eqb (fst e) 8490 && N.eqb (snd e) 107)) lower_pairs = true
  /\ lookup 8490%N lower_pairs = Some 107%N.
Proof. vm_compute. split; reflexivity. Qed.

Lemma lower_char_matches (c y : codepoint) :
  lowercase_ascii y = true ->
  N.eqb (match lookup c lower_pairs with Some t => t | None => c end) y
  = ci_char c y.
Proof.
  intros Hy. pose proof Hy as Hy'. unfold lowercase_ascii in Hy'.
  apply andb_true_iff in Hy'. destruct Hy' as [Hy128 _].
  apply N.ltb_lt in Hy128.
  destruct (N.ltb_spec c 128) as [Hc|Hc].
  - pose proof lower_pairs_ascii as H. rewrite forallb_forall in H.
    specialize (H c (ascii_codes_In c Hc)). rewrite forallb_forall in H.
    specialize (H y (ascii_codes_In y Hy128)). rewrite Hy in H.
    cbn [implb] in H. apply eqb_prop in H. exact H.
  - destruct lower_pairs_beyond_ascii as [Htab Hk].
    rewrite forallb_forall in Htab.
    assert (Hci : ci_char c y = (N.eqb y 107 && N.eqb c 8490)%bool).
    { unfold ci_char.
      replace (N.eqb c y) with false by (symmetry; apply N.eqb_neq; lia).
      replace (N.eqb c (y - 32)) with false
        by (symmetry; apply N.eqb_neq; lia).
      rewrite andb_false_r. reflexivity. }
    rewrite Hci. destruct (lookup c lower_pairs) as [t|] eqn:Hl.
    + specialize (Htab (c, t) (lookup_In _ _ _ Hl)). cbn [fst snd] in Htab.
      replace (N.leb 128 c) with true in Htab
        by (symmetry; apply N.leb_le; exact Hc).
      destruct (N.ltb_spec t 128) as [Ht|Ht]; cbn [andb implb] in Htab.
      * apply andb_true_iff in Htab. destruct Htab as [H1 H2].
        apply N.eqb_eq in H1, H2. subst. rewrite N.eqb_refl, andb_true_r.
        apply N.eqb_sym.
      * replace (N.eqb t y) with false by (symmetry; apply N.eqb_neq; lia).
        destruct (N.eqb_spec c 8490) as [->|];
          [|symmetry; apply andb_false_r].
        rewrite Hk in Hl. inversion Hl; subst. lia.
    + replace (N.eqb c y) with false by (symmetry; apply N.eqb_neq; lia).
      destruct (N.eqb_spec c 8490) as [->|];
        [|symmetry; apply andb_false_r].
      rewrite Hk in Hl. discriminate.
Qed.

(** Comparing the lowercase form with a string of lowercase ASCII is
    comparing up to the case of the letters. *)
Lemma lower_from_matches (e : str) :
  forallb lowercase_ascii e = true ->
  forall s after_cased,
    str_eqb (lower_from after_cased s) e = ci_eqb s e.
Proof.
  intros He s. revert e He.
  induction s as [|c r IH]; intros e He st; [destruct e; reflexivity|].
  rewrite lower_from_cons.
  destruct e as [|y e']; [destruct (N.eqb c 931); [reflexivity|];
    unfold lower_char; destruct (N.eqb c 304); [reflexivity|];
    destruct (lookup c lower_pairs); reflexivity|].
  cbn [forallb] in He. apply andb_true_iff in He. destruct He as [Hy He'].
  cbn [ci_eqb]. rewrite <- (lower_char_matches c y Hy).
  assert (Hy128 : (y < 128)%N).
  { unfold lowercase_ascii in Hy. apply andb_true_iff in Hy.
    apply N.ltb_lt. tauto. }
  destruct (N.eqb_spec c 931) as [->|H931].
  - replace (lookup 931%N lower_pairs) with (@None N)
      by (vm_compute; reflexivity).
    replace (N.eqb 931 y) with false by (symmetry; apply N.eqb_neq; lia).
    cbn [app str_eqb].
    destruct (st && negb (followed_by_cased r))%bool;
      (replace (N.eqb _ y) with false by (symmetry; apply N.eqb_neq; lia));
      reflexivity.
  - destruct (N.eqb_spec c 304) as [->|H304].
    + replace (lookup 304%N lower_pairs) with (@None N)
        by (vm_compute; reflexivity).
      replace (N.eqb 304 y) with false by (symmetry; apply N.eqb_neq; lia).
      change (lower_char 304%N) with [105%N; 775%N].
      cbn [app str_eqb andb].
      destruct e' as [|y2 e'']; [apply andb_false_r|].
      cbn [forallb] in He'. apply andb_true_iff in He'.
      destruct He' as [Hy2 _]. unfold lowercase_ascii in Hy2.
      apply andb_true_iff in Hy2. destruct Hy2 as [Hy2 _].
      apply N.ltb_lt in Hy2.
      replace (N.eqb 775 y2) with false by (symmetry; apply N.eqb_neq; lia).
      cbn [andb]. apply andb_false_r.
    + rewrite lower_char_single by (apply N.eqb_neq; exact H304).
      cbn [app str_eqb]. rewrite (IH e' He'). reflexivity.
Qed.

Lemma INCLUDE_EXTENSIONS_lowercase :
  forallb (forallb lowercase_ascii) INCLUDE_EXTENSIONS = true.
Proof. vm_compute. reflexivity. Qed.

Lemma mem_lower_extensions (s : str) :
  mem (lower s) INCLUDE_EXTENSIONS = ci_mem s INCLUDE_EXTENSIONS.
Proof.
  pose proof INCLUDE_EXTENSIONS_lowercase as H. unfold mem, ci_mem.
  induction INCLUDE_EXTENSIONS as [|e l IH]; [reflexivity|].
  cbn [forallb] in H. apply andb_true_iff in H. destruct H as [He Hl].
  cbn [existsb]. rewrite (IH Hl). unfold lower.
  rewrite (lower_from_matches e He). reflexivity.
Qed.

Lemma appended_spec p n :
  appended p n = (is_file n && selector_spec p)%bool.
Proof.
  unfold appended, selector_spec, should_include_file.
  destruct (is_file n); [|reflexivity]. cbn [andb].
  assert (E : forall l, forallb (fun s => negb (mem s EXCLUDE_DIRS)) l
                        = negb (existsb (fun part => mem part EXCLUDE_DIRS) l)).
  { induction l as [|s l IH]; [reflexivity|]. cbn [forallb existsb].
    rewrite IH, negb_orb. reflexivity. }
  rewrite E.
  destruct (existsb (fun part => mem part EXCLUDE_DIRS) (parts p));
    [reflexivity|].
  cbn [negb andb]. rewrite <- mem_lower_extensions.
  destruct (mem (name p) INCLUDE_FILES); cbn [orb andb];
    [|destruct (mem (lower (suffix p)) INCLUDE_EXTENSIONS); cbn [andb];
      [|reflexivity]];
    destruct (str_eqb (name p) (lit "repo_to_pdf.py"));
    destruct (str_eqb (suffix p) (lit ".pdf"));
    destruct (str_eqb (name p) (lit "package-lock.json")); reflexivity.
Qed.

(** Membership in the result of [get_all_files]. *)
Lemma get_all_files_In (root : Path) (t : node) (files : list Path) :
  get_all_files root t = Ok files ->
  forall p, In p files <->
    (exists n, occurs root t p n /\ is_file n = true)
    /\ selector_spec p = true.
Proof.
  intros H p. unfold get_all_files in H.
  destruct (rglob root t) as [found|] eqn:Hr; [|discriminate].
  inversion H; subst files; clear H.
  rewrite sort_by_key_in, in_map_iff. split.
  - intros ((q & n) & Heq & Hin). cbn [fst] in Heq; subst q.
    apply filter_In in Hin. destruct Hin as [Hin Ha]. cbn [fst snd] in Ha.
    rewrite appended_spec, andb_true_iff in Ha.
    split; [|tauto]. exists n. split; [|tauto].
    apply (rglob_occurs t root found Hr); exact Hin.
  - intros ((n & O & Hf) & Hs). exists (p, n). split; [reflexivity|].
    apply filter_In. split.
    + apply (rglob_occurs t root found Hr); exact O.
    + cbn [fst snd]. rewrite appended_spec, Hf, Hs. reflexivity.
Qed.

(** In a tree whose directories hold no name twice, no path is selected
    twice. *)
Lemma get_all_files_NoDup (root : Path) (t : node) (files : list Path) :
  distinct_names t -> get_all_files root t = Ok files -> NoDup files.
Proof.
  intros Hd H. unfold get_all_files in H.
  destruct (rglob root t) as [found|] eqn:Hr; [|discriminate].
  inversion H; subst.
  eapply Permutation_NoDup; [apply sort_by_key_perm|].
  apply NoDup_map_filter, (rglob_NoDup t Hd root found Hr).
Qed.

(** C1 — Selector: a path is in the result of [get_all_files] exactly when it
    is a file of the tree, none of its segments is an excluded directory name,
    its name is on the list of names or its extension is, up to the case of
    its letters, on the list of extensions, and it is none of
    [repo_to_pdf.py], a [.pdf] or [package-lock.json]; and the result is the
    same for every tree that differs only in the contents of its files.
    Up to the case of its letters: each letter of the listed extension may
    stand as it is or as its capital, and k also as the Kelvin sign, which
    [str.lower()] turns into k. *)
Theorem get_all_files_selects (root : Path) (t : node) (files : list Path) :
  get_all_files root t = Ok files ->
  (forall p, In p files <->
     (exists n, occurs root t p n /\ is_file n = true)
     /\ selector_spec p = true)
  /\ (forall t', shape t' = shape t -> get_all_files root t' = Ok files).
Proof.
  intros H. split.
  - apply get_all_files_In, H.
  - intros t' Hs. rewrite <- (get_all_files_shape root t'), Hs,
      get_all_files_shape. exact H.
Qed.

Lemma get_all_files_selects_witness :
  get_all_files REPO_ROOT mixed_case_tree
  = Ok [ child REPO_ROOT (lit "Main.PY");
         child REPO_ROOT (lit "README.MD");
         child REPO_ROOT (lit "yarn.loc" ++ [8490%N]) ]
  /\ (forall p,
        In p [ child REPO_ROOT (lit "Main.PY");
               child REPO_ROOT (lit "README.MD");
               child REPO_ROOT (lit "yarn.loc" ++ [8490%N]) ] <->
        (exists n, occurs REPO_ROOT mixed_case_tree p n /\ is_file n = true)
        /\ selector_spec p = true)
  /\ (forall t', shape t' = shape mixed_case_tree ->
        get_all_files REPO_ROOT t'
        = Ok [ child REPO_ROOT (lit "Main.PY");
               child REPO_ROOT (lit "README.MD");
               child REPO_ROOT (lit "yarn.loc" ++ [8490%N]) ]).
Proof.
  split; [vm_compute; reflexivity|].
  apply (get_all_files_selects REPO_ROOT mixed_case_tree).
  vm_compute. reflexivity.
Defined.

Lemma get_all_files_under_root (t : node) (files : list Path) :
  get_all_files REPO_ROOT t = Ok files -> Forall under_root files.
Proof.
  intros H. apply Forall_forall. intros p Hp.
  apply (get_all_files_In _ _ _ H) in Hp. destruct Hp as [(n & O & _) _].
  exact (occurs_under _ _ _ _ O).
Qed.

Lemma get_all_files_sorted (root : Path) (t : node) (files : list Path) :
  get_all_files root t = Ok files -> StronglySorted (key_le sort_key) files.
Proof.
  unfold get_all_files. destruct (rglob root t); [|discriminate].
  intros H; inversion H; subst. apply sort_by_key_sorted.
Qed.

(** ** The monad *)

Lemma bind_ret {A B} (a : A) (f : A -> M B) : bind (ret a) f = f a.
Proof. unfold bind, ret. destruct (f a); reflexivity. Qed.

Lemma bind_lift_Ok {A B} (a : A) (f : A -> M B) : bind (lift (Ok a)) f = f a.
Proof. apply bind_ret. Qed.

Lemma bind_lift_Err {A B} (e : exn) (f : A -> M B) :
  bind (lift (Err e)) f = ([], Err e).
Proof. reflexivity. Qed.

Lemma bind_emit {B} (ev : event) (f : unit -> M B) :
  bind (emit ev) f = (ev :: fst (f tt), snd (f tt)).
Proof. reflexivity. Qed.

Lemma bind_pair_Ok {A B} (t : list event) (a : A) (f : A -> M B) :
  bind (t, Ok a) f = (t ++ fst (f a), snd (f a)).
Proof. reflexivity. Qed.

Lemma bind_pair_Err {A B} (t : list event) (e : exn) (f : A -> M B) :
  bind (t, Err e) f = (t, Err e).
Proof. reflexivity. Qed.

(** ** Views of the document *)

Lemma relative_to_under_root (p : Path) :
  under_root p ->
  exists rel, relative_to p REPO_ROOT = Ok {| absolute := false; segs := rel |}
              /\ p = descend REPO_ROOT rel /\ rel <> [].
Proof.
  intros (rel & Hne & ->). exists rel. unfold relative_to, descend.
  cbn [absolute segs Bool.eqb]. rewrite strip_prefix_app. auto.
Qed.

Lemma toc_loop_run (files : list Path) :
  Forall under_root files ->
  forall i story,
    toc_loop i files story = ([], Ok (story ++ toc_lines i files)).
Proof.
  induction 1 as [|f rest Hf _ IH]; intros i story.
  - cbn [toc_loop toc_lines]. rewrite app_nil_r. reflexivity.
  - cbn [toc_loop toc_lines].
    destruct (relative_to_under_root f Hf) as (rel & Hrel & _).
    unfold toc_entry, relative_str. rewrite Hrel, bind_lift_Ok, IH.
    rewrite <- app_assoc. reflexivity.
Qed.

Lemma content_loop_cons (w : World) (total i : nat) (f : Path)
    (rest : list Path) (story : list flowable) :
  under_root f ->
  content_loop w total i (f :: rest) story =
  match read_file_safely w f with
  | (t, Ok content) =>
      let r := content_loop w total (S i) rest (story ++ section f content) in
      (processing total i f :: t ++ fst r, snd r)
  | (t, Err e) => (processing total i f :: t, Err e)
  end.
Proof.
  intros Hf. destruct (relative_to_under_root f Hf) as (rel & Hrel & _).
  cbn [content_loop]. unfold processing, section, header_text, relative_str,
    expand_tabs, print.
  rewrite Hrel, !bind_lift_Ok, bind_emit. cbn beta.
  destruct (read_file_safely w f) as [t [content|e]].
  - rewrite bind_pair_Ok. cbn [fst snd app]. rewrite <- !app_assoc.
    reflexivity.
  - rewrite bind_pair_Err. reflexivity.
Qed.

Lemma content_loop_all_read (w : World) (total : nat) (files : list Path) :
  Forall under_root files ->
  forall contents i story,
    read_all w files = Ok contents ->
    content_loop w total i files story
    = (content_events w total i files,
       Ok (story ++ sections files contents)).
Proof.
  induction 1 as [|f rest Hf _ IH]; intros contents i story Hall.
  - inversion Hall; subst. cbn. rewrite app_nil_r. reflexivity.
  - rewrite content_loop_cons by exact Hf. cbn [read_all] in Hall.
    unfold outcome, trace in *. cbn [content_events].
    destruct (read_file_safely w f) as [t [c|e]]; cbn [snd fst] in *;
      [|discriminate].
    destruct (read_all w rest) as [cs|] eqn:Hrest; [|discriminate].
    inversion Hall; subst contents. cbn zeta. rewrite (IH cs) by reflexivity.
    cbn [fst snd sections]. rewrite <- app_assoc. reflexivity.
Qed.

Lemma content_loop_first_failure (w : World) (total : nat)
    (pre : list Path) (f : Path) (post : list Path) (e : exn) :
  Forall under_root (pre ++ f :: post) ->
  outcome (read_file_safely w f) = Err e ->
  forall contents i story,
    read_all w pre = Ok contents ->
    content_loop w total i (pre ++ f :: post) story
    = (content_events w total i pre
       ++ processing total (i + List.length pre) f
          :: trace (read_file_safely w f),
       Err e).
Proof.
  intros Hall Hf. induction pre as [|g pre IH]; intros contents i story Hpre.
  - cbn [app] in *. inversion Hall; subst.
    rewrite content_loop_cons by assumption. unfold outcome, trace in *.
    destruct (read_file_safely w f) as [t [c|e']]; cbn [snd fst] in *;
      [discriminate|].
    inversion Hf; subst. cbn. rewrite Nat.add_0_r. reflexivity.
  - cbn [app] in *. inversion Hall as [|? ? Hg Hrest]; subst.
    rewrite content_loop_cons by assumption. cbn [read_all] in Hpre.
    unfold outcome, trace in *. cbn [content_events].
    destruct (read_file_safely w g) as [t [c|e']]; cbn [snd fst] in *;
      [|discriminate].
    destruct (read_all w pre) as [cs|] eqn:Hcs; [|discriminate].
    cbn zeta. rewrite (IH Hrest cs (S i) _ eq_refl).
    unfold trace. cbn [fst snd List.length app].
    rewrite <- app_assoc, Nat.add_succ_r. reflexivity.
Qed.

(** ** Reader *)

Lemma read_bytes_OSError (w : World) (f : Path) (e : exn) :
  read_bytes w f = Err e -> is_unicode_error e = false.
Proof.
  unfold read_bytes. destruct (relative_to f REPO_ROOT) as [rel|].
  - destruct (node_at (tree w) (segs rel)) as [[]|]; intros H; inversion H;
      reflexivity.
  - intros H; inversion H; reflexivity.
Qed.

Lemma read_text_run (w : World) (f : Path) (enc : encoding) :
  read_text w f enc =
  ([open_text f enc],
   match read_bytes w f with
   | Err e => Err e
   | Ok data =>
       match text_under enc data with
       | Some s => Ok s
       | None => Err UnicodeDecodeError
       end
   end).
Proof.
  unfold read_text, text_under. rewrite bind_emit.
  destruct (read_bytes w f) as [data|e]; [|reflexivity].
  rewrite bind_lift_Ok. destruct (decode enc data); reflexivity.
Qed.

Lemma try_encodings_run (w : World) (f : Path) (data : list byte) :
  read_bytes w f = Ok data ->
  forall encodings,
    try_encodings w f encodings
    = (map (open_text f) (fst (attempts encodings data)),
       Ok (snd (attempts encodings data))).
Proof.
  intros Hd. induction encodings as [|enc rest IH]; [reflexivity|].
  cbn [try_encodings attempts]. rewrite read_text_run, Hd.
  destruct (text_under enc data) as [s|]; [reflexivity|].
  cbn [is_unicode_error]. rewrite IH. reflexivity.
Qed.

Lemma try_encodings_OSError (w : World) (f : Path) (e : exn) :
  read_bytes w f = Err e ->
  forall enc rest,
    try_encodings w f (enc :: rest) = ([open_text f enc], Err e).
Proof.
  intros He enc rest. cbn [try_encodings]. rewrite read_text_run, He.
  rewrite (read_bytes_OSError _ _ _ He). reflexivity.
Qed.

Lemma attempts_first (data : list byte) (encodings : list encoding) :
  match snd (attempts encodings data) with
  | Some s =>
      exists tried enc rest,
        encodings = tried ++ enc :: rest
        /\ Forall (fun e => decode e data = None) tried
        /\ text_under enc data = Some s
        /\ fst (attempts encodings data) = tried ++ [enc]
  | None =>
      Forall (fun e => decode e data = None) encodings
      /\ fst (attempts encodings data) = encodings
  end.
Proof.
  induction encodings as [|enc rest IH]; cbn [attempts].
  - cbn. split; [constructor | reflexivity].
  - destruct (text_under enc data) as [s|] eqn:E; cbn [fst snd].
    + exists [], enc, rest. repeat split; [constructor | exact E].
    + assert (Hd : decode enc data = None).
      { unfold text_under in E. destruct (decode enc data); [discriminate|].
        reflexivity. }
      destruct (snd (attempts rest data)) as [s|].
      * destruct IH as (tried & enc' & rest' & -> & Hall & Ht & Hfst).
        exists (enc :: tried), enc', rest'. rewrite Hfst.
        repeat split; [constructor; assumption | exact Ht].
      * destruct IH as [Hall Hfst]. rewrite Hfst.
        split; [constructor; assumption | reflexivity].
Qed.

Lemma read_file_safely_run (w : World) (f : Path) (data : list byte) :
  read_bytes w f = Ok data ->
  read_file_safely w f =
  match attempts [UTF8; Latin1; CP1252] data with
  | (tried, Some s) => (map (open_text f) tried, Ok s)
  | (tried, None) =>
      (map (open_text f) tried ++ [EvOpen f Binary], Ok (decode_replace data))
  end.
Proof.
  intros Hd. unfold read_file_safely.
  rewrite (try_encodings_run w f data Hd).
  destruct (attempts [UTF8; Latin1; CP1252] data) as [tried [s|]];
    cbn [fst snd]; rewrite bind_pair_Ok.
  - cbn. rewrite app_nil_r. reflexivity.
  - unfold read_binary. rewrite bind_emit, Hd. reflexivity.
Qed.

Lemma read_file_safely_OSError (w : World) (f : Path) (e : exn) :
  read_bytes w f = Err e ->
  read_file_safely w f = ([open_text f UTF8], Err e).
Proof.
  intros He. unfold read_file_safely.
  rewrite (try_encodings_OSError w f e He). reflexivity.
Qed.

Lemma read_bytes_Err (w : World) (f : Path) (e : exn) :
  read_bytes w f = Err e -> exists errno, e = OSError errno.
Proof.
  unfold read_bytes. destruct (relative_to f REPO_ROOT) as [rel|].
  - destruct (node_at (tree w) (segs rel)) as [[]|]; intros H; inversion H;
      eexists; reflexivity.
  - intros H; inversion H. eexists; reflexivity.
Qed.

(** The three ways in which a read can go. *)
Lemma read_file_safely_cases (w : World) (f : Path) :
  (exists data s,
     read_bytes w f = Ok data /\ decode UTF8 data = Some s
     /\ read_file_safely w f
        = ([open_text f UTF8], Ok (translate_newlines s)))
  \/ (exists data,
        read_bytes w f = Ok data /\ decode UTF8 data = None
        /\ read_file_safely w f
           = ([open_text f UTF8; open_text f Latin1],
              Ok (translate_newlines (map byte_val data))))
  \/ (exists errno,
        read_bytes w f = Err (OSError errno)
        /\ read_file_safely w f = ([open_text f UTF8], Err (OSError errno))).
Proof.
  destruct (read_bytes w f) as [data|e] eqn:Hd.
  - rewrite (read_file_safely_run w f data Hd).
    assert (Ha : attempts [UTF8; Latin1; CP1252] data
                 = match decode UTF8 data with
                   | Some s => ([UTF8], Some (translate_newlines s))
                   | None => ([UTF8; Latin1],
                              Some (translate_newlines (map byte_val data)))
                   end).
    { cbn [attempts]. unfold text_under.
      destruct (decode UTF8 data); reflexivity. }
    rewrite Ha. destruct (decode UTF8 data) as [s|] eqn:Hu.
    + left. exists data, s. split; [reflexivity|split; [exact Hu|reflexivity]].
    + right. left. exists data.
      split; [reflexivity|split; [exact Hu|reflexivity]].
  - destruct (read_bytes_Err w f e Hd) as (errno & ->).
    right. right. exists errno. split; [reflexivity|].
    apply read_file_safely_OSError, Hd.
Qed.

(** What a read returns is the content of the file, decoded, with its line
    ends translated. *)
Lemma read_file_safely_text (w : World) (f : Path) (text : str) :
  outcome (read_file_safely w f) = Ok text ->
  exists data,
    read_bytes w f = Ok data
    /\ text = translate_newlines (file_text data).
Proof.
  destruct (read_file_safely_cases w f)
    as [(data & s & Hb & Hu & Hr) | [(data & Hb & Hu & Hr) | (n & _ & Hr)]];
    rewrite Hr; unfold outcome; cbn [snd]; intros H; inversion H; subst.
  - exists data. unfold file_text. rewrite Hu. auto.
  - exists data. unfold file_text. rewrite Hu. auto.
Qed.

Lemma translate_newlines_id (s : str) :
  ~ In 13%N s -> translate_newlines s = s.
Proof.
  induction s as [|c r IH]; [reflexivity|]. intros H.
  cbn [translate_newlines]. destruct (N.eqb_spec c 13) as [->|Hc].
  - exfalso. apply H. left. reflexivity.
  - rewrite IH; [reflexivity|]. intros Hin. apply H. right. exact Hin.
Qed.

(** C3 — Reader: for a file whose bytes can be read, [read_file_safely] opens
    it under utf-8, latin-1 and cp1252 in this order and returns the text of
    the first that decodes; when none decodes it opens the file once more in
    binary mode and returns the lossy decoding.  It returns a text in either
    case. *)
Theorem read_file_safely_returns_text (w : World) (f : Path)
    (data : list byte) :
  read_bytes w f = Ok data ->
  exists text,
    outcome (read_file_safely w f) = Ok text
    /\ ((exists tried enc rest,
           [UTF8; Latin1; CP1252] = tried ++ enc :: rest
           /\ Forall (fun e => decode e data = None) tried
           /\ text_under enc data = Some text
           /\ trace (read_file_safely w f)
              = map (open_text f) (tried ++ [enc]))
        \/ (Forall (fun e => decode e data = None) [UTF8; Latin1; CP1252]
            /\ text = decode_replace data
            /\ trace (read_file_safely w f)
               = map (open_text f) [UTF8; Latin1; CP1252]
                 ++ [EvOpen f Binary])).
Proof.
  intros Hd. rewrite (read_file_safely_run w f data Hd).
  pose proof (attempts_first data [UTF8; Latin1; CP1252]) as H.
  destruct (attempts [UTF8; Latin1; CP1252] data) as [tried [s|]];
    cbn [fst snd] in H.
  - exists s. split; [reflexivity|]. left.
    destruct H as (tr & enc & rest & Hl & Hall & Ht & ->).
    exists tr, enc, rest. auto.
  - exists (decode_replace data). split; [reflexivity|]. right.
    destruct H as [Hall ->]. auto.
Qed.

Lemma read_file_safely_returns_text_witness :
  read_bytes latin1_world menu_txt = Ok latin1_sample
  /\ exists text,
       outcome (read_file_safely latin1_world menu_txt) = Ok text
       /\ ((exists tried enc rest,
              [UTF8; Latin1; CP1252] = tried ++ enc :: rest
              /\ Forall (fun e => decode e latin1_sample = None) tried
              /\ text_under enc latin1_sample = Some text
              /\ trace (read_file_safely latin1_world menu_txt)
                 = map (open_text menu_txt) (tried ++ [enc]))
           \/ (Forall (fun e => decode e latin1_sample = None)
                      [UTF8; Latin1; CP1252]
               /\ text = decode_replace latin1_sample
               /\ trace (read_file_safely latin1_world menu_txt)
                  = map (open_text menu_txt) [UTF8; Latin1; CP1252]
                    ++ [EvOpen menu_txt Binary])).
Proof.
  split; [reflexivity|].
  apply (read_file_safely_returns_text latin1_world menu_txt latin1_sample).
  reflexivity.
Defined.

(** Latin-1 assigns a code point to every byte. *)
Lemma latin1_total (data : list byte) :
  text_under Latin1 data = Some (translate_newlines (map byte_val data)).
Proof. reflexivity. Qed.

(** C10 — latin-1 decodes every byte sequence, so [read_file_safely] never
    opens a file in binary mode: a readable file is returned from the loop
    after at most two opens, with the utf-8 text or else the latin-1 text,
    and an unreadable one ends the loop at its first open. *)
Theorem lossy_fallback_unreachable (w : World) (f : Path) :
  (forall any : list byte, decode Latin1 any <> None)
  /\ ~ In (EvOpen f Binary) (trace (read_file_safely w f))
  /\ (forall data, read_bytes w f = Ok data ->
        (exists s, decode UTF8 data = Some s
           /\ read_file_safely w f
              = ([open_text f UTF8], Ok (translate_newlines s)))
        \/ (decode UTF8 data = None
            /\ read_file_safely w f
               = ([open_text f UTF8; open_text f Latin1],
                  Ok (translate_newlines (map byte_val data))))).
Proof.
  split; [intros any; discriminate|].
  assert (Hrun : forall data, read_bytes w f = Ok data ->
            (exists s, decode UTF8 data = Some s
               /\ read_file_safely w f
                  = ([open_text f UTF8], Ok (translate_newlines s)))
            \/ (decode UTF8 data = None
                /\ read_file_safely w f
                   = ([open_text f UTF8; open_text f Latin1],
                      Ok (translate_newlines (map byte_val data))))).
  { intros data Hd. rewrite (read_file_safely_run w f data Hd).
    assert (Ha : attempts [UTF8; Latin1; CP1252] data
                 = match decode UTF8 data with
                   | Some s => ([UTF8], Some (translate_newlines s))
                   | None => ([UTF8; Latin1],
                              Some (translate_newlines (map byte_val data)))
                   end).
    { cbn [attempts]. unfold text_under.
      destruct (decode UTF8 data); reflexivity. }
    rewrite Ha. destruct (decode UTF8 data) as [s|].
    - left. exists s. split; reflexivity.
    - right. split; reflexivity. }
  split; [|exact Hrun].
  destruct (read_bytes w f) as [data|e] eqn:Hd.
  - destruct (Hrun data eq_refl) as [(s & _ & ->) | (_ & ->)];
      unfold trace; cbn.
    + intros [H|[]]. discriminate.
    + intros [H|[H|[]]]; discriminate.
  - rewrite (read_file_safely_OSError w f e Hd). unfold trace. cbn.
    intros [H|[]]. discriminate.
Qed.

Lemma lossy_fallback_unreachable_witness :
  read_bytes latin1_world menu_txt = Ok latin1_sample
  /\ decode UTF8 latin1_sample = None
  /\ read_file_safely latin1_world menu_txt
     = ([open_text menu_txt UTF8; open_text menu_txt Latin1],
        Ok (map byte_val [x63; x61; x66; xe9; x0a]))
  /\ ((forall any : list byte, decode Latin1 any <> None)
      /\ ~ In (EvOpen menu_txt Binary)
              (trace (read_file_safely latin1_world menu_txt))
      /\ (forall data, read_bytes latin1_world menu_txt = Ok data ->
            (exists s, decode UTF8 data = Some s
               /\ read_file_safely latin1_world menu_txt
                  = ([open_text menu_txt UTF8], Ok (translate_newlines s)))
            \/ (decode UTF8 data = None
                /\ read_file_safely latin1_world menu_txt
                   = ([open_text menu_txt UTF8; open_text menu_txt Latin1],
                      Ok (translate_newlines (map byte_val data)))))).
Proof.
  split; [reflexivity|]. split; [reflexivity|]. split; [reflexivity|].
  apply (lossy_fallback_unreachable latin1_world menu_txt).
Defined.

(** ** Escaping *)

Lemma replace_char_app (old : codepoint) (new a b : str) :
  replace_char old new (a ++ b)
  = replace_char old new a ++ replace_char old new b.
Proof. apply flat_map_app. Qed.

Lemma replace_char_cons (old : codepoint) (new : str) (c : codepoint)
    (s : str) :
  replace_char old new (c :: s)
  = (if N.eqb c old then new else [c]) ++ replace_char old new s.
Proof. reflexivity. Qed.

(** The three replacements in sequence act character by character: the
    ampersand goes first, so the ampersands that the later replacements bring
    in are not escaped again. *)
Lemma escape_xml_cons (c : codepoint) (s : str) :
  escape_xml (c :: s) = escape_char c ++ escape_xml s.
Proof.
  unfold escape_xml, escape_char. rewrite replace_char_cons.
  destruct (N.eqb_spec c 38) as [->|H38].
  - rewrite !replace_char_app. reflexivity.
  - rewrite replace_char_app.
    change (replace_char 60%N (lit "&lt;") [c])
      with ((if N.eqb c 60 then lit "&lt;" else [c]) ++ []).
    rewrite app_nil_r, replace_char_app.
    destruct (N.eqb_spec c 60) as [->|H60]; [reflexivity|].
    change (replace_char 62%N (lit "&gt;") [c])
      with ((if N.eqb c 62 then lit "&gt;" else [c]) ++ []).
    rewrite app_nil_r. reflexivity.
Qed.

Lemma escape_xml_flat (s : str) : escape_xml s = flat_map escape_char s.
Proof.
  induction s as [|c s IH]; [reflexivity|].
  rewrite escape_xml_cons, IH. reflexivity.
Qed.

Lemma escape_xml_app (a b : str) :
  escape_xml (a ++ b) = escape_xml a ++ escape_xml b.
Proof. rewrite !escape_xml_flat. apply flat_map_app. Qed.

Lemma escape_xml_plain (s : str) : plain s = true -> escape_xml s = s.
Proof.
  induction s as [|c s IH]; [reflexivity|].
  unfold plain in *. cbn [forallb].
  rewrite andb_true_iff, negb_true_iff, !orb_false_iff.
  intros [[[H38 H60] H62] Hs]. rewrite escape_xml_cons.
  unfold escape_char. rewrite H38, H60, H62, (IH Hs). reflexivity.
Qed.

Lemma unescape_xml_cons_other (c : codepoint) (s : str) :
  N.eqb c 38 = false -> unescape_xml (c :: s) = c :: unescape_xml s.
Proof. intros H. cbn [unescape_xml]. rewrite H. reflexivity. Qed.

Lemma unescape_escape_xml (s : str) : unescape_xml (escape_xml s) = s.
Proof.
  induction s as [|c s IH]; [reflexivity|].
  rewrite escape_xml_cons. unfold escape_char.
  destruct (N.eqb_spec c 38) as [->|H38].
  - change (unescape_xml (lit "&amp;" ++ escape_xml s))
      with (38%N :: unescape_xml (escape_xml s)).
    rewrite IH. reflexivity.
  - destruct (N.eqb_spec c 60) as [->|H60].
    + change (unescape_xml (lit "&lt;" ++ escape_xml s))
        with (60%N :: unescape_xml (escape_xml s)).
      rewrite IH. reflexivity.
    + destruct (N.eqb_spec c 62) as [->|H62].
      * change (unescape_xml (lit "&gt;" ++ escape_xml s))
          with (62%N :: unescape_xml (escape_xml s)).
        rewrite IH. reflexivity.
      * cbn [app]. rewrite unescape_xml_cons_other, IH; [reflexivity|].
        apply N.eqb_neq; exact H38.
Qed.

Lemma escape_xml_injective (a b : str) :
  escape_xml a = escape_xml b -> a = b.
Proof.
  intros H. rewrite <- (unescape_escape_xml a), <- (unescape_escape_xml b), H.
  reflexivity.
Qed.

Lemma body_flat (content : str) :
  expand_tabs (escape_xml content) = flat_map body_char content.
Proof.
  unfold expand_tabs. induction content as [|c s IH]; [reflexivity|].
  rewrite escape_xml_cons, replace_char_app, IH. cbn [flat_map]. f_equal.
  unfold body_char, escape_char.
  destruct (N.eqb_spec c 38) as [->|H38]; [reflexivity|].
  destruct (N.eqb_spec c 60) as [->|H60]; [reflexivity|].
  destruct (N.eqb_spec c 62) as [->|H62]; [reflexivity|].
  unfold replace_char. cbn [flat_map]. rewrite app_nil_r. reflexivity.
Qed.

Lemma markup_safe_escape_char (c : codepoint) (t : str) :
  markup_safe (escape_char c ++ t) = markup_safe t.
Proof.
  unfold escape_char.
  destruct (N.eqb_spec c 38) as [->|H38]; [reflexivity|].
  destruct (N.eqb_spec c 60) as [->|H60]; [reflexivity|].
  destruct (N.eqb_spec c 62) as [->|H62]; [reflexivity|].
  cbn [app markup_safe].
  apply N.eqb_neq in H38, H60, H62. rewrite H38, H60, H62. reflexivity.
Qed.

Lemma markup_safe_body_char (c : codepoint) (t : str) :
  markup_safe (body_char c ++ t) = markup_safe t.
Proof.
  unfold body_char. destruct (N.eqb_spec c 9) as [->|H9]; [reflexivity|].
  apply markup_safe_escape_char.
Qed.

Lemma markup_safe_escape_xml (s : str) : markup_safe (escape_xml s) = true.
Proof.
  rewrite escape_xml_flat. induction s as [|c s IH]; [reflexivity|].
  cbn [flat_map]. rewrite markup_safe_escape_char. exact IH.
Qed.

Lemma markup_safe_body (content : str) :
  markup_safe (expand_tabs (escape_xml content)) = true.
Proof.
  rewrite body_flat. induction content as [|c s IH]; [reflexivity|].
  cbn [flat_map]. rewrite markup_safe_body_char. exact IH.
Qed.

(** ** Runs of [main] *)

(** The traversal raises: nothing but the first line is printed. *)
Lemma main_scan_error (w : World) (e : exn) :
  get_all_files REPO_ROOT (tree w) = Err e ->
  main w = ([collecting], Err e).
Proof.
  intros H. unfold main, print. rewrite bind_emit, H. reflexivity.
Qed.

(** Every file is read: the story goes to [doc.build]. *)
Lemma main_all_read (w : World) (files : list Path) (contents : list str) :
  get_all_files REPO_ROOT (tree w) = Ok files ->
  read_all w files = Ok contents ->
  main w =
  (collecting :: found_line files
   :: content_events w (List.length files) 1 files
   ++ building :: EvBuild output_path (document files contents)
   :: match build_error w with
      | Some _ => []
      | None => [created]
      end,
   match build_error w with
   | Some e => Err e
   | None => Ok tt
   end).
Proof.
  intros Hfiles Hall.
  pose proof (get_all_files_under_root _ _ Hfiles) as Hroot.
  unfold main, print. rewrite Hfiles.
  cbn [bind emit lift fst snd app].
  rewrite (toc_loop_run files Hroot).
  cbn [bind emit lift fst snd app].
  rewrite (content_loop_all_read w _ files Hroot contents 1 _ Hall).
  unfold build. cbn [bind emit lift fst snd app].
  unfold collecting, found_line, building, created, document.
  rewrite <- !app_assoc.
  destruct (build_error w) as [e|]; cbn [bind raise ret emit fst snd app];
    reflexivity.
Qed.

(** A read raises: the run ends with the events of that read. *)
Lemma main_read_error (w : World) (pre : list Path) (f : Path)
    (post : list Path) (contents : list str) (e : exn) :
  get_all_files REPO_ROOT (tree w) = Ok (pre ++ f :: post) ->
  read_all w pre = Ok contents ->
  outcome (read_file_safely w f) = Err e ->
  main w =
  (collecting :: found_line (pre ++ f :: post)
   :: content_events w (List.length (pre ++ f :: post)) 1 pre
   ++ processing (List.length (pre ++ f :: post)) (1 + List.length pre) f
      :: trace (read_file_safely w f),
   Err e).
Proof.
  intros Hfiles Hpre Hf.
  pose proof (get_all_files_under_root _ _ Hfiles) as Hroot.
  unfold main, print. rewrite Hfiles.
  cbn [bind emit lift fst snd app].
  rewrite (toc_loop_run _ Hroot).
  cbn [bind emit lift fst snd app].
  rewrite (content_loop_first_failure w _ pre f post e Hroot Hf contents 1 _
             Hpre).
  reflexivity.
Qed.

Lemma read_all_length (w : World) (files : list Path) :
  forall contents, read_all w files = Ok contents ->
                   List.length contents = List.length files.
Proof.
  induction files as [|f rest IH]; intros contents H; cbn [read_all] in H.
  - inversion H; reflexivity.
  - destruct (outcome (read_file_safely w f)); [|discriminate].
    destruct (read_all w rest) as [cs|]; [|discriminate].
    inversion H; subst. cbn [List.length]. rewrite (IH cs eq_refl).
    reflexivity.
Qed.

(** When not every read succeeds there is a first one that raises. *)
Lemma read_all_Err (w : World) (files : list Path) (e : exn) :
  read_all w files = Err e ->
  exists pre f post contents,
    files = pre ++ f :: post
    /\ read_all w pre = Ok contents
    /\ outcome (read_file_safely w f) = Err e.
Proof.
  induction files as [|f rest IH]; cbn [read_all]; [discriminate|].
  destruct (outcome (read_file_safely w f)) as [c|e'] eqn:Hf.
  - destruct (read_all w rest) as [cs|e''] eqn:Hrest; [discriminate|].
    intros H; inversion H; subst e''.
    destruct (IH eq_refl) as (pre & g & post & cs & -> & Hpre & Hg).
    exists (f :: pre), g, post, (c :: cs). cbn [read_all app].
    rewrite Hf, Hpre. auto.
  - intros H; inversion H; subst e'.
    exists [], f, rest, []. auto.
Qed.

Lemma read_all_Forall2 (w : World) (files : list Path) :
  forall contents, read_all w files = Ok contents ->
    Forall2 (fun f c => outcome (read_file_safely w f) = Ok c) files contents.
Proof.
  induction files as [|f rest IH]; intros contents H; cbn [read_all] in H.
  - inversion H; constructor.
  - destruct (outcome (read_file_safely w f)) as [c|] eqn:Hf; [|discriminate].
    destruct (read_all w rest) as [cs|]; [|discriminate].
    inversion H; subst. constructor; [exact Hf | apply IH; reflexivity].
Qed.

Lemma read_all_data (w : World) (files : list Path) :
  forall contents, read_all w files = Ok contents ->
    exists datas,
      Forall2 (fun f data => read_bytes w f = Ok data) files datas
      /\ contents = map (fun data => translate_newlines (file_text data))
                        datas.
Proof.
  induction files as [|f rest IH]; intros contents H; cbn [read_all] in H.
  - inversion H. exists []. split; [constructor | reflexivity].
  - destruct (outcome (read_file_safely w f)) as [c|] eqn:Hf; [|discriminate].
    destruct (read_all w rest) as [cs|]; [|discriminate].
    inversion H; subst.
    destruct (read_file_safely_text w f c Hf) as (data & Hb & ->).
    destruct (IH cs eq_refl) as (datas & Hall & ->).
    exists (data :: datas). split; [constructor; assumption | reflexivity].
Qed.

Lemma read_file_safely_no_build (w : World) (f : Path) :
  forallb (fun ev => negb (is_build ev)) (trace (read_file_safely w f)) = true.
Proof.
  destruct (read_bytes w f) as [data|e] eqn:Hd.
  - rewrite (read_file_safely_run w f data Hd).
    destruct (attempts [UTF8; Latin1; CP1252] data) as [tried [s|]];
      unfold trace; cbn [fst]; rewrite ?forallb_app; cbn;
      rewrite ?andb_true_r; induction tried; cbn; auto.
  - rewrite (read_file_safely_OSError w f e Hd). reflexivity.
Qed.

Lemma content_events_no_build (w : World) (total : nat) (files : list Path) :
  forall i,
    forallb (fun ev => negb (is_build ev)) (content_events w total i files)
    = true.
Proof.
  induction files as [|f rest IH]; intros i; [reflexivity|].
  cbn [content_events forallb processing is_build negb andb].
  rewrite forallb_app, read_file_safely_no_build, IH. reflexivity.
Qed.

Lemma find_app_none {A} (p : A -> bool) (l r : list A) :
  forallb (fun x => negb (p x)) l = true -> find p (l ++ r) = find p r.
Proof.
  induction l as [|x l IH]; [reflexivity|]. cbn [forallb app find].
  rewrite andb_true_iff, negb_true_iff. intros [-> Hl]. apply IH, Hl.
Qed.

Lemma find_none {A} (p : A -> bool) (l : list A) :
  forallb (fun x => negb (p x)) l = true -> find p l = None.
Proof.
  intros H. rewrite <- (app_nil_r l). rewrite (find_app_none p l [] H).
  reflexivity.
Qed.

(** The story of a run: the document over all files when all are read, and
    none when the traversal or a read raises. *)
Lemma built_story_main (w : World) :
  built_story (main w) =
  match get_all_files REPO_ROOT (tree w) with
  | Err _ => None
  | Ok files =>
      match read_all w files with
      | Err _ => None
      | Ok contents => Some (document files contents)
      end
  end.
Proof.
  unfold built_story.
  destruct (get_all_files REPO_ROOT (tree w)) as [files|e] eqn:Hfiles.
  - destruct (read_all w files) as [contents|e] eqn:Hall.
    + rewrite (main_all_read w files contents Hfiles Hall).
      unfold trace. cbn [fst find collecting found_line is_build].
      rewrite find_app_none by apply content_events_no_build. reflexivity.
    + destruct (read_all_Err w files e Hall)
        as (pre & f & post & cs & -> & Hpre & Hf).
      rewrite (main_read_error w pre f post cs e Hfiles Hpre Hf).
      unfold trace at 1. cbn [fst find collecting found_line is_build].
      rewrite find_none; [reflexivity|].
      rewrite forallb_app, content_events_no_build.
      cbn [forallb processing is_build negb andb].
      apply read_file_safely_no_build.
  - rewrite (main_scan_error w e Hfiles). reflexivity.
Qed.

(** ** Parts of a story *)

Lemma filter_toc_lines (i : nat) (files : list Path) :
  toc_of (toc_lines i files) = toc_lines i files
  /\ headers_of (toc_lines i files) = []
  /\ bodies_of (toc_lines i files) = [].
Proof.
  revert i. induction files as [|f rest IH]; intros i; [auto|].
  destruct (IH (S i)) as (Ht & Hh & Hb).
  unfold toc_of, headers_of, bodies_of in *.
  cbn [toc_lines filter is_toc_line is_header is_body].
  rewrite Ht, Hh, Hb. auto.
Qed.

Lemma filter_sections (files : list Path) :
  forall contents,
    List.length contents = List.length files ->
    toc_of (sections files contents) = []
    /\ headers_of (sections files contents) = map header_line files
    /\ bodies_of (sections files contents) = map body_block contents.
Proof.
  induction files as [|f rest IH]; intros [|c cs] Hlen;
    try discriminate; [auto|].
  injection Hlen as Hlen. destruct (IH cs Hlen) as (Ht & Hh & Hb).
  unfold toc_of, headers_of, bodies_of in *.
  cbn [sections section app filter is_toc_line is_header is_body map].
  rewrite Ht, Hh, Hb. auto.
Qed.

Lemma parts_of_document (files : list Path) (contents : list str) :
  List.length contents = List.length files ->
  toc_of (document files contents) = toc_lines 1 files
  /\ headers_of (document files contents) = map header_line files
  /\ bodies_of (document files contents) = map body_block contents.
Proof.
  intros Hlen. destruct (filter_toc_lines 1 files) as (Ht & Hh & Hb).
  destruct (filter_sections files contents Hlen) as (Ht' & Hh' & Hb').
  unfold toc_of, headers_of, bodies_of, document in *.
  rewrite !filter_app, Ht, Hh, Hb, Ht', Hh', Hb'.
  cbn. rewrite ?app_nil_r. auto.
Qed.

(** ** Canonical order *)

Lemma join_app (sep : str) (a b : list str) :
  a <> [] -> b <> [] ->
  join sep (a ++ b) = join sep a ++ sep ++ join sep b.
Proof.
  intros Ha Hb. induction a as [|x a IH]; [congruence|].
  destruct a as [|y a].
  - cbn [app join]. destruct b; [congruence | reflexivity].
  - change (join sep ((x :: y :: a) ++ b))
      with (x ++ sep ++ join sep ((y :: a) ++ b)).
    rewrite IH by discriminate. cbn [join]. rewrite <- !app_assoc.
    reflexivity.
Qed.

(** The sort key of a file below the root is a fixed prefix followed by the
    lowercase form of its relative path. *)
Lemma sort_key_under_root (p : Path) :
  under_root p -> sort_key p = root_prefix ++ rel_key p.
Proof.
  intros Hp. destruct (relative_to_under_root p Hp) as (rel & Hrel & -> & Hne).
  unfold sort_key, rel_key, relative_str, root_prefix. rewrite Hrel.
  assert (Hstr : path_str (descend REPO_ROOT rel)
               = path_str REPO_ROOT ++ lit "/"
                 ++ path_str {| absolute := false; segs := rel |}).
  { unfold path_str, descend. cbn [absolute segs REPO_ROOT].
    rewrite join_app by (discriminate || assumption).
    destruct rel; [congruence|]. rewrite <- !app_assoc. reflexivity. }
  rewrite Hstr, lower_slash.
  rewrite <- (app_nil_r (path_str REPO_ROOT ++ lit "/")), <- app_assoc.
  rewrite lower_slash, <- !app_assoc. reflexivity.
Qed.

Lemma sorted_precedes {A} (R : A -> A -> Prop) (l : list A) (a b : A) :
  StronglySorted R l -> precedes a b l -> R a b.
Proof.
  intros Hs (l1 & l2 & l3 & ->). induction l1 as [|x l1 IH].
  - cbn [app] in Hs. inversion Hs as [|? ? _ Hall]; subst.
    rewrite Forall_forall in Hall. apply Hall.
    apply in_or_app. right. left. reflexivity.
  - cbn [app] in Hs. inversion Hs; subst. auto.
Qed.

Lemma precedes_or {A} (l : list A) (a b : A) :
  In a l -> In b l -> a <> b -> precedes a b l \/ precedes b a l.
Proof.
  intros Ha Hb Hne. destruct (in_split _ _ Ha) as (l1 & l2 & ->).
  apply in_app_or in Hb. destruct Hb as [Hb|[Hb|Hb]]; [|congruence|].
  - right. destruct (in_split _ _ Hb) as (m1 & m2 & ->).
    exists m1, m2, l2. rewrite <- app_assoc. reflexivity.
  - left. destruct (in_split _ _ Hb) as (m1 & m2 & ->).
    exists l1, m1, m2. reflexivity.
Qed.

(** C2, as stated, fails: [A.py] and [a.py] have the same lowercase form, yet
    one of them comes first. *)
Lemma canonical_order_iff_fails :
  get_all_files REPO_ROOT (tree case_world) = Ok [upper_path; lower_path]
  /\ ~ (precedes upper_path lower_path [upper_path; lower_path]
        <-> str_ltb (rel_key upper_path) (rel_key lower_path) = true).
Proof.
  split; [reflexivity|]. intros [H _].
  assert (P : precedes upper_path lower_path [upper_path; lower_path]).
  { exists [], [], []. reflexivity. }
  apply H in P. vm_compute in P. discriminate.
Qed.

(** C2, amended — the files are sorted by the lowercase form of their path,
    the form that [str.lower()] gives: a path with a smaller lowercase
    relative path comes first, and a path that comes first has a lowercase
    relative path that is smaller or equal; the table of contents and the
    file headers of a built document both follow this one list.  On a path
    of ASCII characters the lowercase form is the path with the capitals
    from A to Z turned into small letters. *)
Theorem canonical_order (w : World) (files : list Path) :
  get_all_files REPO_ROOT (tree w) = Ok files ->
  (forall a b, In a files -> In b files ->
     str_ltb (rel_key a) (rel_key b) = true ->
     precedes a b files /\ ~ precedes b a files)
  /\ (forall a b, precedes a b files ->
        str_leb (rel_key a) (rel_key b) = true)
  /\ (forall story, built_story (main w) = Some story ->
        toc_of story = toc_lines 1 files
        /\ headers_of story = map header_line files)
  /\ (forall a, forallb (fun c => N.ltb c 128) (relative_str a) = true ->
        rel_key a = map ascii_lowercase (relative_str a)).
Proof.
  intros Hfiles.
  pose proof (get_all_files_sorted _ _ _ Hfiles) as Hsorted.
  pose proof (get_all_files_under_root _ _ Hfiles) as Hroot.
  rewrite Forall_forall in Hroot.
  assert (Hle : forall a b, precedes a b files ->
                            str_leb (rel_key a) (rel_key b) = true).
  { intros a b Hp. pose proof (sorted_precedes _ _ _ _ Hsorted Hp) as Hk.
    destruct Hp as (l1 & l2 & l3 & ->).
    unfold key_le, str_leb in *.
    rewrite !sort_key_under_root, str_ltb_app in Hk; [exact Hk| |];
      apply Hroot; rewrite !in_app_iff; cbn; auto.
    right. right. rewrite in_app_iff. cbn. auto. }
  split; [|split; [exact Hle|split]].
  - intros a b Ha Hb Hlt.
    assert (Hnot : ~ precedes b a files).
    { intros Hp. apply Hle in Hp. unfold str_leb in Hp.
      rewrite Hlt in Hp. discriminate. }
    split; [|exact Hnot].
    destruct (precedes_or files a b Ha Hb); [|assumption|contradiction].
    intros ->. rewrite str_ltb_irrefl in Hlt. discriminate.
  - intros story Hstory. rewrite built_story_main, Hfiles in Hstory.
    destruct (read_all w files) as [contents|] eqn:Hall; [|discriminate].
    inversion Hstory; subst story.
    destruct (parts_of_document files contents (read_all_length _ _ _ Hall))
      as (Ht & Hh & _).
    auto.
  - intros a Ha. apply lower_from_ascii, Ha.
Qed.

Lemma canonical_order_witness :
  get_all_files REPO_ROOT (tree accented_world)
  = Ok [a_grave_path; e_acute_path]
  /\ ((forall a b,
         In a [a_grave_path; e_acute_path] ->
         In b [a_grave_path; e_acute_path] ->
         str_ltb (rel_key a) (rel_key b) = true ->
         precedes a b [a_grave_path; e_acute_path]
         /\ ~ precedes b a [a_grave_path; e_acute_path])
      /\ (forall a b,
            precedes a b [a_grave_path; e_acute_path] ->
            str_leb (rel_key a) (rel_key b) = true)
      /\ (forall story, built_story (main accented_world) = Some story ->
            toc_of story = toc_lines 1 [a_grave_path; e_acute_path]
            /\ headers_of story
               = map header_line [a_grave_path; e_acute_path])
      /\ (forall a,
            forallb (fun c => N.ltb c 128) (relative_str a) = true ->
            rel_key a = map ascii_lowercase (relative_str a))).
Proof.
  split; [vm_compute; reflexivity|].
  apply (canonical_order accented_world). vm_compute. reflexivity.
Defined.

(** ** What a built document holds *)

(** A run that reaches [doc.build] has read every selected file, and its
    story is the document over these files and their texts. *)
Lemma built_story_inv (w : World) (story : list flowable) :
  built_story (main w) = Some story ->
  exists files contents,
    get_all_files REPO_ROOT (tree w) = Ok files
    /\ read_all w files = Ok contents
    /\ List.length contents = List.length files
    /\ story = document files contents.
Proof.
  rewrite built_story_main.
  destruct (get_all_files REPO_ROOT (tree w)) as [files|]; [|discriminate].
  destruct (read_all w files) as [contents|] eqn:Hall; [|discriminate].
  intros H; inversion H; subst. exists files, contents.
  split; [reflexivity|]. split; [exact Hall|].
  split; [apply (read_all_length w), Hall | reflexivity].
Qed.

Lemma toc_lines_nth (files : list Path) :
  forall i k f,
    nth_error files k = Some f ->
    nth_error (toc_lines i files) k
    = Some (Paragraph (escape_xml (toc_entry (i + k) f)) TOC).
Proof.
  induction files as [|g rest IH]; intros i [|k] f H; try discriminate.
  - inversion H; subst. cbn. rewrite Nat.add_0_r. reflexivity.
  - cbn [toc_lines nth_error] in *. rewrite (IH (S i) k f H).
    rewrite Nat.add_succ_r. reflexivity.
Qed.

Lemma toc_lines_length (files : list Path) :
  forall i, List.length (toc_lines i files) = List.length files.
Proof.
  induction files as [|g rest IH]; intros i; [reflexivity|].
  cbn [toc_lines List.length]. rewrite IH. reflexivity.
Qed.

Lemma toc_lines_safe (files : list Path) :
  forall i, Forall safe (toc_lines i files).
Proof.
  induction files as [|f rest IH]; intros i; constructor; [|apply IH].
  intros text H. inversion H; subst. apply markup_safe_escape_xml.
Qed.

Lemma body_plain (text : str) :
  plain text = true -> flat_map body_char text = spaces_for_tabs text.
Proof.
  unfold spaces_for_tabs. induction text as [|c r IH]; [reflexivity|].
  unfold plain in *. cbn [forallb flat_map].
  rewrite andb_true_iff, negb_true_iff, !orb_false_iff.
  intros [[[H38 H60] H62] Hr]. rewrite (IH Hr). f_equal.
  unfold body_char, escape_char. rewrite H38, H60, H62. reflexivity.
Qed.

(** C4, as stated, fails: the file [dos.txt] holds [a\r\nb\r] and none of
    [&], [<], [>], yet its body is [a\nb\n], which is not the content with
    its tabs expanded. *)
Lemma escaping_round_trip_fails :
  read_bytes crlf_world dos_txt = Ok [x61; x0d; x0a; x62; x0d]
  /\ file_text [x61; x0d; x0a; x62; x0d] = [97%N; 13%N; 10%N; 98%N; 13%N]
  /\ plain [97%N; 13%N; 10%N; 98%N; 13%N] = true
  /\ (exists story,
        built_story (main crlf_world) = Some story
        /\ bodies_of story = [Preformatted [97%N; 10%N; 98%N; 10%N] Code])
  /\ [97%N; 10%N; 98%N; 10%N]
     <> spaces_for_tabs [97%N; 13%N; 10%N; 98%N; 13%N].
Proof.
  split; [reflexivity|]. split; [reflexivity|]. split; [reflexivity|].
  split; [eexists; split; reflexivity | discriminate].
Qed.

(** C4, amended — the body of a file's section is the content of the file,
    decoded under utf-8 or else latin-1, with the line ends [\r\n] and [\r]
    turned into [\n] by the text-mode read, with [&], [<], [>] replaced by
    their entities and each tab by four spaces, every other character as it
    is; so a content without [&], [<], [>] and without carriage returns
    shows as it is, tabs expanded; a text without [&], [<], [>] passes
    [escape_xml] unchanged; and [escape_xml] can be undone. *)
Theorem escaping_round_trip (w : World) (story : list flowable) :
  built_story (main w) = Some story ->
  exists files datas,
    get_all_files REPO_ROOT (tree w) = Ok files
    /\ Forall2 (fun f data => read_bytes w f = Ok data) files datas
    /\ bodies_of story
       = map (fun data =>
                Preformatted
                  (flat_map body_char (translate_newlines (file_text data)))
                  Code) datas
    /\ (forall text, plain text = true -> ~ In 13%N text ->
          flat_map body_char (translate_newlines text)
          = spaces_for_tabs text)
    /\ (forall text, plain text = true -> escape_xml text = text)
    /\ (forall text, expand_tabs (escape_xml text) = flat_map body_char text)
    /\ (forall text, unescape_xml (escape_xml text) = text).
Proof.
  intros H. destruct (built_story_inv w story H)
    as (files & contents & Hfiles & Hall & Hlen & ->).
  destruct (read_all_data w files contents Hall) as (datas & Hdatas & ->).
  exists files, datas.
  destruct (parts_of_document files _ Hlen) as (_ & _ & Hb).
  split; [exact Hfiles|]. split; [exact Hdatas|].
  split.
  - rewrite Hb, map_map. apply map_ext. intros data. unfold body_block.
    rewrite body_flat. reflexivity.
  - split; [|split; [apply escape_xml_plain|
                     split; [apply body_flat | apply unescape_escape_xml]]].
    intros text Hp Hcr. rewrite (translate_newlines_id text Hcr).
    apply body_plain, Hp.
Qed.

Lemma escaping_round_trip_witness :
  built_story (main crlf_world)
  = Some (document [dos_txt] [[97%N; 10%N; 98%N; 10%N]])
  /\ exists files datas,
       get_all_files REPO_ROOT (tree crlf_world) = Ok files
       /\ Forall2 (fun f data => read_bytes crlf_world f = Ok data)
                  files datas
       /\ bodies_of (document [dos_txt] [[97%N; 10%N; 98%N; 10%N]])
          = map (fun data =>
                   Preformatted
                     (flat_map body_char
                        (translate_newlines (file_text data)))
                     Code) datas
       /\ (forall text, plain text = true -> ~ In 13%N text ->
             flat_map body_char (translate_newlines text)
             = spaces_for_tabs text)
       /\ (forall text, plain text = true -> escape_xml text = text)
       /\ (forall text,
             expand_tabs (escape_xml text) = flat_map body_char text)
       /\ (forall text, unescape_xml (escape_xml text) = text).
Proof.
  split; [reflexivity|].
  apply (escaping_round_trip crlf_world). reflexivity.
Defined.

(** C5 — in a built document the text of every line of the table of
    contents, of every file header and of every body is its source text
    with each [&] written [&amp;], each [<] written [&lt;] and each [>]
    written [&gt;] (in the bodies, also each tab as four spaces), every
    other character as it is; so none of these texts holds a [<], a [>] or
    an [&] that does not open an entity. *)
Theorem document_is_escaped (w : World) (story : list flowable) :
  built_story (main w) = Some story ->
  exists files contents,
    get_all_files REPO_ROOT (tree w) = Ok files
    /\ Forall2 (fun f c => outcome (read_file_safely w f) = Ok c)
               files contents
    /\ (forall k f, nth_error files k = Some f ->
          nth_error (toc_of story) k
          = Some (Paragraph (flat_map escape_char (toc_entry (S k) f)) TOC))
    /\ headers_of story
       = map (fun f => Paragraph (flat_map escape_char (header_text f))
                                 FileHeader)
             files
    /\ bodies_of story
       = map (fun c => Preformatted (flat_map body_char c) Code) contents
    /\ Forall safe (toc_of story ++ headers_of story ++ bodies_of story).
Proof.
  intros H. destruct (built_story_inv w story H)
    as (files & contents & Hfiles & Hall & Hlen & ->).
  exists files, contents.
  destruct (parts_of_document files contents Hlen) as (Ht & Hh & Hb).
  rewrite Ht, Hh, Hb.
  split; [exact Hfiles|]. split; [apply read_all_Forall2, Hall|].
  split; [intros k f Hk; rewrite <- escape_xml_flat;
          apply (toc_lines_nth files 1 k f Hk)|].
  split; [apply map_ext; intros f; unfold header_line;
          rewrite escape_xml_flat; reflexivity|].
  split; [apply map_ext; intros c; unfold body_block;
          rewrite body_flat; reflexivity|].
  rewrite !Forall_app. split; [apply toc_lines_safe|].
  split; apply Forall_forall; intros fl Hin; apply in_map_iff in Hin;
    destruct Hin as (x & <- & _); intros text Ht'; inversion Ht'; subst.
  - apply markup_safe_escape_xml.
  - apply markup_safe_body.
Qed.

Lemma document_is_escaped_witness :
  built_story (main markup_world) = Some markup_story
  /\ exists files contents,
       get_all_files REPO_ROOT (tree markup_world) = Ok files
       /\ Forall2 (fun f c => outcome (read_file_safely markup_world f) = Ok c)
                  files contents
       /\ (forall k f, nth_error files k = Some f ->
             nth_error (toc_of markup_story) k
             = Some (Paragraph (flat_map escape_char (toc_entry (S k) f))
                               TOC))
       /\ headers_of markup_story
          = map (fun f => Paragraph (flat_map escape_char (header_text f))
                                    FileHeader)
                files
       /\ bodies_of markup_story
          = map (fun c => Preformatted (flat_map body_char c) Code) contents
       /\ Forall safe
            (toc_of markup_story ++ headers_of markup_story
             ++ bodies_of markup_story).
Proof.
  split; [reflexivity|].
  apply (document_is_escaped markup_world). reflexivity.
Defined.

Lemma lit_String (c : ascii) (s : string) :
  lit (String c s) = N_of_ascii c :: lit s.
Proof. reflexivity. Qed.

(** [nat_of_digits_from] reads the digits that [string_of_uint] writes. *)
Lemma nat_of_digits_from_uint (d : Decimal.uint) :
  forall acc,
    nat_of_digits_from acc (lit (DecimalString.NilEmpty.string_of_uint d))
    = Some (Nat.of_uint_acc d acc).
Proof.
  induction d; intros acc; cbn [DecimalString.NilEmpty.string_of_uint];
    [reflexivity| ..];
    rewrite lit_String; cbn [nat_of_digits_from Nat.of_uint_acc];
    match goal with
    | |- context [in_range 48 57 ?c] =>
        change (in_range 48 57 c) with true; cbv iota;
        let v := eval vm_compute in (N.to_nat (c - 48)) in
        change (N.to_nat (c - 48)) with v
    end;
    rewrite IHd; do 2 f_equal; rewrite Nat.tail_mul_spec; lia.
Qed.

Lemma to_uint_not_Nil (n : nat) : Nat.to_uint n <> Decimal.Nil.
Proof.
  intros H. pose proof (DecimalNat.Unsigned.to_of (Nat.to_uint n)) as Hn.
  rewrite DecimalNat.Unsigned.of_to in Hn. rewrite H in Hn at 2.
  cbn in Hn. rewrite H in Hn. discriminate.
Qed.

(** [str(n)] reads back as [n]. *)
Lemma nat_of_digits_str_of_nat (n : nat) :
  nat_of_digits (str_of_nat n) = Some n.
Proof.
  unfold str_of_nat, DecimalString.NilZero.string_of_uint.
  pose proof (to_uint_not_Nil n) as Hnil.
  pose proof (nat_of_digits_from_uint (Nat.to_uint n) 0) as H.
  destruct (Nat.to_uint n) as [|d|d|d|d|d|d|d|d|d|d] eqn:Hd; [congruence|..];
    cbn [DecimalString.NilEmpty.string_of_uint] in *;
    rewrite lit_String in *; unfold nat_of_digits; rewrite H;
    change (Nat.of_uint_acc ?u 0) with (Nat.of_uint u);
    rewrite <- Hd, DecimalNat.Unsigned.of_to; reflexivity.
Qed.

(** [str(n)] of a positive number does not begin with the digit 0. *)
Lemma str_of_nat_leading_digit (n : nat) :
  (0 < n)%nat -> hd 48%N (str_of_nat n) <> 48%N.
Proof.
  intros Hpos. unfold str_of_nat, DecimalString.NilZero.string_of_uint.
  pose proof (DecimalNat.Unsigned.to_of (Nat.to_uint n)) as Hn.
  rewrite DecimalNat.Unsigned.of_to in Hn.
  pose proof (DecimalNat.Unsigned.of_to n) as Hof.
  destruct (Nat.to_uint n) as [|d|d|d|d|d|d|d|d|d|d] eqn:Hd;
    try (cbn [DecimalString.NilEmpty.string_of_uint]; rewrite lit_String;
         cbn; discriminate).
  exfalso. unfold Decimal.unorm in Hn. cbn [Decimal.nzhead] in Hn.
  destruct (Decimal.nzhead d) as [|u|u|u|u|u|u|u|u|u|u] eqn:Hz;
    try discriminate.
  - inversion Hn; subst d. cbn in Hof. lia.
  - apply (DecimalFacts.nzhead_nonzero d u). exact Hz.
Qed.

Lemma slash_separated_join (rel : list str) :
  join (lit "/") rel = slash_separated rel.
Proof.
  induction rel as [|x r IH]; [reflexivity|].
  destruct r as [|y r]; [reflexivity|].
  change (join (lit "/") (x :: y :: r))
    with (x ++ lit "/" ++ join (lit "/") (y :: r)).
  rewrite IH. reflexivity.
Qed.

(** C8 — the table of contents of a built document has one line per selected
    file, in the sorted order of the files, and no file twice when no
    directory holds a name twice; line [k], counted from 1, is the markup of
    the decimal numeral of [k], without leading zero, followed by a dot, a
    space and the segments of the path below the root, separated by
    slashes. *)
Theorem toc_lists_every_file (w : World) (story : list flowable) :
  built_story (main w) = Some story ->
  exists files,
    get_all_files REPO_ROOT (tree w) = Ok files
    /\ StronglySorted (key_le sort_key) files
    /\ (distinct_names (tree w) -> NoDup files)
    /\ List.length (toc_of story) = List.length files
    /\ (forall k f, nth_error files k = Some f ->
          exists digits rel entry_text,
            nat_of_digits digits = Some (S k)
            /\ hd 48%N digits <> 48%N
            /\ rel <> [] /\ f = descend REPO_ROOT rel
            /\ entry_text = digits ++ [46%N; 32%N] ++ slash_separated rel
            /\ nth_error (toc_of story) k
               = Some (Paragraph (flat_map escape_char entry_text) TOC)
            /\ unescape_xml (flat_map escape_char entry_text) = entry_text).
Proof.
  intros H. destruct (built_story_inv w story H)
    as (files & contents & Hfiles & Hall & Hlen & ->).
  exists files.
  destruct (parts_of_document files contents Hlen) as (Ht & _ & _).
  rewrite Ht. split; [exact Hfiles|].
  split; [apply (get_all_files_sorted _ _ _ Hfiles)|].
  split; [intros Hd; apply (get_all_files_NoDup _ _ _ Hd Hfiles)|].
  split; [apply toc_lines_length|].
  intros k f Hk.
  pose proof (get_all_files_under_root _ _ Hfiles) as Hroot.
  rewrite Forall_forall in Hroot.
  destruct (relative_to_under_root f (Hroot f (nth_error_In _ _ Hk)))
    as (rel & Hrel & Hf & Hne).
  exists (str_of_nat (S k)), rel.
  exists (str_of_nat (S k) ++ [46%N; 32%N] ++ slash_separated rel).
  split; [apply nat_of_digits_str_of_nat|].
  split; [apply str_of_nat_leading_digit; lia|].
  split; [exact Hne|]. split; [exact Hf|]. split; [reflexivity|].
  rewrite <- escape_xml_flat. split; [|apply unescape_escape_xml].
  rewrite (toc_lines_nth files 1 k f Hk).
  unfold toc_entry, relative_str. rewrite Hrel.
  unfold path_str. cbn [absolute segs]. rewrite slash_separated_join.
  destruct rel; [congruence | reflexivity].
Qed.

Lemma toc_lists_every_file_witness :
  built_story (main accented_world)
  = Some (document [a_grave_path; e_acute_path] [[]; []])
  /\ toc_of (document [a_grave_path; e_acute_path] [[]; []])
     = [ Paragraph (lit "1. " ++ a_grave_name) TOC;
         Paragraph (lit "2. " ++ e_acute_name) TOC ]
  /\ exists files,
       get_all_files REPO_ROOT (tree accented_world) = Ok files
       /\ StronglySorted (key_le sort_key) files
       /\ (distinct_names (tree accented_world) -> NoDup files)
       /\ List.length
            (toc_of (document [a_grave_path; e_acute_path] [[]; []]))
          = List.length files
       /\ (forall k f, nth_error files k = Some f ->
             exists digits rel entry_text,
               nat_of_digits digits = Some (S k)
               /\ hd 48%N digits <> 48%N
               /\ rel <> [] /\ f = descend REPO_ROOT rel
               /\ entry_text = digits ++ [46%N; 32%N] ++ slash_separated rel
               /\ nth_error
                    (toc_of (document [a_grave_path; e_acute_path] [[]; []]))
                    k
                  = Some (Paragraph (flat_map escape_char entry_text) TOC)
               /\ unescape_xml (flat_map escape_char entry_text)
                  = entry_text).
Proof.
  split; [vm_compute; reflexivity|]. split; [vm_compute; reflexivity|].
  apply (toc_lists_every_file accented_world). vm_compute. reflexivity.
Defined.

(** The scenario of the specification: [a.py] and [b.md] are listed as
    "1. a.py" and "2. b.md", and the section of [a.py] shows [x&lt;y]. *)
Example sample_document :
  built_story (main sample_world)
  = Some
      [ Spacer 1 (2 * inch);
        Paragraph (lit "CodeUpgradeEngine") CustomTitle;
        Paragraph (lit "Complete Repository Source Code") CustomSubtitle;
        Paragraph (lit "Total Files: 2") CustomSubtitle;
        PageBreak;
        Paragraph (lit "Table of Contents") Heading1;
        Spacer 1 ((2 # 10) * inch);
        Paragraph (lit "1. a.py") TOC;
        Paragraph (lit "2. b.md") TOC;
        PageBreak;
        Paragraph (lit "File: a.py") FileHeader;
        Preformatted (lit "x&lt;y") Code;
        PageBreak;
        Paragraph (lit "File: b.md") FileHeader;
        Preformatted (lit "hello") Code;
        PageBreak ].
Proof. reflexivity. Qed.

(** C9 — when no file is selected the run prints that 0 files were found and
    hands to [doc.build] the title page with file count 0 and a table of
    contents without entries; it ends normally unless [doc.build] raises. *)
Theorem empty_root_run (w : World) :
  get_all_files REPO_ROOT (tree w) = Ok [] ->
  main w =
  ([ EvPrint (lit "Collecting files from repository...");
     EvPrint (lit "Found 0 files to include");
     EvPrint (lit "Building PDF...");
     EvBuild output_path empty_story ]
   ++ match build_error w with
      | Some _ => []
      | None => [created]
      end,
   match build_error w with
   | Some e => Err e
   | None => Ok tt
   end)
  /\ toc_of empty_story = []
  /\ bodies_of empty_story = [].
Proof.
  intros Hfiles.
  rewrite (main_all_read w [] [] Hfiles eq_refl).
  repeat split.
Qed.

Lemma empty_root_run_witness :
  get_all_files REPO_ROOT (tree empty_world) = Ok []
  /\ main empty_world =
     ([ EvPrint (lit "Collecting files from repository...");
        EvPrint (lit "Found 0 files to include");
        EvPrint (lit "Building PDF...");
        EvBuild output_path empty_story;
        created ],
      Ok tt)
  /\ toc_of empty_story = []
  /\ bodies_of empty_story = [].
Proof.
  split; [reflexivity|].
  apply (empty_root_run empty_world); reflexivity.
Defined.

(** ** Errors of the scan *)





(** ** Directories closed to the user *)










(** ** Errors *)

Lemma readable_outcome (w : World) (f : Path) :
  readable w f <-> exists c, outcome (read_file_safely w f) = Ok c.
Proof.
  split.
  - intros (data & Hd). rewrite (read_file_safely_run w f data Hd).
    destruct (attempts [UTF8; Latin1; CP1252] data) as [tried [s|]];
      eexists; reflexivity.
  - intros (c & Hc). destruct (read_bytes w f) as [data|e] eqn:Hd.
    + exists data. exact Hd.
    + rewrite (read_file_safely_OSError w f e Hd) in Hc. discriminate.
Qed.

Lemma readable_read_all (w : World) (files : list Path) :
  Forall (readable w) files <-> exists contents, read_all w files = Ok contents.
Proof.
  induction files as [|f rest IH]; cbn [read_all].
  - split; [exists []; reflexivity | constructor].
  - split.
    + intros H. inversion H as [|? ? Hf Hrest]; subst.
      apply readable_outcome in Hf. destruct Hf as (c & ->).
      apply IH in Hrest. destruct Hrest as (cs & ->).
      exists (c :: cs). reflexivity.
    + intros (contents & H).
      destruct (outcome (read_file_safely w f)) as [c|] eqn:Hf;
        [|discriminate].
      destruct (read_all w rest) as [cs|]; [|discriminate].
      constructor.
      * apply readable_outcome. exists c. exact Hf.
      * apply IH. exists cs. reflexivity.
Qed.

(** A read of [g] opens nothing but [g]. *)
Lemma read_file_safely_opens (w : World) (g : Path) (ev : event) :
  In ev (trace (read_file_safely w g)) -> exists m, ev = EvOpen g m.
Proof.
  destruct (read_bytes w g) as [data|e] eqn:Hd.
  - rewrite (read_file_safely_run w g data Hd).
    destruct (attempts [UTF8; Latin1; CP1252] data) as [tried [s|]];
      unfold trace; cbn [fst]; rewrite ?in_app_iff, in_map_iff.
    + intros (enc & <- & _). eexists; reflexivity.
    + intros [(enc & <- & _) | [<- | []]]; eexists; reflexivity.
  - rewrite (read_file_safely_OSError w g e Hd). intros [<- | []].
    eexists; reflexivity.
Qed.

Lemma content_events_opens (w : World) (total : nat) (files : list Path)
    (f : Path) (m : mode) :
  forall i, In (EvOpen f m) (content_events w total i files) -> In f files.
Proof.
  induction files as [|g rest IH]; intros i; cbn [content_events]; [tauto|].
  intros [H | H]; [discriminate|].
  apply in_app_or in H. destruct H as [H | H].
  - apply read_file_safely_opens in H. destruct H as (m' & H).
    inversion H; subst. left; reflexivity.
  - right. apply (IH (S i)), H.
Qed.










(** ** Two runs *)

Lemma is_file_kind n : is_file (kind n) = is_file n.
Proof. destruct n; reflexivity. Qed.



Lemma relisted_sym root t1 t2 : relisted root t1 t2 -> relisted root t2 t1.
Proof.
  intros [Hk H]. split; [symmetry; exact Hk|].
  intros p k. symmetry. apply H.
Qed.

Lemma relisted_refl root t : relisted root t t.
Proof. split; [reflexivity | intros p k; reflexivity]. Qed.

(** Two directories that hold the same names, with relisted trees below
    each name, are relisted. *)
Lemma relisted_Dir root (e1 e2 : list (str * node)) :
  (forall nm c1, In (nm, c1) e1 ->
     exists c2, In (nm, c2) e2 /\ relisted (child root nm) c1 c2) ->
  (forall nm c2, In (nm, c2) e2 ->
     exists c1, In (nm, c1) e1 /\ relisted (child root nm) c1 c2) ->
  relisted root (Dir e1) (Dir e2).
Proof.
  assert (Half : forall a b,
    (forall nm c1, In (nm, c1) a ->
       exists c2, In (nm, c2) b /\ relisted (child root nm) c1 c2) ->
    forall p k, (exists n, occurs root (Dir a) p n /\ kind n = k) ->
                exists n, occurs root (Dir b) p n /\ kind n = k).
  { intros a b H p k (n & O & Hk). inversion O; subst.
    - destruct (H _ _ ltac:(eassumption)) as (c2 & Hin & [Hkind _]).
      exists c2. split; [apply occurs_entry, Hin | symmetry; exact Hkind].
    - destruct (H _ _ ltac:(eassumption)) as (c2 & Hin & [_ Hbelow]).
      destruct (proj1 (Hbelow p (kind n))) as (n' & O' & Hk').
      { exists n. split; [assumption | reflexivity]. }
      exists n'. split; [eapply occurs_deeper; eassumption | exact Hk']. }
  intros H12 H21. split; [reflexivity|]. intros p k. split.
  - apply Half, H12.
  - apply Half. intros nm c2 Hin.
    destruct (H21 nm c2 Hin) as (c1 & Hin1 & Hrel).
    exists c1. split; [exact Hin1 | apply relisted_sym, Hrel].
Qed.




(** What is selected at a path depends on the kind of thing at the path. *)
Lemma get_all_files_In_transfer root t1 t2 files1 files2 p :
  get_all_files root t1 = Ok files1 -> get_all_files root t2 = Ok files2 ->
  (forall k, (exists n, occurs root t1 p n /\ kind n = k) ->
             (exists n, occurs root t2 p n /\ kind n = k)) ->
  In p files1 -> In p files2.
Proof.
  intros H1 H2 Hp Hin.
  apply (get_all_files_In _ _ _ H1) in Hin.
  destruct Hin as [(n & O & Hf) Hs].
  apply (get_all_files_In _ _ _ H2). split; [|exact Hs].
  destruct (Hp (kind n)) as (n2 & O2 & Hk2).
  { exists n. split; [exact O | reflexivity]. }
  exists n2. split; [exact O2|].
  rewrite <- is_file_kind, Hk2, is_file_kind. exact Hf.
Qed.

(** Trees that hold the same things at the same paths are selected alike
    when no two selected paths share a sort key. *)
Lemma get_all_files_same_below (root : Path) (t1 t2 : node)
    (files1 files2 : list Path) :
  get_all_files root t1 = Ok files1 ->
  get_all_files root t2 = Ok files2 ->
  same_below root t1 t2 ->
  NoDup (map sort_key files1) -> NoDup (map sort_key files2) ->
  files1 = files2.
Proof.
  intros H1 H2 Hsame Hk1 Hk2.
  apply (sorted_distinct_unique sort_key); try assumption.
  - apply (get_all_files_sorted _ _ _ H1).
  - apply (get_all_files_sorted _ _ _ H2).
  - apply NoDup_Permutation.
    + apply (NoDup_map_inv sort_key), Hk1.
    + apply (NoDup_map_inv sort_key), Hk2.
    + intros p. split.
      * apply (get_all_files_In_transfer _ _ _ _ _ p H1 H2).
        intros k. apply (Hsame p k).
      * apply (get_all_files_In_transfer _ _ _ _ _ p H2 H1).
        intros k. apply (Hsame p k).
Qed.

Lemma project_relisted :
  relisted REPO_ROOT project_tree relisted_project_tree.
Proof.
  apply relisted_Dir; intros nm c Hin; cbn in Hin;
    repeat (destruct Hin as [Hin|Hin]; [inversion Hin; subst|]);
    try destruct Hin.
  - eexists; split; [right; right; left; reflexivity|apply relisted_refl].
  - eexists; split; [right; left; reflexivity|].
    apply relisted_Dir; intros nm c Hin; exists c;
      (split; [cbn in *; tauto | apply relisted_refl]).
  - eexists; split; [left; reflexivity|apply relisted_refl].
  - eexists; split; [right; right; left; reflexivity|apply relisted_refl].
  - eexists; split; [right; left; reflexivity|].
    apply relisted_Dir; intros nm c Hin; exists c;
      (split; [cbn in *; tauto | apply relisted_refl]).
  - eexists; split; [left; reflexivity|apply relisted_refl].
Qed.













(** * Further properties *)

(** ** Traversal and selection *)



Lemma suffix_of_name (p q : Path) : name p = name q -> suffix p = suffix q.
Proof. intros H. unfold suffix. rewrite H. reflexivity. Qed.

(** A path that [should_include_file] accepts never has the suffix [.pdf]:
    no allow-listed name ends in it, and it is no allow-listed extension. *)
Lemma should_include_file_not_pdf (p : Path) :
  should_include_file p = true -> str_eqb (suffix p) (lit ".pdf") = false.
Proof.
  unfold should_include_file.
  destruct (existsb _ (parts p)); [discriminate|].
  destruct (mem (name p) INCLUDE_FILES) eqn:Hn.
  - intros _. unfold mem, INCLUDE_FILES in Hn. cbn [map existsb] in Hn.
    rewrite !orb_true_iff, !str_eqb_eq in Hn.
    unfold suffix.
    repeat (destruct Hn as [Hn | Hn]; [rewrite Hn; reflexivity|]).
    discriminate.
  - intros He. destruct (str_eqb (suffix p) (lit ".pdf")) eqn:Hs;
      [|reflexivity].
    apply str_eqb_eq in Hs. rewrite Hs in He. discriminate.
Qed.

(** X2 — the test [filepath.suffix == '.pdf'] in [get_all_files] never
    decides anything: a file is appended exactly when it is a file that
    [should_include_file] accepts and is named neither [repo_to_pdf.py] nor
    [package-lock.json]. *)
Theorem pdf_test_is_redundant (filepath : Path) (n : node) :
  appended filepath n
  = (is_file n && should_include_file filepath
     && negb (str_eqb (name filepath) (lit "repo_to_pdf.py"))
     && negb (str_eqb (name filepath) (lit "package-lock.json")))%bool.
Proof.
  unfold appended. destruct (is_file n); [|reflexivity]. cbn [andb].
  destruct (should_include_file filepath) eqn:Hs; [|reflexivity].
  rewrite (should_include_file_not_pdf filepath Hs), orb_false_r.
  destruct (str_eqb (name filepath) (lit "repo_to_pdf.py")); [reflexivity|].
  destruct (str_eqb (name filepath) (lit "package-lock.json")); reflexivity.
Qed.

Lemma parts_descend (root : Path) (rel : list str) :
  parts (descend root rel) = parts root ++ rel.
Proof. unfold parts, descend. cbn. destruct (absolute root); reflexivity. Qed.

(** X20 — the exclusion looks at every segment of the full path, the
    segments of the root included: under a root that has an excluded
    directory name among its own segments nothing is ever selected. *)
Theorem excluded_root_selects_nothing (root : Path) (t : node)
    (files : list Path) :
  existsb (fun part => mem part EXCLUDE_DIRS) (parts root) = true ->
  get_all_files root t = Ok files ->
  files = [].
Proof.
  intros Hroot Hfiles. destruct files as [|p rest]; [reflexivity|]. exfalso.
  destruct (proj1 (get_all_files_In _ _ _ Hfiles p) (or_introl eq_refl))
    as [(n & O & _) Hs].
  destruct (occurs_under _ _ _ _ O) as (rel & _ & ->).
  unfold selector_spec in Hs. rewrite parts_descend in Hs.
  rewrite !andb_true_iff in Hs. destruct Hs as [[[[Hs _] _] _] _].
  rewrite forallb_app, andb_true_iff in Hs. destruct Hs as [Hs _].
  apply existsb_exists in Hroot. destruct Hroot as (part & Hin & Hm).
  rewrite forallb_forall in Hs. specialize (Hs part Hin).
  rewrite Hm in Hs. discriminate.
Qed.

Lemma excluded_root_selects_nothing_witness :
  existsb (fun part => mem part EXCLUDE_DIRS) (parts build_root) = true
  /\ get_all_files build_root sample_tree = Ok []
  /\ @nil Path = [].
Proof.
  split; [reflexivity|]. split; [reflexivity|].
  apply (excluded_root_selects_nothing build_root sample_tree []);
    reflexivity.
Defined.

(** ** Escaping *)

(** X3 — the three replacements of [escape_xml], though made one after the
    other, never touch what an earlier one wrote: the result is the
    concatenation of the images of the single characters, and so escaping
    distributes over concatenation. *)
Theorem escape_xml_charwise (a b : str) :
  escape_xml a = flat_map escape_char a
  /\ escape_xml (a ++ b) = escape_xml a ++ escape_xml b.
Proof. split; [apply escape_xml_flat | apply escape_xml_app]. Qed.

Lemma count_char_cons (c x : codepoint) (s : str) :
  count_char c (x :: s)
  = ((if N.eqb c x then 1 else 0) + count_char c s)%nat.
Proof. unfold count_char. cbn [filter]. destruct (N.eqb c x); reflexivity. Qed.

Lemma escape_xml_length (s : str) :
  List.length (escape_xml s)
  = (List.length s + 4 * count_char 38%N s + 3 * count_char 60%N s
     + 3 * count_char 62%N s)%nat.
Proof.
  induction s as [|c s IH]; [reflexivity|].
  rewrite escape_xml_cons, length_app, IH, !count_char_cons.
  unfold escape_char. rewrite (N.eqb_sym 38 c), (N.eqb_sym 60 c),
    (N.eqb_sym 62 c).
  destruct (N.eqb_spec c 38) as [->|H38]; [cbn; lia|].
  destruct (N.eqb_spec c 60) as [->|H60]; [cbn; lia|].
  destruct (N.eqb_spec c 62) as [->|H62]; cbn; lia.
Qed.

Lemma count_char_le (c : codepoint) (s : str) :
  (count_char c s <= List.length s)%nat.
Proof. apply filter_length_le. Qed.

Lemma counts_le (s : str) :
  (count_char 38%N s + count_char 60%N s + count_char 62%N s <= List.length s)%nat.
Proof.
  induction s as [|c s IH]; [cbn; lia|].
  rewrite !count_char_cons. cbn [List.length].
  destruct (N.eqb_spec 38 c) as [<-|]; [cbn; lia|].
  destruct (N.eqb_spec 60 c) as [<-|]; [cbn; lia|].
  destruct (N.eqb 62 c); lia.
Qed.

Lemma plain_counts (s : str) :
  plain s = true <->
  count_char 38%N s = 0%nat /\ count_char 60%N s = 0%nat
  /\ count_char 62%N s = 0%nat.
Proof.
  induction s as [|c s IH]; [cbn; tauto|].
  unfold plain in *. cbn [forallb]. rewrite !count_char_cons.
  rewrite andb_true_iff, IH, negb_true_iff, !orb_false_iff.
  rewrite (N.eqb_sym 38 c), (N.eqb_sym 60 c), (N.eqb_sym 62 c).
  destruct (N.eqb c 38), (N.eqb c 60), (N.eqb c 62); cbn; split;
    intros H; repeat split; try tauto; try lia;
    destruct H as [[[? ?] ?] ?] || destruct H as (? & ? & ?);
    try discriminate; try lia.
Qed.

(** X5 — escaping adds four characters for every [&] and three for every
    [<] and [>]; the escaped text is never shorter than the text and at most
    five times as long. *)
Theorem escape_xml_growth (s : str) :
  List.length (escape_xml s)
  = (List.length s + 4 * count_char 38%N s + 3 * count_char 60%N s
     + 3 * count_char 62%N s)%nat
  /\ (List.length s <= List.length (escape_xml s) <= 5 * List.length s)%nat.
Proof.
  pose proof (escape_xml_length s) as H. pose proof (counts_le s) as Hc.
  split; [exact H | lia].
Qed.

(** X4 — [escape_xml] leaves a text as it is exactly when the text holds no
    [&], [<] or [>]; on every other text a second escaping changes the
    result again (the [&] of an entity becomes [&amp;]). *)
Theorem escape_xml_fixed_points (s : str) :
  (escape_xml s = s <-> plain s = true)
  /\ (escape_xml (escape_xml s) = escape_xml s <-> plain s = true).
Proof.
  assert (H1 : escape_xml s = s <-> plain s = true).
  { split; [|apply escape_xml_plain].
    intros H. apply plain_counts.
    pose proof (escape_xml_length s) as Hl. rewrite H in Hl. lia. }
  split; [exact H1|]. rewrite <- H1. split.
  - apply escape_xml_injective.
  - intros H. rewrite H. exact H.
Qed.

Lemma expand_tabs_flat (s : str) :
  expand_tabs s = flat_map (fun c => if N.eqb c 9 then lit "    " else [c]) s.
Proof. reflexivity. Qed.

(** X7 — expanding the tabs and escaping commute, so the order of the two
    steps in [main] does not matter, and no body keeps a tab. *)
Theorem tabs_and_escaping_commute (content : str) :
  expand_tabs (escape_xml content) = escape_xml (expand_tabs content)
  /\ ~ In 9%N (expand_tabs (escape_xml content)).
Proof.
  split.
  - rewrite body_flat. unfold expand_tabs.
    induction content as [|c s IH]; [reflexivity|].
    rewrite replace_char_cons, escape_xml_app, <- IH. cbn [flat_map].
    f_equal. unfold body_char.
    destruct (N.eqb_spec c 9) as [->|H9]; [reflexivity|].
    rewrite escape_xml_cons. cbn. rewrite app_nil_r. reflexivity.
  - rewrite body_flat. induction content as [|c s IH]; [intros []|].
    cbn [flat_map]. rewrite in_app_iff. intros [H|H]; [|exact (IH H)].
    unfold body_char, escape_char in H.
    destruct (N.eqb_spec c 9) as [->|H9];
      [cbn in H; repeat (destruct H as [H|H]; [discriminate|]); exact H|].
    destruct (N.eqb c 38);
      [cbn in H; repeat (destruct H as [H|H]; [discriminate|]); exact H|].
    destruct (N.eqb c 60);
      [cbn in H; repeat (destruct H as [H|H]; [discriminate|]); exact H|].
    destruct (N.eqb c 62);
      [cbn in H; repeat (destruct H as [H|H]; [discriminate|]); exact H|].
    destruct H as [H|[]]. congruence.
Qed.

Lemma digits_plain (d : Decimal.uint) :
  plain (lit (DecimalString.NilEmpty.string_of_uint d)) = true.
Proof. induction d; cbn; auto. Qed.

Lemma str_of_nat_plain (n : nat) : plain (str_of_nat n) = true.
Proof.
  unfold str_of_nat, DecimalString.NilZero.string_of_uint.
  destruct (Nat.to_uint n) eqn:E; try (rewrite <- E; apply digits_plain).
  reflexivity.
Qed.

(** X6 — escaping reaches only the path of a line: in a built document line
    [k] of the table of contents is the number and [". "] as they are,
    followed by the escaped relative path, and a file header is ["File: "]
    followed by the escaped relative path. *)
Theorem only_the_path_is_escaped (w : World) (story : list flowable) :
  built_story (main w) = Some story ->
  exists files,
    get_all_files REPO_ROOT (tree w) = Ok files
    /\ forall k f, nth_error files k = Some f ->
         nth_error (toc_of story) k
         = Some (Paragraph (str_of_nat (S k) ++ lit ". "
                            ++ escape_xml (relative_str f)) TOC)
         /\ nth_error (headers_of story) k
            = Some (Paragraph (lit "File: " ++ escape_xml (relative_str f))
                              FileHeader).
Proof.
  intros H. destruct (built_story_inv w story H)
    as (files & contents & Hfiles & Hall & Hlen & ->).
  exists files. split; [exact Hfiles|]. intros k f Hk.
  destruct (parts_of_document files contents Hlen) as (Ht & Hh & _).
  rewrite Ht, Hh. split.
  - rewrite (toc_lines_nth files 1 k f Hk). unfold toc_entry.
    rewrite !escape_xml_app, (escape_xml_plain _ (str_of_nat_plain _)).
    reflexivity.
  - rewrite nth_error_map, Hk. cbn [option_map].
    unfold header_line, header_text. rewrite escape_xml_app. reflexivity.
Qed.

Lemma only_the_path_is_escaped_witness :
  built_story (main sample_world)
  = Some (document [a_py; b_md] [lit "x<y"; lit "hello"])
  /\ exists files,
       get_all_files REPO_ROOT (tree sample_world) = Ok files
       /\ forall k f, nth_error files k = Some f ->
            nth_error (toc_of (document [a_py; b_md] [lit "x<y"; lit "hello"]))
                      k
            = Some (Paragraph (str_of_nat (S k) ++ lit ". "
                               ++ escape_xml (relative_str f)) TOC)
            /\ nth_error
                 (headers_of (document [a_py; b_md] [lit "x<y"; lit "hello"]))
                 k
               = Some (Paragraph (lit "File: " ++ escape_xml (relative_str f))
                                 FileHeader).
Proof.
  split; [reflexivity|].
  apply (only_the_path_is_escaped sample_world). reflexivity.
Defined.

(** ** Reader *)

(** X16 — [read_file_safely] opens the file first under utf-8 and at most
    once more, and it never gets to cp1252, the third encoding of its
    list. *)
Theorem cp1252_is_never_tried (w : World) (f : Path) :
  (exists rest, trace (read_file_safely w f) = open_text f UTF8 :: rest)
  /\ (List.length (trace (read_file_safely w f)) <= 2)%nat
  /\ ~ In (open_text f CP1252) (trace (read_file_safely w f)).
Proof.
  destruct (read_file_safely_cases w f)
    as [(data & s & _ & _ & ->) | [(data & _ & _ & ->) | (n & _ & ->)]];
    unfold trace; cbn [fst List.length]; (split; [eexists; reflexivity|]);
    (split; [lia|]); cbn; intros H;
    repeat (destruct H as [H|H]; [discriminate|]); exact H.
Qed.

Lemma translate_newlines_no_cr (n : nat) :
  forall s, (List.length s <= n)%nat -> ~ In 13%N (translate_newlines s).
Proof.
  induction n as [|n IH]; intros [|c r] Hlen; cbn [List.length] in Hlen;
    try (intros []); try lia.
  cbn [translate_newlines]. destruct (N.eqb_spec c 13) as [->|Hc].
  - intros [H|H]; [discriminate|]. destruct r as [|d r']; [exact H|].
    cbn [List.length] in Hlen.
    destruct (N.eqb d 10); (eapply IH; [|exact H]); cbn [List.length]; lia.
  - intros [H|H]; [congruence|]. apply (IH r); [lia | exact H].
Qed.

(** X17 — a text that [read_file_safely] returns holds no carriage return:
    the text-mode read turns every line ending into a line feed. *)
Theorem read_text_has_no_carriage_return (w : World) (f : Path) (text : str) :
  outcome (read_file_safely w f) = Ok text -> ~ In 13%N text.
Proof.
  destruct (read_file_safely_cases w f)
    as [(data & s & _ & _ & ->) | [(data & _ & _ & ->) | (n & _ & ->)]];
    unfold outcome; cbn [snd]; intros H; inversion H; subst;
    eapply translate_newlines_no_cr; reflexivity.
Qed.

Lemma read_text_has_no_carriage_return_witness :
  outcome (read_file_safely crlf_world (child REPO_ROOT (lit "dos.txt")))
  = Ok [97%N; 10%N; 98%N; 10%N]
  /\ ~ In 13%N [97%N; 10%N; 98%N; 10%N].
Proof.
  split; [reflexivity|].
  apply (read_text_has_no_carriage_return crlf_world
           (child REPO_ROOT (lit "dos.txt"))).
  reflexivity.
Defined.

(** ** Runs of [main] *)

Lemma trace_main_opens (w : World) (p : Path) (m : mode) :
  In (EvOpen p m) (trace (main w)) ->
  exists files, get_all_files REPO_ROOT (tree w) = Ok files /\ In p files.
Proof.
  destruct (get_all_files REPO_ROOT (tree w)) as [files|e] eqn:Hfiles.
  - intros H. exists files. split; [reflexivity|].
    destruct (read_all w files) as [contents|e] eqn:Hall.
    + rewrite (main_all_read w files contents Hfiles Hall) in H.
      unfold trace in H. cbn [fst] in H.
      destruct H as [H|[H|H]]; try discriminate.
      apply in_app_or in H. destruct H as [H|[H|[H|H]]]; try discriminate.
      * apply (content_events_opens _ _ _ _ _ _ H).
      * destruct (build_error w); [destruct H|].
        destruct H as [H|[]]. discriminate.
    + destruct (read_all_Err w files e Hall)
        as (pre & f & post & cs & -> & Hpre & Hf).
      rewrite (main_read_error w pre f post cs e Hfiles Hpre Hf) in H.
      unfold trace at 1 in H. cbn [fst] in H.
      destruct H as [H|[H|H]]; try discriminate.
      apply in_app_or in H. destruct H as [H|[H|H]]; try discriminate.
      * apply in_or_app. left.
        apply (content_events_opens _ _ _ _ _ _ H).
      * apply read_file_safely_opens in H. destruct H as (m' & H).
        inversion H; subst. apply in_or_app. right. left. reflexivity.
  - rewrite (main_scan_error w e Hfiles). intros [H|[]]. discriminate.
Qed.

(** X8 — [main] opens no file that [get_all_files] did not select: nothing
    below an excluded directory and no file outside the allow-lists is ever
    read. *)
Theorem only_selected_files_are_opened (w : World) (p : Path) (m : mode) :
  In (EvOpen p m) (trace (main w)) ->
  exists files,
    get_all_files REPO_ROOT (tree w) = Ok files
    /\ In p files
    /\ selector_spec p = true.
Proof.
  intros H. destruct (trace_main_opens w p m H) as (files & Hfiles & Hin).
  exists files. split; [exact Hfiles|]. split; [exact Hin|].
  apply (get_all_files_In _ _ _ Hfiles p), Hin.
Qed.

Lemma only_selected_files_are_opened_witness :
  In (EvOpen a_py (Text UTF8)) (trace (main sample_world))
  /\ exists files,
       get_all_files REPO_ROOT (tree sample_world) = Ok files
       /\ In a_py files
       /\ selector_spec a_py = true.
Proof.
  assert (H : In (EvOpen a_py (Text UTF8)) (trace (main sample_world))).
  { cbn. right. right. right. left. reflexivity. }
  split; [exact H|].
  apply (only_selected_files_are_opened sample_world a_py (Text UTF8) H).
Defined.

Lemma utf8_opens_app (a b : list event) :
  utf8_opens (a ++ b) = utf8_opens a ++ utf8_opens b.
Proof. apply flat_map_app. Qed.

Lemma utf8_opens_read (w : World) (f : Path) :
  utf8_opens (trace (read_file_safely w f)) = [f].
Proof.
  destruct (read_file_safely_cases w f)
    as [(data & s & _ & _ & ->) | [(data & _ & _ & ->) | (n & _ & ->)]];
    reflexivity.
Qed.

Lemma utf8_opens_content_events (w : World) (total : nat)
    (files : list Path) :
  forall i, utf8_opens (content_events w total i files) = files.
Proof.
  induction files as [|f rest IH]; intros i; [reflexivity|].
  cbn [content_events].
  change (utf8_opens (processing total i f :: ?l)) with (utf8_opens l).
  rewrite utf8_opens_app, utf8_opens_read, IH. reflexivity.
Qed.

(** X9 — the files are opened in the order of the sorted list, each one
    once under utf-8: all of them when all can be read, and when one cannot,
    the files before it and that file, none of those after it. *)
Theorem files_are_opened_in_order (w : World) (files : list Path) :
  get_all_files REPO_ROOT (tree w) = Ok files ->
  (Forall (readable w) files -> utf8_opens (trace (main w)) = files)
  /\ (forall pre f post e,
        files = pre ++ f :: post ->
        Forall (readable w) pre ->
        read_bytes w f = Err e ->
        utf8_opens (trace (main w)) = pre ++ [f]).
Proof.
  intros Hfiles. split.
  - intros Hall. apply readable_read_all in Hall.
    destruct Hall as (contents & Hall).
    rewrite (main_all_read w files contents Hfiles Hall).
    unfold trace. cbn [fst].
    change (utf8_opens (collecting :: found_line files :: ?l))
      with (utf8_opens l).
    rewrite utf8_opens_app, utf8_opens_content_events.
    destruct (build_error w); cbn; apply app_nil_r.
  - intros pre f post e -> Hpre He.
    apply readable_read_all in Hpre. destruct Hpre as (contents & Hpre).
    assert (Hf : outcome (read_file_safely w f) = Err e)
      by (rewrite (read_file_safely_OSError w f e He); reflexivity).
    rewrite (main_read_error w pre f post contents e Hfiles Hpre Hf).
    unfold trace at 1. cbn [fst].
    change (utf8_opens (collecting :: found_line ?fs :: ?l))
      with (utf8_opens l).
    rewrite utf8_opens_app, utf8_opens_content_events.
    change (utf8_opens (processing ?a ?b ?c :: ?l)) with (utf8_opens l).
    rewrite utf8_opens_read. reflexivity.
Qed.

Lemma files_are_opened_in_order_witness :
  get_all_files REPO_ROOT (tree locked_world) = Ok [a_py; b_md]
  /\ [a_py; b_md] = [a_py] ++ b_md :: []
  /\ Forall (readable locked_world) [a_py]
  /\ read_bytes locked_world b_md = Err (OSError 13)
  /\ utf8_opens (trace (main locked_world)) = [a_py] ++ [b_md].
Proof.
  assert (H1 : get_all_files REPO_ROOT (tree locked_world) = Ok [a_py; b_md])
    by reflexivity.
  assert (H2 : Forall (readable locked_world) [a_py]).
  { constructor; [|constructor]. eexists. reflexivity. }
  assert (H3 : read_bytes locked_world b_md = Err (OSError 13))
    by reflexivity.
  split; [exact H1|]. split; [reflexivity|]. split; [exact H2|].
  split; [exact H3|].
  exact (proj2 (files_are_opened_in_order locked_world [a_py; b_md] H1)
           [a_py] b_md [] (OSError 13) eq_refl H2 H3).
Defined.



(** X11 — the counts of a built document agree: the number on the title
    page and in the line printed after the traversal is the number of lines
    of the table of contents, of file headers and of bodies. *)
Theorem counts_agree (w : World) (story : list flowable) :
  built_story (main w) = Some story ->
  exists n,
    nth_error story 3
    = Some (Paragraph (lit "Total Files: " ++ str_of_nat n) CustomSubtitle)
    /\ In (EvPrint (lit "Found " ++ str_of_nat n ++ lit " files to include"))
          (trace (main w))
    /\ List.length (toc_of story) = n
    /\ List.length (headers_of story) = n
    /\ List.length (bodies_of story) = n.
Proof.
  intros H. destruct (built_story_inv w story H)
    as (files & contents & Hfiles & Hall & Hlen & ->).
  exists (List.length files).
  destruct (parts_of_document files contents Hlen) as (Ht & Hh & Hb).
  rewrite Ht, Hh, Hb, toc_lines_length, !length_map, Hlen.
  split; [reflexivity|]. split; [|auto].
  rewrite (main_all_read w files contents Hfiles Hall).
  right. left. reflexivity.
Qed.

Lemma counts_agree_witness :
  built_story (main sample_world)
  = Some (document [a_py; b_md] [lit "x<y"; lit "hello"])
  /\ exists n,
       nth_error (document [a_py; b_md] [lit "x<y"; lit "hello"]) 3
       = Some (Paragraph (lit "Total Files: " ++ str_of_nat n) CustomSubtitle)
       /\ In (EvPrint (lit "Found " ++ str_of_nat n
                       ++ lit " files to include"))
             (trace (main sample_world))
       /\ List.length
            (toc_of (document [a_py; b_md] [lit "x<y"; lit "hello"])) = n
       /\ List.length
            (headers_of (document [a_py; b_md] [lit "x<y"; lit "hello"])) = n
       /\ List.length
            (bodies_of (document [a_py; b_md] [lit "x<y"; lit "hello"])) = n.
Proof.
  split; [reflexivity|].
  apply (counts_agree sample_world). reflexivity.
Defined.

Lemma nth_error_skip {A} (l l' : list A) (m : nat) :
  nth_error (l ++ l') (List.length l + m) = nth_error l' m.
Proof. induction l as [|x l IH]; [reflexivity | exact IH]. Qed.

Lemma sections_length (files : list Path) :
  forall contents, List.length contents = List.length files ->
    List.length (sections files contents) = (3 * List.length files)%nat.
Proof.
  induction files as [|f rest IH]; intros [|c cs] Hlen; try discriminate;
    [reflexivity|].
  injection Hlen as Hlen. cbn [sections section app List.length].
  rewrite (IH cs Hlen). lia.
Qed.

(** After the page break that ends the table of contents the story goes on
    in groups of three: header, body, page break. *)
Lemma sections_nth (files : list Path) :
  forall contents k f c,
    nth_error files k = Some f -> nth_error contents k = Some c ->
    nth_error (PageBreak :: sections files contents) (3 * k) = Some PageBreak
    /\ nth_error (PageBreak :: sections files contents) (3 * k + 1)
       = Some (header_line f)
    /\ nth_error (PageBreak :: sections files contents) (3 * k + 2)
       = Some (body_block c)
    /\ nth_error (PageBreak :: sections files contents) (3 * k + 3)
       = Some PageBreak.
Proof.
  induction files as [|g rest IH]; intros [|d cs] [|k] f c Hf Hc;
    try discriminate.
  - inversion Hf; inversion Hc; subst. repeat split.
  - cbn [nth_error] in Hf, Hc.
    destruct (IH cs k f c Hf Hc) as (H0 & H1 & H2 & H3).
    replace (3 * S k)%nat with (S (S (S (3 * k)))) by lia.
    cbn [sections section app Nat.add nth_error] in *.
    replace (3 * k + 1)%nat with (S (3 * k)) in * by lia.
    replace (3 * k + 2)%nat with (S (S (3 * k))) in * by lia.
    replace (3 * k + 3)%nat with (S (S (S (3 * k)))) in * by lia.
    cbn [nth_error] in *. auto.
Qed.

(** X12 — the layout of a built document over [n] files: [4 * n + 8]
    flowables, and for the file at position [k] of the sorted list a page
    break directly before its header, the header directly before its body,
    and a page break directly after the body; so every file starts on a
    fresh page. *)
Theorem every_file_starts_on_a_fresh_page (w : World)
    (story : list flowable) :
  built_story (main w) = Some story ->
  exists files contents,
    get_all_files REPO_ROOT (tree w) = Ok files
    /\ Forall2 (fun f c => outcome (read_file_safely w f) = Ok c)
               files contents
    /\ List.length story = (4 * List.length files + 8)%nat
    /\ forall k f c,
         nth_error files k = Some f -> nth_error contents k = Some c ->
         nth_error story (7 + List.length files + 3 * k) = Some PageBreak
         /\ nth_error story (7 + List.length files + (3 * k + 1))
            = Some (Paragraph (escape_xml (header_text f)) FileHeader)
         /\ nth_error story (7 + List.length files + (3 * k + 2))
            = Some (Preformatted (expand_tabs (escape_xml c)) Code)
         /\ nth_error story (7 + List.length files + (3 * k + 3))
            = Some PageBreak.
Proof.
  intros H. destruct (built_story_inv w story H)
    as (files & contents & Hfiles & Hall & Hlen & ->).
  exists files, contents. split; [exact Hfiles|].
  split; [apply read_all_Forall2, Hall|].
  assert (Hdoc : document files contents
                 = (front_matter files ++ toc_lines 1 files)
                   ++ PageBreak :: sections files contents).
  { unfold document. rewrite <- app_assoc. reflexivity. }
  assert (Hpre : List.length (front_matter files ++ toc_lines 1 files)
                 = (7 + List.length files)%nat).
  { rewrite length_app, toc_lines_length. reflexivity. }
  split.
  - rewrite Hdoc, length_app, Hpre. cbn [List.length].
    rewrite (sections_length files contents Hlen). lia.
  - intros k f c Hf Hc. rewrite Hdoc, <- Hpre, !nth_error_skip.
    apply (sections_nth files contents k f c Hf Hc).
Qed.

Lemma every_file_starts_on_a_fresh_page_witness :
  built_story (main sample_world)
  = Some (document [a_py; b_md] [lit "x<y"; lit "hello"])
  /\ exists files contents,
       get_all_files REPO_ROOT (tree sample_world) = Ok files
       /\ Forall2 (fun f c => outcome (read_file_safely sample_world f) = Ok c)
                  files contents
       /\ List.length (document [a_py; b_md] [lit "x<y"; lit "hello"])
          = (4 * List.length files + 8)%nat
       /\ forall k f c,
            nth_error files k = Some f -> nth_error contents k = Some c ->
            nth_error (document [a_py; b_md] [lit "x<y"; lit "hello"])
                      (7 + List.length files + 3 * k) = Some PageBreak
            /\ nth_error (document [a_py; b_md] [lit "x<y"; lit "hello"])
                         (7 + List.length files + (3 * k + 1))
               = Some (Paragraph (escape_xml (header_text f)) FileHeader)
            /\ nth_error (document [a_py; b_md] [lit "x<y"; lit "hello"])
                         (7 + List.length files + (3 * k + 2))
               = Some (Preformatted (expand_tabs (escape_xml c)) Code)
            /\ nth_error (document [a_py; b_md] [lit "x<y"; lit "hello"])
                         (7 + List.length files + (3 * k + 3))
               = Some PageBreak.
Proof.
  split; [reflexivity|].
  apply (every_file_starts_on_a_fresh_page sample_world). reflexivity.
Defined.

(** ** The selected list *)

Lemma rglob_below_skip (p : Path) (nm : str) (n : node)
    (l1 l2 : list (str * node)) :
  is_dir n = false ->
  rglob_below p (l1 ++ (nm, n) :: l2) = rglob_below p (l1 ++ l2).
Proof.
  intros Hn. induction l1 as [|[nm' c] l1 IH]; cbn [app rglob_below].
  - rewrite Hn. reflexivity.
  - rewrite IH. reflexivity.
Qed.

(** An entry of the root that the loop does not append leaves no mark on the
    result. *)
Lemma get_all_files_skip (root : Path) (nm : str) (n : node)
    (l1 l2 : list (str * node)) :
  is_dir n = false -> appended (child root nm) n = false ->
  get_all_files root (Dir (l1 ++ (nm, n) :: l2))
  = get_all_files root (Dir (l1 ++ l2)).
Proof.
  intros Hn Ha. unfold get_all_files.
  rewrite !rglob_Dir, (rglob_below_skip root nm n l1 l2 Hn).
  destruct (rglob_below root (l1 ++ l2)) as [b|]; [|reflexivity].
  do 2 f_equal. rewrite !map_app, !filter_app. cbn [map filter fst snd].
  rewrite Ha. reflexivity.
Qed.

(** X13 — the document that a run writes does not feed back: with the
    output file of an earlier run in the root directory, whatever it holds
    and wherever the directory lists it, [get_all_files] returns what it
    returns without it. *)
Theorem output_file_is_never_selected (l1 l2 : list (str * node))
    (data : list byte) :
  get_all_files REPO_ROOT (Dir (l1 ++ (output_name, File data) :: l2))
  = get_all_files REPO_ROOT (Dir (l1 ++ l2))
  /\ child REPO_ROOT output_name = output_path.
Proof.
  split; [|reflexivity].
  apply get_all_files_skip; reflexivity.
Qed.

(** Two names that differ in the case of an accented letter have the same
    sort key, so their order in the result is the order of the listing. *)
Example accented_tie :
  sort_key (child REPO_ROOT (201%N :: lit ".md"))
  = sort_key (child REPO_ROOT (233%N :: lit ".md"))
  /\ get_all_files REPO_ROOT
       (Dir [ (201%N :: lit ".md", File []); (233%N :: lit ".md", File []) ])
     = Ok [ child REPO_ROOT (201%N :: lit ".md");
            child REPO_ROOT (233%N :: lit ".md") ]
  /\ get_all_files REPO_ROOT
       (Dir [ (233%N :: lit ".md", File []); (201%N :: lit ".md", File []) ])
     = Ok [ child REPO_ROOT (233%N :: lit ".md");
            child REPO_ROOT (201%N :: lit ".md") ].
Proof. vm_compute. repeat split; reflexivity. Qed.

(** X14 — when no two selected paths have the same lowercase form, the
    result of [get_all_files] does not depend on the order in which the
    directories list their entries: two trees that hold the same kind of
    thing at every path, each directory listed in any order, give the same
    list. *)
Theorem selection_ignores_listing_order (root : Path) (t1 t2 : node)
    (files1 files2 : list Path) :
  get_all_files root t1 = Ok files1 ->
  get_all_files root t2 = Ok files2 ->
  same_below root t1 t2 ->
  NoDup (map sort_key files1) -> NoDup (map sort_key files2) ->
  files1 = files2.
Proof. apply get_all_files_same_below. Qed.

Lemma selection_ignores_listing_order_witness :
  get_all_files REPO_ROOT project_tree = Ok project_files
  /\ get_all_files REPO_ROOT relisted_project_tree = Ok project_files
  /\ same_below REPO_ROOT project_tree relisted_project_tree
  /\ NoDup (map sort_key project_files)
  /\ project_files = project_files.
Proof.
  assert (H1 : get_all_files REPO_ROOT project_tree = Ok project_files)
    by (vm_compute; reflexivity).
  assert (H2 : get_all_files REPO_ROOT relisted_project_tree
               = Ok project_files) by (vm_compute; reflexivity).
  assert (H3 : same_below REPO_ROOT project_tree relisted_project_tree)
    by exact (proj2 project_relisted).
  assert (H4 : NoDup (map sort_key project_files))
    by (vm_compute; no_dup).
  split; [exact H1|]. split; [exact H2|]. split; [exact H3|].
  split; [exact H4|].
  exact (selection_ignores_listing_order REPO_ROOT project_tree
           relisted_project_tree project_files project_files
           H1 H2 H3 H4 H4).
Defined.

(** X15 — the sort neither drops nor repeats a path, and paths with the same
    lowercase form stay in the order in which the traversal met them. *)
Theorem ties_keep_traversal_order (root : Path) (t : node)
    (found : list (Path * node)) :
  rglob root t = Ok found ->
  exists files,
    get_all_files root t = Ok files
    /\ Permutation (selected found) files
    /\ forall k, with_key sort_key k files
                 = with_key sort_key k (selected found).
Proof.
  intros H. exists (sort_by_key sort_key (selected found)).
  unfold get_all_files. rewrite H. split; [reflexivity|].
  split; [apply sort_by_key_perm | intros k; apply sort_by_key_stable].
Qed.

Lemma ties_keep_traversal_order_witness :
  rglob REPO_ROOT case_tree
  = Ok [(upper_path, File []); (lower_path, File [])]
  /\ exists files,
       get_all_files REPO_ROOT case_tree = Ok files
       /\ Permutation
            (selected [(upper_path, File []); (lower_path, File [])]) files
       /\ forall k, with_key sort_key k files
                    = with_key sort_key k
                        (selected [(upper_path, File []);
                                   (lower_path, File [])]).
Proof.
  split; [reflexivity|].
  apply (ties_keep_traversal_order REPO_ROOT case_tree). reflexivity.
Defined.

(** X19 — the files are sorted by the lowercase form of their absolute
    path, the document shows relative paths, and the two orders agree on
    selected files. *)
Theorem absolute_and_relative_order_agree (t : node) (files : list Path)
    (a b : Path) :
  get_all_files REPO_ROOT t = Ok files ->
  In a files -> In b files ->
  str_ltb (sort_key a) (sort_key b) = str_ltb (rel_key a) (rel_key b).
Proof.
  intros Hfiles Ha Hb.
  pose proof (get_all_files_under_root _ _ Hfiles) as Hroot.
  rewrite Forall_forall in Hroot.
  rewrite (sort_key_under_root a (Hroot a Ha)),
    (sort_key_under_root b (Hroot b Hb)).
  apply str_ltb_app.
Qed.

Lemma absolute_and_relative_order_agree_witness :
  get_all_files REPO_ROOT sigma_tree = Ok [b_md; sigma_path]
  /\ In sigma_path [b_md; sigma_path] /\ In b_md [b_md; sigma_path]
  /\ rel_key sigma_path = [959%N; 948%N; 959%N; 962%N] ++ lit "/a.py"
  /\ str_ltb (sort_key sigma_path) (sort_key b_md)
     = str_ltb (rel_key sigma_path) (rel_key b_md).
Proof.
  assert (H1 : get_all_files REPO_ROOT sigma_tree = Ok [b_md; sigma_path])
    by (vm_compute; reflexivity).
  assert (H2 : In sigma_path [b_md; sigma_path])
    by (right; left; reflexivity).
  assert (H3 : In b_md [b_md; sigma_path]) by (left; reflexivity).
  split; [exact H1|]. split; [exact H2|]. split; [exact H3|].
  split; [vm_compute; reflexivity|].
  exact (absolute_and_relative_order_agree sigma_tree [b_md; sigma_path]
           sigma_path b_md H1 H2 H3).
Defined.

(** X18 — in a tree whose directories hold no name twice, [get_all_files]
    returns no path twice, so no file gets two lines in the table of
    contents or two sections. *)
Theorem selected_files_are_distinct (root : Path) (t : node)
    (files : list Path) :
  distinct_names t ->
  get_all_files root t = Ok files ->
  NoDup files.
Proof.
  intros Hd H. unfold get_all_files in H.
  destruct (rglob root t) as [found|] eqn:Hr; [|discriminate].
  inversion H; subst.
  eapply Permutation_NoDup; [apply sort_by_key_perm|].
  apply NoDup_map_filter, (rglob_NoDup t Hd root found Hr).
Qed.

Lemma selected_files_are_distinct_witness :
  distinct_names sample_tree
  /\ get_all_files REPO_ROOT sample_tree = Ok [a_py; b_md]
  /\ NoDup [a_py; b_md].
Proof.
  assert (H1 : distinct_names sample_tree).
  { apply distinct_Dir; [no_dup|].
    constructor; [apply distinct_File|].
    constructor.
    { apply distinct_Dir; [no_dup|].
      constructor; [apply distinct_File | constructor]. }
    constructor; [apply distinct_File | constructor]. }
  assert (H2 : get_all_files REPO_ROOT sample_tree = Ok [a_py; b_md])
    by reflexivity.
  split; [exact H1|]. split; [exact H2|].
  exact (selected_files_are_distinct REPO_ROOT sample_tree [a_py; b_md]
           H1 H2).
Defined.
